(** * BibleOrgSys / SwordResources.py: verse-line filters

    A shallow embedding of the verse normalisation code of
    [SwordResources.py]: [replaceFixedPairs], the three dialect filters
    [filterOSISVerseLine], [filterGBFVerseLine], [filterTHMLVerseLine] and the
    three importers that hand the filtered line to the book.

    Conventions of the embedding.
    - A Python [str] is a [string]; one [ascii] stands for one code point
      below 256, so the embedding covers verse text in that range.
    - A Python function that can raise returns a [result]: [Ok v] for a
      normal return, [Raise e] for an uncaught exception.  A [while] loop
      whose termination is not evident takes a [fuel] bound on its number
      of iterations and yields [OutOfFuel] when the bound is reached.
    - [print] and [logging] calls compute no value and are left out.
    - [BibleOrgSysGlobals.debugFlag] is a parameter ([debugFlag]);
      [debuggingThisModule] is the constant [False] of the module.
    - The bare name [halt] is not defined anywhere in the module: evaluating
      it raises [NameError]. *)

From Stdlib Require Import Bool Arith Lia List Ascii String.
From Stdlib Require DecimalString.
Import ListNotations.
Open Scope list_scope.
Open Scope nat_scope.
Open Scope string_scope.

(** ** Results of Python calls *)

Inductive exn : Type :=
| IndexError
| NameError
| AssertionError
| TypeError
| KeyError
| ValueError
| UnboundLocalError.

Inductive result (A : Type) : Type :=
| Ok (a : A)
| Raise (e : exn)
| OutOfFuel.

Arguments Ok {A} a.
Arguments Raise {A} e.
Arguments OutOfFuel {A}.

Definition bind {A B : Type} (r : result A) (k : A -> result B) : result B :=
  match r with
  | Ok a => k a
  | Raise e => Raise e
  | OutOfFuel => OutOfFuel
  end.

Notation "e1 ;; e2" := (bind e1 (fun _ => e2))
  (at level 61, right associativity).
Notation "x <- c1 ;; c2" := (bind c1 (fun x => c2))
  (at level 61, c1 at next level, right associativity).
Notation "' pat <- c1 ;; c2" := (bind c1 (fun x => match x with pat => c2 end))
  (at level 61, pat pattern, c1 at next level, right associativity).

Definition assert (b : bool) : result unit :=
  if b then Ok tt else Raise AssertionError.

Definition returns {A : Type} (r : result A) : Prop := exists a, r = Ok a.

(** ** Python string primitives *)

Module PyStr.

(** The double quote, the newline and the pilcrow (U+00B6). *)
Definition dq : string := String "034"%char EmptyString.
Definition nl : string := String "010"%char EmptyString.
Definition pilcrow : string := String "182"%char EmptyString.

(** [s[n:]] *)
Fixpoint drop (n : nat) (s : string) : string :=
  match n, s with
  | 0, _ => s
  | S n', String _ t => drop n' t
  | S _, EmptyString => EmptyString
  end.

(** [s[:n]] *)
Fixpoint take (n : nat) (s : string) : string :=
  match n, s with
  | 0, _ => EmptyString
  | S n', String c t => String c (take n' t)
  | S _, EmptyString => EmptyString
  end.

(** [s[a:b]] for indices [0 <= a], [0 <= b]. *)
Definition slice (a b : nat) (s : string) : string := take (b - a) (drop a s).

(** [s.startswith(sub)] *)
Fixpoint startswith (sub s : string) : bool :=
  match sub with
  | EmptyString => true
  | String a sub' =>
      match s with
      | EmptyString => false
      | String b s' => Ascii.eqb a b && startswith sub' s'
      end
  end.

(** [s.find(sub)], with [None] for the result [-1]. *)
Fixpoint find0 (sub s : string) : option nat :=
  if startswith sub s then Some 0
  else match s with
       | EmptyString => None
       | String _ t => option_map S (find0 sub t)
       end.

(** [s.find(sub, start)] for [0 <= start]: the search runs over
    [s[start:]], and finds nothing when [start] is past the end. *)
Definition find (sub s : string) (start : nat) : option nat :=
  if Nat.leb start (length s)
  then option_map (Nat.add start) (find0 sub (drop start s))
  else None.

(** [sub in s] *)
Definition contains (sub s : string) : bool :=
  match find sub s 0 with Some _ => true | None => false end.

(** [s.replace(old, new, 1)] *)
Fixpoint replace1 (old new s : string) : string :=
  if startswith old s then new ++ drop (length old) s
  else match s with
       | EmptyString => EmptyString
       | String c t => String c (replace1 old new t)
       end.

(** [s.replace(old, new)] for a non-empty [old]: the occurrences are
    replaced from the left and do not overlap.  [skip] counts the
    characters of the occurrence being replaced that are still to be
    dropped. *)
Fixpoint replaceFrom (skip : nat) (old new s : string) : string :=
  match s with
  | EmptyString => EmptyString
  | String c t =>
      match skip with
      | S k => replaceFrom k old new t
      | 0 => if startswith old s then new ++ replaceFrom (length old - 1) old new t
             else String c (replaceFrom 0 old new t)
      end
  end.

(** With an empty [old] Python puts [new] before every character and at
    the end. *)
Fixpoint interleave (new s : string) : string :=
  match s with
  | EmptyString => new
  | String c t => new ++ String c (interleave new t)
  end.

Definition replace (old new s : string) : string :=
  match old with
  | EmptyString => interleave new s
  | _ => replaceFrom 0 old new s
  end.

(** [s.count(sub)] for a non-empty [sub]. *)
Fixpoint countFrom (skip : nat) (sub s : string) : nat :=
  match s with
  | EmptyString => 0
  | String c t =>
      match skip with
      | S k => countFrom k sub t
      | 0 => if startswith sub s then S (countFrom (length sub - 1) sub t)
             else countFrom 0 sub t
      end
  end.

Definition count (sub s : string) : nat :=
  match sub with
  | EmptyString => S (length s)
  | _ => countFrom 0 sub s
  end.

(** [str.isspace] on one code point below 256. *)
Definition isspace (c : ascii) : bool :=
  let n := nat_of_ascii c in
  (Nat.leb 9 n && Nat.leb n 13) || (Nat.leb 28 n && Nat.leb n 32)
  || Nat.eqb n 133 || Nat.eqb n 160.

(** [s.lstrip()], [s.rstrip()], [s.strip()] *)
Fixpoint lstrip (s : string) : string :=
  match s with
  | EmptyString => EmptyString
  | String c t => if isspace c then lstrip t else s
  end.

Fixpoint rstrip (s : string) : string :=
  match s with
  | EmptyString => EmptyString
  | String c t =>
      match rstrip t with
      | EmptyString => if isspace c then EmptyString else String c EmptyString
      | t' => String c t'
      end
  end.

Definition strip (s : string) : string := lstrip (rstrip s).

(** Truth value of a string: non-empty. *)
Definition truthy (s : string) : bool :=
  match s with EmptyString => false | _ => true end.

(** [s[-1]] *)
Fixpoint last (s : string) : option ascii :=
  match s with
  | EmptyString => None
  | String c EmptyString => Some c
  | String _ t => last t
  end.

(** Membership of a string in a tuple of strings. *)
Definition inTuple (s : string) (l : list string) : bool :=
  existsb (String.eqb s) l.

(** [str(n)] for a natural number. *)
Definition str (n : nat) : string :=
  DecimalString.NilZero.string_of_uint (Nat.to_uint n).

Definition isdigit (c : ascii) : bool :=
  let n := nat_of_ascii c in Nat.leb 48 n && Nat.leb n 57.

(** [int(s)] for a string of decimal digits; [None] stands for the
    [ValueError] of any other string that the filters can build. *)
Definition int (s : string) : option nat :=
  match s with
  | EmptyString => None
  | _ => if forallb isdigit (list_ascii_of_string s)
         then option_map Nat.of_uint (DecimalString.NilZero.uint_of_string s)
         else None
  end.

End PyStr.
Import PyStr.

(** ** [replaceFixedPairs] (SwordResources.py, lines 95-137) *)

(** A replacement entry: (openCode, newOpenCode, closeCode, newCloseCode). *)
Definition pair4 : Type := (string * string * string * string)%type.

(** Lines 129-131: the inner scan, run while [insertIndex < len(verseLine)-1];
    [k] is the number of iterations left, [len(verseLine)-1-insertIndex]. *)
Fixpoint scanToSpace (k : nat) (verseLine : string) (insertIndex : nat) : nat :=
  match k with
  | 0 => insertIndex
  | S k' =>
      match get insertIndex verseLine with
      | Some " "%char => insertIndex
      | _ => scanToSpace k' verseLine (S insertIndex)
      end
  end.

(** Lines 126-131: [while verseLine[insertIndex] == '\\']; the subscript
    raises [IndexError] past the end of the line. *)
Fixpoint skipMarkers (fuel : nat) (verseLine : string) (insertIndex : nat)
  : result nat :=
  match fuel with
  | 0 => OutOfFuel
  | S f =>
      match get insertIndex verseLine with
      | None => Raise IndexError
      | Some ch =>
          if Ascii.eqb ch "\"%char then
            let i1 := S insertIndex in
            skipMarkers f verseLine
              (scanToSpace (length verseLine - 1 - i1) verseLine i1)
          else Ok insertIndex
      end
  end.

(** Lines 113-119: one turn of the loop over the occurrences of [openCode],
    entered with [ix] the index given by the last [find]. *)
Definition openStep (p : pair4) (verseLine : string) (ix : nat) : string :=
  let '(openCode, newOpenCode, closeCode, newCloseCode) := p in
  let verseLine := replace1 openCode newOpenCode verseLine in
  match find closeCode verseLine ix with
  | None => verseLine ++ newCloseCode
  | Some _ => replace1 closeCode newCloseCode verseLine
  end.

(** Lines 111-120: [while ix != -1]. *)
Fixpoint replaceOpens (fuel : nat) (p : pair4) (verseLine : string) (ix : nat)
  : result string :=
  match fuel with
  | 0 => OutOfFuel
  | S f =>
      let verseLine := openStep p verseLine ix in
      match find (fst (fst (fst p))) verseLine ix with
      | None => Ok verseLine
      | Some ix' => replaceOpens f p verseLine ix'
      end
  end.

(** Lines 121-134: the repair of a close code left without its open code. *)
Definition repairBareClose (p : pair4) (verseLine : string) : result string :=
  let '(openCode, newOpenCode, closeCode, newCloseCode) := p in
  match find closeCode verseLine 0 with
  | None => Ok verseLine
  | Some _ =>
      let verseLine := replace1 closeCode newCloseCode verseLine in
      insertIndex <- skipMarkers (S (length verseLine)) verseLine 0 ;;
      Ok (take insertIndex verseLine ++ " " ++ newOpenCode
            ++ drop insertIndex verseLine)
  end.

(** Lines 110-134: the body of the [for] loop, for one entry. *)
Definition replaceFixedPair (fuel : nat) (p : pair4) (verseLine : string)
  : result string :=
  let '(openCode, _, _, _) := p in
  verseLine <- match find openCode verseLine 0 with
               | None => Ok verseLine
               | Some ix => replaceOpens fuel p verseLine ix
               end ;;
  repairBareClose p verseLine.

Fixpoint replaceFixedPairs (fuel : nat) (replacementList : list pair4)
  (verseLine : string) : result string :=
  match replacementList with
  | [] => Ok verseLine
  | p :: rest =>
      verseLine <- replaceFixedPair fuel p verseLine ;;
      replaceFixedPairs fuel rest verseLine
  end.

(** ** Regular expressions as [re.search] runs them

    The patterns of the module are sequences of literals, character
    classes, counted repetitions of one character class (greedy or lazy)
    and capturing groups that are neither nested nor repeated.  [Mark]
    stands for a parenthesis of a group.  The matcher backtracks in the
    order of Python's [re]: a lazy repetition tries the fewest characters
    first, a greedy one the most, and [search] returns the match at the
    leftmost start. *)

Module Re.

Inductive cls : Type :=
| Any                      (* .      any character but the newline *)
| Digit                    (* \d *)
| NotDigit                 (* [^\d] *)
| OneOf (s : string)       (* [...] *)
| NoneOf (s : string).     (* [^...] *)

Fixpoint mem (c : ascii) (s : string) : bool :=
  match s with
  | EmptyString => false
  | String a t => Ascii.eqb c a || mem c t
  end.

Definition inCls (k : cls) (c : ascii) : bool :=
  match k with
  | Any => negb (Ascii.eqb c "010"%char)
  | Digit => isdigit c
  | NotDigit => negb (isdigit c)
  | OneOf s => mem c s
  | NoneOf s => negb (mem c s)
  end.

Inductive item : Type :=
| Lit (s : string)
| One (k : cls)
| Rep (greedy : bool) (lo : nat) (hi : option nat) (k : cls)
| Mark.

Definition regex : Type := list item.

(** What a match consumed, cut at the marks, and the text after it. *)
Definition found : Type := (list string * string)%type.

Definition pushc (c : ascii) (r : option found) : option found :=
  match r with
  | Some (seg :: segs, rest) => Some (String c seg :: segs, rest)
  | Some ([], rest) => Some ([String c EmptyString], rest)
  | None => None
  end.

Definition pushm (r : option found) : option found :=
  match r with
  | Some (segs, rest) => Some (EmptyString :: segs, rest)
  | None => None
  end.

Fixpoint lit (l : string) (cont : string -> option found) (s : string)
  : option found :=
  match l with
  | EmptyString => cont s
  | String a l' =>
      match s with
      | String b t => if Ascii.eqb a b then pushc b (lit l' cont t) else None
      | EmptyString => None
      end
  end.

Definition mayMore (hi : option nat) : bool :=
  match hi with Some 0 => false | _ => true end.

Fixpoint rep (greedy : bool) (k : cls) (lo : nat) (hi : option nat)
  (cont : string -> option found) (s : string) {struct s} : option found :=
  match lo with
  | S lo' =>
      match s with
      | String c t =>
          if mayMore hi && inCls k c
          then pushc c (rep greedy k lo' (option_map pred hi) cont t)
          else None
      | EmptyString => None
      end
  | 0 =>
      if greedy then
        match
          match s with
          | String c t =>
              if mayMore hi && inCls k c
              then pushc c (rep greedy k 0 (option_map pred hi) cont t)
              else None
          | EmptyString => None
          end
        with
        | Some r => Some r
        | None => cont s
        end
      else
        match cont s with
        | Some r => Some r
        | None =>
            match s with
            | String c t =>
                if mayMore hi && inCls k c
                then pushc c (rep greedy k 0 (option_map pred hi) cont t)
                else None
            | EmptyString => None
            end
        end
  end.

(** A match of the whole pattern at the start of the text. *)
Fixpoint matchAt (r : regex) : string -> option found :=
  match r with
  | [] => fun s => Some ([EmptyString], s)
  | Lit l :: r' => lit l (matchAt r')
  | One k :: r' =>
      fun s =>
        match s with
        | String c t => if inCls k c then pushc c (matchAt r' t) else None
        | EmptyString => None
        end
  | Rep g lo hi k :: r' => rep g k lo hi (matchAt r')
  | Mark :: r' => fun s => pushm (matchAt r' s)
  end.

(** A match object: the text before the match, the matched text cut at
    the marks, the text after the match. *)
Record rmatch : Type := mkMatch {
  before : string;
  segs : list string;
  after : string
}.

Definition shift (c : ascii) (x : rmatch) : rmatch :=
  mkMatch (String c (before x)) (segs x) (after x).

(** [re.search(r, s)] *)
Fixpoint search (r : regex) (s : string) : option rmatch :=
  match matchAt r s with
  | Some (sg, rest) => Some (mkMatch EmptyString sg rest)
  | None =>
      match s with
      | EmptyString => None
      | String c t => option_map (shift c) (search r t)
      end
  end.

(** The match [x] found after the text [w]. *)
Definition shiftBy (w : string) (x : rmatch) : rmatch :=
  mkMatch (w ++ before x) (segs x) (after x).

(** [match.group(n)] for [n >= 1], [match.group(0)], [match.start()],
    [match.end()]. *)
Definition group (n : nat) (x : rmatch) : string :=
  nth (2 * n - 1) (segs x) EmptyString.
Definition group0 (x : rmatch) : string := String.concat EmptyString (segs x).
Definition mstart (x : rmatch) : nat := length (before x).
Definition mend (x : rmatch) : nat := length (before x) + length (group0 x).

(** Pieces of patterns. *)
Definition G (r : regex) : regex := Mark :: app r [Mark].
Definition pat (l : list regex) : regex := List.concat l.
Definition plusLazy (k : cls) : item := Rep false 1 None k.     (* +? *)
Definition starLazy (k : cls) : item := Rep false 0 None k.     (* *? *)
Definition opt (k : cls) : item := Rep true 0 (Some 1) k.       (* ?  *)
Definition upTo (n : nat) (k : cls) : item := Rep true 1 (Some n) k.      (* {1,n}  *)
Definition upToLazy (n : nat) (k : cls) : item := Rep false 1 (Some n) k. (* {1,n}? *)

End Re.
Import Re.

(** The loop shape shared by the filters:
    [while True: match = re.search(r, verseLine); if not match: break;
     replacement = ...; verseLine = verseLine[:match.start()] + replacement
     + verseLine[match.end():]].  [body] computes the replacement and may
    raise. *)
Fixpoint rewriteAll (fuel : nat) (r : regex) (body : rmatch -> result string)
  (verseLine : string) : result string :=
  match fuel with
  | 0 => OutOfFuel
  | S f =>
      match search r verseLine with
      | None => Ok verseLine
      | Some mt =>
          replacement <- body mt ;;
          rewriteAll f r body (before mt ++ replacement ++ after mt)
      end
  end.

(** [match.group(1) if match else ''] *)
Definition group1OrEmpty (r : regex) (s : string) : string :=
  match search r s with
  | Some mt => group 1 mt
  | None => EmptyString
  end.

(** Line 44 of the module. *)
Definition debuggingThisModule : bool := false.

(** ** [filterTHMLVerseLine] and [importTHMLVerseLine] (lines 947-1046) *)

Module THML.

(** line 965: <div class="title">(.+?)</div> *)
Definition reTitleDiv : regex :=
    pat [[Lit ("<div class=" ++ dq ++ "title" ++ dq ++ ">")];
         G [plusLazy Any];
         [Lit "</div>"]].

(** line 971: <div class="sechead">(.+?)</div> *)
Definition reSecheadDiv : regex :=
    pat [[Lit ("<div class=" ++ dq ++ "sechead" ++ dq ++ ">")];
         G [plusLazy Any];
         [Lit "</div>"]].

(** line 983: <scripRef([^/>]+?)>(.+?)</scripRef> *)
Definition reScripRef : regex :=
    pat [[Lit "<scripRef"];
         G [plusLazy (NoneOf "/>")];
         [Lit ">"];
         G [plusLazy Any];
         [Lit "</scripRef>"]].

(** line 987: passage="(.+?)" *)
Definition rePassage : regex :=
    pat [[Lit ("passage=" ++ dq)];
         G [plusLazy Any];
         [Lit dq]].

(** line 989: version="(.+?)" *)
Definition reVersion : regex :=
    pat [[Lit ("version=" ++ dq)];
         G [plusLazy Any];
         [Lit dq]].

(** line 996: the pattern <WT(.+?)> *)
Definition reWT : regex :=
    pat [[Lit "<WT"];
         G [plusLazy Any];
         [Lit ">"]].

(** Lines 1008-1014. *)
Definition replacementList : list pair4 :=
  [ ("<font color=" ++ dq ++ "#ff0000" ++ dq ++ ">", "\wj ", "</font>", "\wj*");
    ("<small>", "\sc ", "</small>", "\sc*");
    ("<note>", "\f ", "</note>", "\f*");
    ("<scripRef>", "\x ", "</scripRef>", "\x*");
    ("<i>", "\it ", "</i>", "\it*");
    ("<sup>", "\ord ", "</sup>", "\ord*") ].

(** Lines 982-994: the replacement of one scripRef element. *)
Definition scripRefReplacement (mt : rmatch) : result string :=
  let attributes := group 1 mt in
  let contents := group 2 mt in
  let passage := group1OrEmpty rePassage attributes in
  let version := group1OrEmpty reVersion attributes in
  Ok ("\x - \xo " ++ contents ++ " \xt " ++ version ++ " " ++ passage ++ " \x*").

End THML.

(** ** [filterGBFVerseLine] (lines 779-920) *)

(** The footnote correlation map, [contentsDict]: the latest binding of a
    key comes first. *)
Definition dict : Type := list (string * string).

Fixpoint dictGet (k : string) (d : dict) : option string :=
  match d with
  | [] => None
  | (k', v) :: d' => if String.eqb k k' then Some v else dictGet k d'
  end.

Definition dictSet (k v : string) (d : dict) : dict := (k, v) :: d.

(** [d[k]], with its [KeyError]. *)
Definition dictItem (k : string) (d : dict) : result string :=
  match dictGet k d with
  | Some v => Ok v
  | None => Raise KeyError
  end.

Module GBF.

(** line 803: <RF>(\d{1,2}?)<Rf> *)
Definition reCaller : regex :=
    pat [[Lit "<RF>"];
         G [upToLazy 2 Digit];
         [Lit "<Rf>"]].

(** line 806: <RF>(\d{1,2}?)\)? (.+?)<Rf> *)
Definition reCallee : regex :=
    pat [[Lit "<RF>"];
         G [upToLazy 2 Digit];
         [opt (OneOf ")"); Lit " "];
         G [plusLazy Any];
         [Lit "<Rf>"]].

(** line 808: <RF>([^\d].+?)<Rf> *)
Definition reUnnumbered : regex :=
    pat [[Lit "<RF>"];
         G [One NotDigit; plusLazy Any];
         [Lit "<Rf>"]].

(** line 824: (\d{1,2})\) (.*?)(\d{1,2})\)  *)
Definition reTwoParts : regex :=
    pat [G [upTo 2 Digit];
         [Lit ") "];
         G [starLazy Any];
         G [upTo 2 Digit];
         [Lit ") "]].

(** line 825: (\d{1,2})\)  *)
Definition reOnePart : regex :=
    pat [G [upTo 2 Digit];
         [Lit ") "]].

(** line 872: <RF>(.+?)<Rf> *)
Definition reFootnote : regex :=
    pat [[Lit "<RF>"];
         G [plusLazy Any];
         [Lit "<Rf>"]].

(** line 882: <WT(.+?)> *)
Definition reWT : regex :=
    pat [[Lit "<WT"];
         G [plusLazy Any];
         [Lit ">"]].

(** line 888: <WH0(\d{1,4})> *)
Definition reWH : regex :=
    pat [[Lit "<WH0"];
         G [upTo 4 Digit];
         [Lit ">"]].

(** line 894: <WG(\d{1,4})> *)
Definition reWG : regex :=
    pat [[Lit "<WG"];
         G [upTo 4 Digit];
         [Lit ">"]].

(** Lines 901-904. *)
Definition replacementList : list pair4 :=
  [ ("<FI>", "\it ", "<Fi>", "\it*");
    ("<FO><FO>", "\NL**\d ", "<Fo><Fo>", "\NL**");
    ("<FO>", "\em ", "<Fo>", "\em*") ].

(** The footnote field built at lines 813, 845, 860 and 877. *)
Definition footnote (contents : string) : string :=
  "\f + \ft " ++ contents ++ "\f*".

(** Lines 822-841: the loop that separates the numbered callees of
    [replacement2]; it yields the map, what is left of [replacement2],
    and [j]. *)
Fixpoint splitCallees (fuel : nat) (contentsDict : dict)
  (replacement2 : string) (j : nat) : result (dict * string * nat) :=
  match fuel with
  | 0 => OutOfFuel
  | S f =>
      if negb (truthy replacement2) then Ok (contentsDict, replacement2, j)
      else
        let match8 := search reTwoParts replacement2 in
        let match9 := search reOnePart replacement2 in
        match match8 with
             | Some m8 =>
                 assert (match match9 with
                         | Some m9 => String.eqb (group 1 m9) (group 1 m8)
                         | None => false
                         end)
             | None => Ok tt
             end ;;
        match match9 with
        | None => Ok (contentsDict, replacement2, j)
        | Some m9 =>
            let callee9 := group 1 m9 in
            match match8 with
            | Some m8 =>
                let callee8a := group 1 m8 in
                let contents8 := group 2 m8 in
                let callee8b := group 3 m8 in
                assert (String.eqb callee8a callee9) ;;
                splitCallees f (dictSet callee9 contents8 contentsDict)
                  (drop (mend m8 - 2 - length callee8b) replacement2) (S j)
            | None =>
                splitCallees f
                  (dictSet callee9 (drop (length callee9 + 2) replacement2)
                     contentsDict)
                  EmptyString (S j)
            end
        end
  end.

(** The variables that live across the turns of the caller loop:
    [verseLine], [contentsDict], [lastCalled], and [callee, contents]
    (unbound until a turn assigns them). *)
Record callerState : Type := mkCallerState {
  csLine : string;
  csDict : dict;
  lastCalled : option (string * string);
  calleeContents : option (string * string)
}.

(** Line 870: [lastCalled = callee, contents]. *)
Definition endOfTurn (verseLine : string) (contentsDict : dict)
  (cc : option (string * string)) : result callerState :=
  match cc with
  | None => Raise UnboundLocalError
  | Some x => Ok (mkCallerState verseLine contentsDict (Some x) (Some x))
  end.

(** Line 846 and line 863. *)
Definition assertAfter (m1 m : rmatch) : result unit :=
  assert (Nat.ltb (mstart m1) (mstart m) && Nat.ltb (mend m1) (mend m)
          && Nat.ltb (mend m1) (mstart m)).

(** Lines 805-870: one turn of the caller loop, for a caller [match1]. *)
Definition callerTurn (fuel : nat) (st : callerState) (match1 : rmatch)
  : result callerState :=
  let verseLine := csLine st in
  let contentsDict := csDict st in
  let caller := group 1 match1 in
  let match2 := search reCallee verseLine in
  let match3 := match match2 with
                | None => search reUnnumbered verseLine
                | Some _ => None
                end in
  assert (match match2, lastCalled st, match3 with
               | None, None, None => false
               | _, _, _ => true
               end) ;;
  match dictGet caller contentsDict with
  | Some stored =>
      let replacement1 := footnote stored in
      endOfTurn (before match1 ++ replacement1 ++ after match1)
        contentsDict (calleeContents st)
  | None =>
      match match2 with
      | Some m2 =>
          let callee := group 1 m2 in
          let contents := rstrip (group 2 m2) in
          let replacement2 := callee ++ ") " ++ contents in
          '(contentsDict, replacement2, j) <-
             splitCallees fuel contentsDict replacement2 0 ;;
          let '(contentsDict, replacement2) :=
            match j with
            | 0 => (dictSet callee contents contentsDict, EmptyString)
            | _ => (contentsDict, replacement2)
            end in
          stored <- dictItem caller contentsDict ;;
          let replacement1 := footnote stored in
          assertAfter match1 m2 ;;
          endOfTurn
            (before match1 ++ replacement1
               ++ slice (mend match1) (mstart m2) verseLine
               ++ replacement2 ++ after m2)
            contentsDict (Some (callee, contents))
      | None =>
          match match3 with
          | Some m3 =>
              assert (String.eqb caller "1") ;;
              let callee := caller in
              let contents := rstrip (group 1 m3) in
              let contentsDict := dictSet caller contents contentsDict in
              n <- match int caller with
                   | Some n => Ok n
                   | None => Raise ValueError
                   end ;;
              let nextOne := " " ++ str (n + 1) ++ ") " in
              replacement3 <- (if contains nextOne contents
                               then Raise NameError
                               else Ok EmptyString) ;;
              stored <- dictItem caller contentsDict ;;
              let replacement1 := footnote stored in
              assertAfter match1 m3 ;;
              endOfTurn
                (before match1 ++ replacement1
                   ++ slice (mend match1) (mstart m3) verseLine
                   ++ replacement3 ++ after m3)
                contentsDict (Some (callee, contents))
          | None =>
              match calleeContents st with
              | None => Raise UnboundLocalError
              | Some _ => Raise NameError
              end
          end
      end
  end.

(** Lines 802-870: [while True], left when no caller is found. *)
Fixpoint callerLoop (fuel innerFuel : nat) (st : callerState)
  : result callerState :=
  match fuel with
  | 0 => OutOfFuel
  | S f =>
      match search reCaller (csLine st) with
      | None => Ok st
      | Some match1 =>
          st' <- callerTurn innerFuel st match1 ;;
          callerLoop f innerFuel st'
      end
  end.

End GBF.

(** ** [filterOSISVerseLine] (lines 141-747) *)

Module OSIS.

(** *** The patterns *)

(** line 173: savlm="(.+?)" *)
Definition reSavlm : regex :=
    pat [[Lit ("savlm=" ++ dq)];
         G [plusLazy Any];
         [Lit dq]].

(** line 178: strong:([GH]\d{1,5}) *)
Definition reStrong : regex :=
    pat [[Lit "strong:"];
         G [One (OneOf "GH"); upTo 5 Digit]].

(** line 185: lemma="(.+?)" *)
Definition reLemma : regex :=
    pat [[Lit ("lemma=" ++ dq)];
         G [plusLazy Any];
         [Lit dq]].

(** line 197: morph="(.+?)" *)
Definition reMorph : regex :=
    pat [[Lit ("morph=" ++ dq)];
         G [plusLazy Any];
         [Lit dq]].

(** line 202: strongMorph:(TH\d{1,4}) *)
Definition reStrongMorph : regex :=
    pat [[Lit "strongMorph:"];
         G [Lit "TH"; upTo 4 Digit]].

(** line 209: type="(.+?)" *)
Definition reType : regex :=
    pat [[Lit ("type=" ++ dq)];
         G [plusLazy Any];
         [Lit dq]].

(** line 215: subType="(.+?)" *)
Definition reSubType : regex :=
    pat [[Lit ("subType=" ++ dq)];
         G [plusLazy Any];
         [Lit dq]].

(** line 221: src="(.+?)" *)
Definition reSrc : regex :=
    pat [[Lit ("src=" ++ dq)];
         G [plusLazy Any];
         [Lit dq]].

(** line 227: wn="(\d+?)" *)
Definition reWn : regex :=
    pat [[Lit ("wn=" ++ dq)];
         G [plusLazy Digit];
         [Lit dq]].

(** line 263: <milestone type="x-importer" subType="x-osis2mod" n="\$Rev: .+? \$"/> *)
Definition reImporter : regex :=
    pat [[Lit ("<milestone type=" ++ dq ++ "x-importer" ++ dq ++ " subType=" ++ dq ++ "x-osis2mod" ++ dq ++ " n=" ++ dq ++ "$Rev: "); plusLazy Any; Lit (" $" ++ dq ++ "/>")]].

(** line 269: <div [^/>]*?eID=[^/>]+?/> *)
Definition reDivEID : regex :=
    pat [[Lit "<div "; starLazy (NoneOf "/>"); Lit "eID="; plusLazy (NoneOf "/>"); Lit "/>"]].

(** line 273: <div [^/>]*?subType="x-preverse"[^/>]*?/> *)
Definition reDivPreverse : regex :=
    pat [[Lit "<div "; starLazy (NoneOf "/>"); Lit ("subType=" ++ dq ++ "x-preverse" ++ dq); starLazy (NoneOf "/>"); Lit "/>"]].

(** line 277: <div [^/>]*?type="front"[^/>]*?/> *)
Definition reDivFront : regex :=
    pat [[Lit "<div "; starLazy (NoneOf "/>"); Lit ("type=" ++ dq ++ "front" ++ dq); starLazy (NoneOf "/>"); Lit "/>"]].

(** line 282: <div ([^/>]*?)type="section"([^/>]*?)> *)
Definition reDivSection : regex :=
    pat [[Lit "<div "];
         G [starLazy (NoneOf "/>")];
         [Lit ("type=" ++ dq ++ "section" ++ dq)];
         G [starLazy (NoneOf "/>")];
         [Lit ">"]].

(** line 289: <div [^/>]*?type="colophon"[^/>]*?/> *)
Definition reDivColophon : regex :=
    pat [[Lit "<div "; starLazy (NoneOf "/>"); Lit ("type=" ++ dq ++ "colophon" ++ dq); starLazy (NoneOf "/>"); Lit "/>"]].

(** line 293: <chapter [^/>]*?eID=[^/>]+?/> *)
Definition reChapterEID : regex :=
    pat [[Lit "<chapter "; starLazy (NoneOf "/>"); Lit "eID="; plusLazy (NoneOf "/>"); Lit "/>"]].

(** line 297: <verse [^/>]*?osisID="[^/>]+?"[^/>]*?> *)
Definition reVerseStart : regex :=
    pat [[Lit "<verse "; starLazy (NoneOf "/>"); Lit ("osisID=" ++ dq); plusLazy (NoneOf "/>"); Lit dq; starLazy (NoneOf "/>"); Lit ">"]].

(** line 303: <lg [^/>]+?/> *)
Definition reLg : regex :=
    pat [[Lit "<lg "; plusLazy (NoneOf "/>"); Lit "/>"]].

(** line 308: <chapter ([^/>]*?)sID="([^/>]+?)"([^/>]*?)/> *)
Definition reChapterSID : regex :=
    pat [[Lit "<chapter "];
         G [starLazy (NoneOf "/>")];
         [Lit ("sID=" ++ dq)];
         G [plusLazy (NoneOf "/>")];
         [Lit dq];
         G [starLazy (NoneOf "/>")];
         [Lit "/>"]].

(** line 316: <chapter ([^/>]*?)osisID="([^/>]+?)"([^/>]*?)> *)
Definition reChapterOsisID : regex :=
    pat [[Lit "<chapter "];
         G [starLazy (NoneOf "/>")];
         [Lit ("osisID=" ++ dq)];
         G [plusLazy (NoneOf "/>")];
         [Lit dq];
         G [starLazy (NoneOf "/>")];
         [Lit ">"]].

(** line 326: <div ([^/>]*?)type="([^/>]+?)"([^/>]*?)/?> ?<title>(.+?)</title> *)
Definition reDivTitle : regex :=
    pat [[Lit "<div "];
         G [starLazy (NoneOf "/>")];
         [Lit ("type=" ++ dq)];
         G [plusLazy (NoneOf "/>")];
         [Lit dq];
         G [starLazy (NoneOf "/>")];
         [opt (OneOf "/"); Lit ">"; opt (OneOf " "); Lit "<title>"];
         G [plusLazy Any];
         [Lit "</title>"]].

(** line 341: <div ([^/>]*?)type="([^/>]+?)"([^/>]*?)/><title> *)
Definition reDivTitleStart : regex :=
    pat [[Lit "<div "];
         G [starLazy (NoneOf "/>")];
         [Lit ("type=" ++ dq)];
         G [plusLazy (NoneOf "/>")];
         [Lit dq];
         G [starLazy (NoneOf "/>")];
         [Lit "/><title>"]].

(** line 354: <div ([^/>]*?)type="([^/>]+?)"([^/>]*?)/>.NL..<head>(.+?)</head> *)
Definition reDivHead : regex :=
    pat [[Lit "<div "];
         G [starLazy (NoneOf "/>")];
         [Lit ("type=" ++ dq)];
         G [plusLazy (NoneOf "/>")];
         [Lit dq];
         G [starLazy (NoneOf "/>")];
         [Lit "/>"; One Any; Lit "NL"; One Any; One Any; Lit "<head>"];
         G [plusLazy Any];
         [Lit "</head>"]].

(** line 364: <div ([^/>]*?)type="([^/>]+?)"([^/>]*?)/?> *)
Definition reDiv : regex :=
    pat [[Lit "<div "];
         G [starLazy (NoneOf "/>")];
         [Lit ("type=" ++ dq)];
         G [plusLazy (NoneOf "/>")];
         [Lit dq];
         G [starLazy (NoneOf "/>")];
         [opt (OneOf "/"); Lit ">"]].

(** line 382: <title type="parallel"><reference type="parallel">(.+?)</reference></title> *)
Definition reTitleParallel : regex :=
    pat [[Lit ("<title type=" ++ dq ++ "parallel" ++ dq ++ "><reference type=" ++ dq ++ "parallel" ++ dq ++ ">")];
         G [plusLazy Any];
         [Lit "</reference></title>"]].

(** line 390: <title type="scope"><reference>(.+?)</reference></title> *)
Definition reTitleScope : regex :=
    pat [[Lit ("<title type=" ++ dq ++ "scope" ++ dq ++ "><reference>")];
         G [plusLazy Any];
         [Lit "</reference></title>"]].

(** line 398: <title ([^/>]+?)>(.+?)</title> *)
Definition reTitle : regex :=
    pat [[Lit "<title "];
         G [plusLazy (NoneOf "/>")];
         [Lit ">"];
         G [plusLazy Any];
         [Lit "</title>"]].

(** line 409: <w ([^/>]+?)/> *)
Definition reWEmpty : regex :=
    pat [[Lit "<w "];
         G [plusLazy (NoneOf "/>")];
         [Lit "/>"]].

(** line 415: <w ([^/>]+?)>(.*?)</w> *)
Definition reW : regex :=
    pat [[Lit "<w "];
         G [plusLazy (NoneOf "/>")];
         [Lit ">"];
         G [starLazy Any];
         [Lit "</w>"]].

(** line 425: <q ([^/>]+?)>(.+?)</q> *)
Definition reQ : regex :=
    pat [[Lit "<q "];
         G [plusLazy (NoneOf "/>")];
         [Lit ">"];
         G [plusLazy Any];
         [Lit "</q>"]].

(** line 439: <q ([^/>]+?)> *)
Definition reQOpen : regex :=
    pat [[Lit "<q "];
         G [plusLazy (NoneOf "/>")];
         [Lit ">"]].

(** line 453: <q ([^/>]*?)sID="(.+?)"(.*?)/> *)
Definition reQSID : regex :=
    pat [[Lit "<q "];
         G [starLazy (NoneOf "/>")];
         [Lit ("sID=" ++ dq)];
         G [plusLazy Any];
         [Lit dq];
         G [starLazy Any];
         [Lit "/>"]].

(** line 457: level="(.+?)" *)
Definition reLevel : regex :=
    pat [[Lit ("level=" ++ dq)];
         G [plusLazy Any];
         [Lit dq]].

(** line 459: marker="(.+?)" *)
Definition reMarker : regex :=
    pat [[Lit ("marker=" ++ dq)];
         G [plusLazy Any];
         [Lit dq]].

(** line 465: <q ([^/>]*?)eID="(.+?)"(.*?)/> *)
Definition reQEID : regex :=
    pat [[Lit "<q "];
         G [starLazy (NoneOf "/>")];
         [Lit ("eID=" ++ dq)];
         G [plusLazy Any];
         [Lit dq];
         G [starLazy Any];
         [Lit "/>"]].

(** line 475: <q ([^/>]*?)type="block"(.*?)/> *)
Definition reQBlock : regex :=
    pat [[Lit "<q "];
         G [starLazy (NoneOf "/>")];
         [Lit ("type=" ++ dq ++ "block" ++ dq)];
         G [starLazy Any];
         [Lit "/>"]].

(** line 482: <q(.*?)>(.+?)</q> *)
Definition reQPlain : regex :=
    pat [[Lit "<q"];
         G [starLazy Any];
         [Lit ">"];
         G [plusLazy Any];
         [Lit "</q>"]].

(** line 489: <l ([^/>]*?)level="(.+?)"([^/>]*?)/> *)
Definition reLLevel : regex :=
    pat [[Lit "<l "];
         G [starLazy (NoneOf "/>")];
         [Lit ("level=" ++ dq)];
         G [plusLazy Any];
         [Lit dq];
         G [starLazy (NoneOf "/>")];
         [Lit "/>"]].

(** line 505: <l ([^/>]+?)/> *)
Definition reL : regex :=
    pat [[Lit "<l "];
         G [plusLazy (NoneOf "/>")];
         [Lit "/>"]].

(** line 520: <item ([^/>]*?)type="(.+?)"([^/>]*?)>(.+?)</item> *)
Definition reItem : regex :=
    pat [[Lit "<item "];
         G [starLazy (NoneOf "/>")];
         [Lit ("type=" ++ dq)];
         G [plusLazy Any];
         [Lit dq];
         G [starLazy (NoneOf "/>")];
         [Lit ">"];
         G [plusLazy Any];
         [Lit "</item>"]].

(** line 529: <item ([^/>]*?)type="(.+?)"([^/>]*?)> *)
Definition reItemOpen : regex :=
    pat [[Lit "<item "];
         G [starLazy (NoneOf "/>")];
         [Lit ("type=" ++ dq)];
         G [plusLazy Any];
         [Lit dq];
         G [starLazy (NoneOf "/>")];
         [Lit ">"]].

(** line 540: <name ([^/>]*?)type="(.+?)"([^/>]*?)>(.+?)</name> *)
Definition reName : regex :=
    pat [[Lit "<name "];
         G [starLazy (NoneOf "/>")];
         [Lit ("type=" ++ dq)];
         G [plusLazy Any];
         [Lit dq];
         G [starLazy (NoneOf "/>")];
         [Lit ">"];
         G [plusLazy Any];
         [Lit "</name>"]].

(** line 550: <seg ([^/>]+?)>([^<]+?)</seg> *)
Definition reSeg : regex :=
    pat [[Lit "<seg "];
         G [plusLazy (NoneOf "/>")];
         [Lit ">"];
         G [plusLazy (NoneOf "<")];
         [Lit "</seg>"]].

(** line 563: <foreign ([^/>]+?)>(.+?)</foreign> *)
Definition reForeign : regex :=
    pat [[Lit "<foreign "];
         G [plusLazy (NoneOf "/>")];
         [Lit ">"];
         G [plusLazy Any];
         [Lit "</foreign>"]].

(** line 572: <reference([^/>]*?)>(.+?)</reference> *)
Definition reReference : regex :=
    pat [[Lit "<reference"];
         G [starLazy (NoneOf "/>")];
         [Lit ">"];
         G [plusLazy Any];
         [Lit "</reference>"]].

(** line 582: <reference([^/>]*?)/> *)
Definition reReferenceEmpty : regex :=
    pat [[Lit "<reference"];
         G [starLazy (NoneOf "/>")];
         [Lit "/>"]].

(** line 586: osisRef="(.+?)" *)
Definition reOsisRef : regex :=
    pat [[Lit ("osisRef=" ++ dq)];
         G [plusLazy Any];
         [Lit dq]].

(** line 594: <hi ([^/>]+?)>(.+?)</hi> *)
Definition reHi : regex :=
    pat [[Lit "<hi "];
         G [plusLazy (NoneOf "/>")];
         [Lit ">"];
         G [plusLazy Any];
         [Lit "</hi>"]].

(** line 612: <hi>(.+?)</hi> *)
Definition reHiPlain : regex :=
    pat [[Lit "<hi>"];
         G [plusLazy Any];
         [Lit "</hi>"]].

(** line 626: <milestone ([^/>]*?)type="x-usfm-(.+?)"([^/>]*?)/> *)
Definition reMilestoneUsfm : regex :=
    pat [[Lit "<milestone "];
         G [starLazy (NoneOf "/>")];
         [Lit ("type=" ++ dq ++ "x-usfm-")];
         G [plusLazy Any];
         [Lit dq];
         G [starLazy (NoneOf "/>")];
         [Lit "/>"]].

(** line 631: n="(.+?)" *)
Definition reN : regex :=
    pat [[Lit ("n=" ++ dq)];
         G [plusLazy Any];
         [Lit dq]].

(** line 639: <milestone ([^/>]*?)type="x-strongsMarkup"([^/>]*?)/> *)
Definition reMilestoneStrongs : regex :=
    pat [[Lit "<milestone "];
         G [starLazy (NoneOf "/>")];
         [Lit ("type=" ++ dq ++ "x-strongsMarkup" ++ dq)];
         G [starLazy (NoneOf "/>")];
         [Lit "/>"]].

(** line 647: <milestone ([^/>]*?)type="x-p"([^/>]*?)/> *)
Definition reMilestoneXP : regex :=
    pat [[Lit "<milestone "];
         G [starLazy (NoneOf "/>")];
         [Lit ("type=" ++ dq ++ "x-p" ++ dq)];
         G [starLazy (NoneOf "/>")];
         [Lit "/>"]].

(** line 660: <milestone ([^/>]*?)type="cQuote"([^/>]*?)/> *)
Definition reMilestoneCQuote : regex :=
    pat [[Lit "<milestone "];
         G [starLazy (NoneOf "/>")];
         [Lit ("type=" ++ dq ++ "cQuote" ++ dq)];
         G [starLazy (NoneOf "/>")];
         [Lit "/>"]].

(** line 669: <closer ([^/>]*?)sID="([^/>]+?)"([^/>]*?)/>(.*?)<closer ([^/>]*?)eID="([^/>]+?)"([^/>]*?)/> *)
Definition reCloser : regex :=
    pat [[Lit "<closer "];
         G [starLazy (NoneOf "/>")];
         [Lit ("sID=" ++ dq)];
         G [plusLazy (NoneOf "/>")];
         [Lit dq];
         G [starLazy (NoneOf "/>")];
         [Lit "/>"];
         G [starLazy Any];
         [Lit "<closer "];
         G [starLazy (NoneOf "/>")];
         [Lit ("eID=" ++ dq)];
         G [plusLazy (NoneOf "/>")];
         [Lit dq];
         G [starLazy (NoneOf "/>")];
         [Lit "/>"]].

(** line 678: <note ([^/>]*?)swordFootnote="([^/>]+?)"([^/>]*?)>(.*?)</note> *)
Definition reNoteSword : regex :=
    pat [[Lit "<note "];
         G [starLazy (NoneOf "/>")];
         [Lit ("swordFootnote=" ++ dq)];
         G [plusLazy (NoneOf "/>")];
         [Lit dq];
         G [starLazy (NoneOf "/>")];
         [Lit ">"];
         G [starLazy Any];
         [Lit "</note>"]].

(** line 690: <note([^/>]*?)>(.*?)</note> *)
Definition reNote : regex :=
    pat [[Lit "<note"];
         G [starLazy (NoneOf "/>")];
         [Lit ">"];
         G [starLazy Any];
         [Lit "</note>"]].

(** line 699: <abbr([^/>]*?)>(.*?)</abbr> *)
Definition reAbbr : regex :=
    pat [[Lit "<abbr"];
         G [starLazy (NoneOf "/>")];
         [Lit ">"];
         G [starLazy Any];
         [Lit "</abbr>"]].

(** line 708: <a ([^/>]*?)href="([^>]+?)"([^/>]*?)>(.+?)</a> *)
Definition reA : regex :=
    pat [[Lit "<a "];
         G [starLazy (NoneOf "/>")];
         [Lit ("href=" ++ dq)];
         G [plusLazy (NoneOf ">")];
         [Lit dq];
         G [starLazy (NoneOf "/>")];
         [Lit ">"];
         G [plusLazy Any];
         [Lit "</a>"]].

(** *** The tables *)

(** Lines 243-259: the straight substitutions, in order. *)
Definition straightSubstitutions : list (string * string) :=
  [ (" />", "/>");
    ("<milestone marker=" ++ dq ++ pilcrow ++ dq ++ " type=" ++ dq ++ "x-p" ++ dq ++ "/>",
      "\NL**\p\NL**");
    ("<milestone marker=" ++ dq ++ pilcrow ++ dq ++ " subType=" ++ dq ++ "x-added" ++ dq
       ++ " type=" ++ dq ++ "x-p" ++ dq ++ "/>", "\NL**\p\NL**");
    ("<milestone type=" ++ dq ++ "x-extra-p" ++ dq ++ "/>", "\NL**\p\NL**");
    ("<milestone type=" ++ dq ++ "line" ++ dq ++ "/><milestone type=" ++ dq ++ "line" ++ dq ++ "/>",
      "\NL**\b\NL**");
    ("<milestone type=" ++ dq ++ "line" ++ dq ++ "/>", "\NL**");
    ("<titlePage>", "\NL**");
    ("</titlePage>", "\NL**");
    ("<lb type=" ++ dq ++ "x-begin-paragraph" ++ dq ++ "/>", "\NL**\p\NL**");
    ("<lb type=" ++ dq ++ "x-end-paragraph" ++ dq ++ "/>", "\NL**");
    ("<lb subType=" ++ dq ++ "x-same-paragraph" ++ dq ++ " type=" ++ dq ++ "x-begin-paragraph" ++ dq ++ "/>",
      "\NL**");
    ("<lb subType=" ++ dq ++ "x-extra-space" ++ dq ++ " type=" ++ dq ++ "x-begin-paragraph" ++ dq ++ "/>",
      "\NL**\b\NL**");
    ("<lb/>", "\NL**");
    ("<lb type=" ++ dq ++ "x-unparagraphed" ++ dq ++ "/>", EmptyString);
    ("<list>", "\NL**");
    ("</list>", "\NL**");
    ("<l/>", "\NL**\q1\NL**");
    ("<title subtype=" ++ dq ++ "x-preverse" ++ dq ++ " type=" ++ dq ++ "section" ++ dq ++ "></title>",
      EmptyString) ].

(** [for old, new in (...): verseLine = verseLine.replace(old, new)] *)
Fixpoint substituteAll (table : list (string * string)) (verseLine : string)
  : string :=
  match table with
  | [] => verseLine
  | (old, new) :: rest => substituteAll rest (replace old new verseLine)
  end.

(** Lines 718-730: the fixed part of the replacement list. *)
Definition fixedReplacementList : list pair4 :=
  [ ("<seg><divineName>", "\nd ", "</divineName></seg>", "\nd*");
    ("<seg><transChange type=" ++ dq ++ "added" ++ dq ++ ">", "\add ",
      "</transChange></seg>", "\add*");
    ("<catchWord>", "\add ", "</catchWord>", "\add*");
    ("<speaker>", "\sp ", "</speaker>", "\sp*");
    ("<inscription>", "\bdit ", "</inscription>", "\bdit*");
    ("<milestone type=" ++ dq ++ "x-idiom-start" ++ dq ++ "/>", "\bdit ",
      "<milestone type=" ++ dq ++ "x-idiom-end" ++ dq ++ "/>", "\bdit*");
    ("<seg>", EmptyString, "</seg>", EmptyString);
    ("<foreign>", "\tl ", "</foreign>", "\tl*");
    ("<i>", "\it ", "</i>", "\it*") ].

(** Lines 731-736: the two entries appended according to the line. *)
Definition replacementList (verseLine : string) : list pair4 :=
  app fixedReplacementList
    [ (if contains "<divineName>" verseLine
       then ("<divineName>", "\nd ", "</divineName>", "\nd*")
       else ("<divineName type=" ++ dq ++ "x-yhwh" ++ dq ++ ">", "\nd ",
              "</divineName>", "\nd*"));
      (if contains "<transChange>" verseLine
       then ("<transChange>", "\add ", "</transChange>", "\add*")
       else ("<transChange type=" ++ dq ++ "added" ++ dq ++ ">", "\add ",
              "</transChange>", "\add*")) ].

(** *** Local variables that outlive the loop that assigns them

    [replacement], [marker] and [level] are read by later loops on
    branches that do not assign them; [None] is an unbound name. *)
Record locals : Type := mkLocals {
  replacement : option string;
  marker : option string;
  level : option string
}.

Definition noLocals : locals := mkLocals None None None.

Definition setReplacement (r : string) (lc : locals) : locals :=
  mkLocals (Some r) (marker lc) (level lc).
Definition setMarker (m : string) (lc : locals) : locals :=
  mkLocals (replacement lc) (Some m) (level lc).
Definition setLevel (l : string) (lc : locals) : locals :=
  mkLocals (replacement lc) (marker lc) (Some l).

(** Reading a local: [UnboundLocalError] when it was never assigned. *)
Definition readLocal (v : option string) : result string :=
  match v with
  | Some s => Ok s
  | None => Raise UnboundLocalError
  end.

(** [replacement = r], then the splice of [replacement] into the line. *)
Definition emit (r : string) (lc : locals) : result (locals * string) :=
  Ok (setReplacement r lc, r).

(** A loop that deletes each match and assigns no local. *)
Definition delete (lc : locals) (mt : rmatch) : result (locals * string) :=
  Ok (lc, EmptyString).

(** [while True: match = re.search(r, verseLine); if not match: break; ...;
    verseLine = verseLine[:match.start()] + ... + verseLine[match.end():]];
    [body] yields the locals after the turn and the text spliced in. *)
Fixpoint rewriteLoop (fuel : nat) (r : regex)
  (body : locals -> rmatch -> result (locals * string))
  (st : locals * string) : result (locals * string) :=
  match fuel with
  | 0 => OutOfFuel
  | S f =>
      match search r (snd st) with
      | None => Ok st
      | Some mt =>
          '(lc, spliced) <- body (fst st) mt ;;
          rewriteLoop f r body (lc, before mt ++ spliced ++ after mt)
      end
  end.

(** [match = re.search(r, verseLine); if match: ...] *)
Definition rewriteOnce (r : regex)
  (body : locals -> rmatch -> result (locals * string))
  (st : locals * string) : result (locals * string) :=
  match search r (snd st) with
  | None => Ok st
  | Some mt =>
      '(lc, spliced) <- body (fst st) mt ;;
      Ok (lc, before mt ++ spliced ++ after mt)
  end.

(** [verseLine = verseLine.replace(old, new)] between two loops. *)
Definition substitute (old new : string) (st : locals * string)
  : result (locals * string) :=
  Ok (fst st, replace old new (snd st)).

(** Lines 177-182 and their twins: the codes found in one attribute value
    are appended to [attributeReplacementResult], each wrapped in
    [marker]. *)
Fixpoint extractCodes (fuel : nat) (r : regex) (marker : string)
  (value : string) (attributeReplacementResult : string) : result string :=
  match fuel with
  | 0 => OutOfFuel
  | S f =>
      match search r value with
      | None => Ok attributeReplacementResult
      | Some match3 =>
          extractCodes f r marker (before match3 ++ after match3)
            (attributeReplacementResult
               ++ "\" ++ marker ++ " " ++ group 1 match3 ++ "\" ++ marker ++ "*")
      end
  end.

(** An attribute whose value carries codes (savlm, lemma, morph). *)
Definition codedAttribute (fuel : nat) (r codes : regex) (marker : string)
  (st : string * string) : result (string * string) :=
  let '(attributeString, attributeReplacementResult) := st in
  match search r attributeString with
  | Some match2 =>
      res <- extractCodes fuel codes marker (group 1 match2)
               attributeReplacementResult ;;
      Ok (before match2 ++ after match2, res)
  | None => Ok st
  end.

(** An attribute that is only removed (subType, src, wn). *)
Definition droppedAttribute (r : regex) (st : string * string)
  : result (string * string) :=
  let '(attributeString, attributeReplacementResult) := st in
  match search r attributeString with
  | Some match2 => Ok (before match2 ++ after match2, attributeReplacementResult)
  | None => Ok st
  end.

(** Lines 209-214: the type attribute, with its assertion. *)
Definition typeAttribute (st : string * string) : result (string * string) :=
  let '(attributeString, attributeReplacementResult) := st in
  match search reType attributeString with
  | Some match2 =>
      let typeValue := group 1 match2 in
      assert (startswith "x-split" typeValue) ;;
      Ok (before match2 ++ after match2, attributeReplacementResult)
  | None => Ok st
  end.

(** Lines 173-231: the body of the [for j] loop. *)
Definition wordAttributesTurn (fuel : nat) (st : string * string)
  : result (string * string) :=
  st <- codedAttribute fuel reSavlm reStrong "str" st ;;
  st <- codedAttribute fuel reLemma reStrong "str" st ;;
  st <- codedAttribute fuel reMorph reStrongMorph "morph" st ;;
  st <- typeAttribute st ;;
  st <- droppedAttribute reSubType st ;;
  st <- droppedAttribute reSrc st ;;
  droppedAttribute reWn st.

(** Lines 172-231: [for j in range( 0, attributeCount )]. *)
Fixpoint wordAttributesLoop (fuel : nat) (attributeCount : nat)
  (st : string * string) : result (string * string) :=
  match attributeCount with
  | 0 => Ok st
  | S n =>
      st' <- wordAttributesTurn fuel st ;;
      wordAttributesLoop fuel n st'
  end.

(** Lines 331-337, 346-349, 358-359: the section types of a title. *)
Definition titleMarkerOf (sectionType : string) : result string :=
  if String.eqb sectionType "section" then Ok "s1"
  else if String.eqb sectionType "subSection" then Ok "s2"
  else if String.eqb sectionType "x-subSubSection" then Ok "s3"
  else if String.eqb sectionType "majorSection" then Ok "sr"
  else if String.eqb sectionType "book" then Ok "mt1"
  else if String.eqb sectionType "introduction" then Ok "iot"
  else Raise NameError.

Definition titleStartMarkerOf (sectionType : string) : result string :=
  if String.eqb sectionType "section" then Ok "s1"
  else if String.eqb sectionType "subSection" then Ok "s2"
  else if String.eqb sectionType "x-subSubSection" then Ok "s3"
  else Raise NameError.

Definition headMarkerOf (sectionType : string) : result string :=
  if String.eqb sectionType "outline" then Ok "iot"
  else Raise NameError.

(** Lines 368-377: the replacement of a div by its type, in chapter [C]. *)
Definition divReplacement (C divType : string) : result string :=
  if String.eqb divType "x-p" then Ok "\NL**\p\NL**"
  else if String.eqb divType "glossary" then Ok "\NL**\id GLO\NL**"
  else if String.eqb divType "book" then Ok EmptyString
  else if String.eqb divType "outline" then Ok "\NL**\iot "
  else if String.eqb divType "paragraph"
       then Ok (if String.eqb C "0" then "\NL**\ip " else "\NL**\p\NL**")
  else if String.eqb divType "majorSection" then Ok "\NL**\ms\NL**"
  else if String.eqb divType "section" then Ok "\NL**\s1 "
  else if inTuple divType ["preface"; "titlePage"; "introduction"]
       then Ok "\NL**\ip "
  else if inTuple divType ["x-license"; "x-trademark"] then Ok "\NL**\rem "
  else Raise NameError.

End OSIS.

Section Filters.

(** [BibleOrgSysGlobals.debugFlag] *)
Variable debugFlag : bool.

(** Lines 1017-1020 and their twins in the other filters: the check for
    markup left over.  It prints the line, and halts only when both debug
    flags are set. *)
Definition leftoverCheck (verseLine : string) : result unit :=
  if (contains "<" verseLine || contains ">" verseLine)
     && (debugFlag && debuggingThisModule)
  then Raise NameError else Ok tt.

Definition filterTHMLVerseLine (fuel : nat)
  (thmlVerseString moduleName BBB C V : string) : result string :=
  let verseLine := thmlVerseString in
  verseLine <- rewriteAll fuel THML.reTitleDiv
                 (fun mt => Ok ("\mt " ++ group 1 mt)) verseLine ;;
  verseLine <- rewriteAll fuel THML.reSecheadDiv
                 (fun mt => Ok ("\s " ++ group 1 mt)) verseLine ;;
  verseLine <- rewriteAll fuel THML.reScripRef THML.scripRefReplacement verseLine ;;
  verseLine <- rewriteAll fuel THML.reWT (fun _ => Ok EmptyString) verseLine ;;
  let verseLine := replace "<br />" "\NL**" verseLine in
  let verseLine := replace "<br/>" "\NL**" verseLine in
  verseLine <- replaceFixedPairs fuel THML.replacementList verseLine ;;
  leftoverCheck verseLine ;;
  Ok verseLine.



Definition filterGBFVerseLine (fuel : nat)
  (gbfVerseString moduleName BBB C V : string) : result string :=
  let verseLine := gbfVerseString in
  let verseLine :=
    if String.eqb moduleName "ASV"
    then replace "pit of the<RF>1<Rf> shearing"
           "pit of the<RF>2<Rf> shearing" verseLine
    else verseLine in
  st <- GBF.callerLoop fuel fuel
          (GBF.mkCallerState verseLine [] None None) ;;
  let verseLine := GBF.csLine st in
  verseLine <- rewriteAll fuel GBF.reFootnote
                 (fun match4 => Ok (GBF.footnote (group 1 match4))) verseLine ;;
  verseLine <- rewriteAll fuel GBF.reWT (fun _ => Ok EmptyString) verseLine ;;
  verseLine <- rewriteAll fuel GBF.reWH
                 (fun mt => Ok ("\str H" ++ group 1 mt ++ " \str*")) verseLine ;;
  verseLine <- rewriteAll fuel GBF.reWG
                 (fun mt => Ok ("\str G" ++ group 1 mt ++ " \str*")) verseLine ;;
  verseLine <- replaceFixedPairs fuel GBF.replacementList verseLine ;;
  let verseLine := replace "<CM>" "\NL**\p\NL**" verseLine in
  let verseLine := replace "<Fo>" "\NL**" verseLine in
  let verseLine := replace nl "\NL**" verseLine in
  leftoverCheck verseLine ;;
  Ok verseLine.

(** *** [filterOSISVerseLine] *)

(** [if BibleOrgSysGlobals.debugFlag: halt] *)
Definition haltIfDebug : result unit :=
  if debugFlag then Raise NameError else Ok tt.

(** Lines 163-238. *)
Definition handleOSISWordAttributes (fuel : nat) (attributeString : string)
  : result string :=
  let attributeReplacementResult := EmptyString in
  let attributeCount := count ("=" ++ dq) attributeString in
  '(attributeString, attributeReplacementResult) <-
     OSIS.wordAttributesLoop fuel attributeCount
       (attributeString, attributeReplacementResult) ;;
  (if truthy (strip attributeString) then haltIfDebug else Ok tt) ;;
  Ok attributeReplacementResult.

Section OSISPasses.

Import OSIS.

(** Lines 276-280. *)
Definition divFrontBody (V : string) (lc : locals) (mt : rmatch) : result (locals * string) :=
  assert (String.eqb V "0") ;;
  Ok (lc, EmptyString).

(** Lines 281-287. *)
Definition divSectionBody (lc : locals) (mt : rmatch)
  : result (locals * string) :=
  let attributes := group 1 mt ++ group 2 mt in
  assert (contains ("scope=" ++ dq) attributes) ;;
  Ok (lc, EmptyString).

(** Lines 296-300. *)
Definition verseStartBody (V : string) (lc : locals) (mt : rmatch)
  : result (locals * string) :=
  assert (negb (String.eqb V "0")) ;;
  Ok (lc, EmptyString).

(** Lines 308-315. *)
Definition chapterSIDBody (C V : string) (lc : locals) (mt : rmatch)
  : result (locals * string) :=
  assert (truthy C && negb (String.eqb C "0")) ;;
  assert (String.eqb V "0") ;;
  Ok (lc, EmptyString).

(** Lines 316-323. *)
Definition chapterOsisIDBody (V : string) (lc : locals) (mt : rmatch)
  : result (locals * string) :=
  assert (String.eqb V "0") ;;
  Ok (lc, EmptyString).

(** Lines 325-340: a div followed by its title. *)
Definition divTitleBody (lc : locals) (mt : rmatch)
  : result (locals * string) :=
  let sectionType := group 2 mt in
  let words := group 4 mt in
  titleMarker <- titleMarkerOf sectionType ;;
  emit ("\NL**\" ++ titleMarker ++ " " ++ words ++ "\NL**") lc.

(** Lines 341-352. *)
Definition divTitleStartBody (lc : locals) (mt : rmatch)
  : result (locals * string) :=
  let sectionType := group 2 mt in
  titleMarker <- titleStartMarkerOf sectionType ;;
  emit ("\NL**\" ++ titleMarker ++ " ") lc.

(** Lines 353-362. *)
Definition divHeadBody (lc : locals) (mt : rmatch)
  : result (locals * string) :=
  let sectionType := group 2 mt in
  let words := group 4 mt in
  titleMarker <- headMarkerOf sectionType ;;
  emit ("\NL**\" ++ titleMarker ++ " " ++ words ++ "\NL**") lc.

(** Lines 363-379: a div by its type. *)
Definition divBody (C : string) (lc : locals) (mt : rmatch) : result (locals * string) :=
  let divType := group 2 mt in
  r <- divReplacement C divType ;;
  emit r lc.

(** Lines 408-412. *)
Definition wEmptyBody (fuel : nat) (lc : locals) (mt : rmatch) : result (locals * string) :=
  r <- handleOSISWordAttributes fuel (group 1 mt) ;;
  emit r lc.

(** Lines 414-422. *)
Definition wBody (fuel : nat) (lc : locals) (mt : rmatch) : result (locals * string) :=
  let attributes := group 1 mt in
  let words := group 2 mt in
  r <- handleOSISWordAttributes fuel attributes ;;
  emit (words ++ r) lc.

(** Lines 428-435 and 442-449: a quotation is rewritten when it is
    attributed to Jesus; on the other branch [replacement] keeps the
    value it had. *)
Definition quoteBody (spliced : string) (lc : locals) (attributes : string)
  : result (locals * string) :=
  if contains ("who=" ++ dq ++ "Jesus" ++ dq) attributes then
    (if contains ("marker=" ++ dq) attributes
        && negb (contains ("marker=" ++ dq ++ dq) attributes)
     then haltIfDebug else Ok tt) ;;
    emit spliced lc
  else
    haltIfDebug ;;
    r <- readLocal (replacement lc) ;;
    Ok (lc, r).

(** Lines 424-437. *)
Definition qBody (lc : locals) (mt : rmatch) : result (locals * string) :=
  quoteBody ("\wj " ++ group 2 mt ++ "\wj*") lc (group 1 mt).

(** Lines 438-451. *)
Definition qOpenBody (lc : locals) (mt : rmatch) : result (locals * string) :=
  quoteBody "\wj " lc (group 1 mt).

(** Lines 452-463. *)
Definition qSIDBody (lc : locals) (mt : rmatch) : result (locals * string) :=
  let attributes := group 1 mt ++ group 3 mt in
  let level :=
    match search reLevel attributes with
    | Some match2 => group 1 match2
    | None => "1"
    end in
  let quoteSign := group1OrEmpty reMarker attributes in
  emit ("\NL**\q" ++ level ++ " " ++ quoteSign) (setLevel level lc).

(** Lines 464-473. *)
Definition qEIDBody (lc : locals) (mt : rmatch) : result (locals * string) :=
  let attributes := group 1 mt ++ group 3 mt in
  let quoteSign := group1OrEmpty reMarker attributes in
  emit (quoteSign ++ "\NL**") lc.

(** Lines 488-503. *)
Definition lLevelBody (lc : locals) (mt : rmatch) : result (locals * string) :=
  let attributes := group 1 mt ++ group 3 mt in
  let level := group 2 mt in
  let lc := setLevel level lc in
  assert (contains level "1234") ;;
  if contains ("sID=" ++ dq) attributes then emit ("\NL**\q" ++ level ++ " ") lc
  else if contains ("eID=" ++ dq) attributes then emit EmptyString lc
  else Raise NameError.

(** Lines 504-518; the message printed before the halt reads [level]. *)
Definition lBody (lc : locals) (mt : rmatch) : result (locals * string) :=
  let attributes := group 1 mt in
  if contains ("sID=" ++ dq) attributes then emit "\NL**\q1 " lc
  else if contains ("eID=" ++ dq) attributes then emit "\NL**" lc
  else (readLocal (level lc) ;; Raise NameError).

(** [marker+itemType[-1]] *)
Definition itemMarker (attributes itemType : string) : result string :=
  let marker := if contains "x-introduction" attributes then "io" else "li" in
  match last itemType with
  | Some c => Ok (marker ++ String c EmptyString)
  | None => Raise IndexError
  end.

Definition itemMarkerBase (attributes : string) : string :=
  if contains "x-introduction" attributes then "io" else "li".

(** Lines 519-528. *)
Definition itemBody (lc : locals) (mt : rmatch) : result (locals * string) :=
  let attributes := group 1 mt ++ group 3 mt in
  let itemType := group 2 mt in
  let item := group 4 mt in
  assert (inTuple itemType ["x-indent-1"; "x-indent-2"]) ;;
  m <- itemMarker attributes itemType ;;
  emit ("\NL**\" ++ m ++ " " ++ item ++ "\NL**")
    (setMarker (itemMarkerBase attributes) lc).

(** Lines 529-537. *)
Definition itemOpenBody (lc : locals) (mt : rmatch)
  : result (locals * string) :=
  let attributes := group 1 mt ++ group 3 mt in
  let itemType := group 2 mt in
  assert (inTuple itemType ["x-indent-1"; "x-indent-2"]) ;;
  m <- itemMarker attributes itemType ;;
  emit ("\NL**\" ++ m ++ "\NL**") (setMarker (itemMarkerBase attributes) lc).

(** Lines 539-548. *)
Definition nameBody (lc : locals) (mt : rmatch) : result (locals * string) :=
  let nameType := group 2 mt in
  let name := group 4 mt in
  if String.eqb nameType "x-workTitle"
  then emit ("\bk " ++ name ++ "\bk*") (setMarker "bk" lc)
  else Raise NameError.

(** Lines 549-560. *)
Definition segBody (lc : locals) (mt : rmatch) : result (locals * string) :=
  let attributes := group 1 mt in
  let words := group 2 mt in
  if contains ("type=" ++ dq ++ "keyword" ++ dq) attributes
  then emit ("\k " ++ words ++ "\k*") lc
  else if contains ("type=" ++ dq ++ "verseNumber" ++ dq) attributes
  then emit ("\vp " ++ words ++ "\NL**") lc
  else if contains ("type=" ++ dq ++ "x-us-time" ++ dq) attributes
  then emit words lc
  else if contains ("type=" ++ dq ++ "x-transChange" ++ dq) attributes
          && contains ("subType=" ++ dq ++ "x-added" ++ dq) attributes
  then emit ("\add " ++ words ++ "\add*") lc
  else Raise NameError.

(** Lines 571-579. *)
Definition referenceBody (V : string) (lc : locals) (mt : rmatch)
  : result (locals * string) :=
  let referenceField := group 2 mt in
  let marker := if String.eqb V "0" then "ior" else "x" in
  emit ("\" ++ marker ++ " " ++ referenceField ++ "\" ++ marker ++ "*")
    (setMarker marker lc).

(** Lines 581-591. *)
Definition referenceEmptyBody (lc : locals) (mt : rmatch)
  : result (locals * string) :=
  let attributes := group 1 mt in
  let osisRef := group1OrEmpty reOsisRef attributes in
  emit ("\x " ++ osisRef ++ "\x*") lc.

(** Lines 599-606: the style of a highlight; [marker] keeps its value
    when no style is recognised, since the halt of line 606 needs both
    debug flags. *)
Definition hiMarker (lc : locals) (attributes : string) : result locals :=
  if contains (dq ++ "italic" ++ dq) attributes then Ok (setMarker "it" lc)
  else if contains (dq ++ "small-caps" ++ dq) attributes then Ok (setMarker "sc" lc)
  else if contains (dq ++ "super" ++ dq) attributes then Ok (setMarker "ord" lc)
  else if contains (dq ++ "acrostic" ++ dq) attributes then Ok (setMarker "tl" lc)
  else if contains (dq ++ "bold" ++ dq) attributes then Ok (setMarker "bd" lc)
  else if contains (dq ++ "underline" ++ dq) attributes then Ok (setMarker "em" lc)
  else if contains (dq ++ "x-superscript" ++ dq) attributes
  then Ok (setMarker "ord" lc)
  else if debugFlag && debuggingThisModule then Raise NameError
  else Ok lc.

(** Lines 593-609. *)
Definition hiBody (lc : locals) (mt : rmatch) : result (locals * string) :=
  let attributes := group 1 mt in
  let words := group 2 mt in
  lc <- hiMarker lc attributes ;;
  marker <- readLocal (marker lc) ;;
  emit ("\" ++ marker ++ " " ++ words ++ "\" ++ marker ++ "*") lc.

(** Lines 611-621. *)
Definition hiPlainBody (lc : locals) (mt : rmatch) : result (locals * string) :=
  emit ("\add " ++ group 1 mt ++ "\add*") (setMarker "add" lc).

(** Lines 625-636; [replacement = ''] is assigned before the halt. *)
Definition milestoneUsfmBody (lc : locals) (mt : rmatch)
  : result (locals * string) :=
  let attributes := group 1 mt ++ group 3 mt in
  let marker := group 2 mt in
  let lc := setMarker marker lc in
  match search reN attributes with
  | Some match2 => emit ("\NL**\" ++ marker ++ " " ++ group 1 match2 ++ "\NL**") lc
  | None => Raise NameError
  end.

(** Lines 646-657. *)
Definition milestoneXPBody (lc : locals) (mt : rmatch)
  : result (locals * string) :=
  let attributes := group 1 mt ++ group 2 mt in
  match search reMarker attributes with
  | Some match2 => emit ("\p " ++ group 1 match2 ++ "\NL**") lc
  | None => Raise NameError
  end.

(** Lines 659-666. *)
Definition milestoneCQuoteBody (lc : locals) (mt : rmatch)
  : result (locals * string) :=
  let attributes := group 1 mt ++ group 2 mt in
  emit (group1OrEmpty reMarker attributes) lc.

(** Lines 677-688. *)
Definition noteSwordBody (lc : locals) (mt : rmatch)
  : result (locals * string) :=
  let attributes := group 1 mt ++ group 3 mt in
  let number := group 2 mt in
  let noteContents := group 4 mt in
  if contains "crossReference" attributes then
    assert (String.eqb noteContents EmptyString) ;;
    emit ("\x " ++ number ++ "\x*") lc
  else Raise NameError.

(** Lines 689-697. *)
Definition noteBody (lc : locals) (mt : rmatch) : result (locals * string) :=
  let noteContents := replace "\NL**\q1\NL**" "//" (rstrip (group 2 mt)) in
  emit ("\f + \ft " ++ noteContents ++ "\f*") lc.

(** Lines 160-746. *)
Definition filterOSISVerseLine (fuel : nat)
  (osisVerseString moduleName BBB C V : string)
  : result string :=
  let verseLine := osisVerseString in
  (* Straight substitutions *)
  let verseLine := substituteAll straightSubstitutions verseLine in
  st <- rewriteOnce reImporter delete (noLocals, verseLine) ;;
  st <- rewriteLoop fuel reDivEID delete st ;;
  st <- rewriteLoop fuel reDivPreverse delete st ;;
  st <- rewriteLoop fuel reDivFront (divFrontBody V) st ;;
  st <- rewriteLoop fuel reDivSection divSectionBody st ;;
  st <- rewriteLoop fuel reDivColophon delete st ;;
  st <- rewriteLoop fuel reChapterEID delete st ;;
  st <- rewriteLoop fuel reVerseStart (verseStartBody V) st ;;
  st <- substitute "</verse>" EmptyString st ;;
  st <- rewriteLoop fuel reLg delete st ;;
  (* Other regular expression data extractions *)
  st <- rewriteOnce reChapterSID (chapterSIDBody C V) st ;;
  st <- rewriteOnce reChapterOsisID (chapterOsisIDBody V) st ;;
  st <- substitute "</chapter>" EmptyString st ;;
  st <- rewriteLoop fuel reDivTitle divTitleBody st ;;
  st <- rewriteOnce reDivTitleStart divTitleStartBody st ;;
  st <- rewriteLoop fuel reDivHead divHeadBody st ;;
  st <- rewriteLoop fuel reDiv (divBody C) st ;;
  st <- substitute "</div>" EmptyString st ;;
  st <- rewriteLoop fuel reTitleParallel
          (fun lc mt => emit ("\NL**\r " ++ group 1 mt ++ "\NL**") lc) st ;;
  st <- rewriteLoop fuel reTitleScope
          (fun lc mt => emit ("\NL**\sr " ++ group 1 mt ++ "\NL**") lc) st ;;
  st <- rewriteLoop fuel reTitle
          (fun lc mt => emit ("\NL**\s1 " ++ group 2 mt ++ "\NL**") lc) st ;;
  st <- substitute "</title>" "\NL**" st ;;
  st <- substitute "<title>" "\NL**\s1 " st ;;
  st <- rewriteLoop fuel reWEmpty (wEmptyBody fuel) st ;;
  st <- rewriteLoop fuel reW (wBody fuel) st ;;
  st <- rewriteLoop fuel reQ qBody st ;;
  st <- rewriteLoop fuel reQOpen qOpenBody st ;;
  st <- rewriteLoop fuel reQSID qSIDBody st ;;
  st <- rewriteLoop fuel reQEID qEIDBody st ;;
  st <- rewriteLoop fuel reQBlock (fun lc mt => emit "\NL**\pc " lc) st ;;
  st <- rewriteLoop fuel reQPlain
          (fun lc mt => emit ("\NL**\pc " ++ group 2 mt ++ "\NL**") lc) st ;;
  st <- rewriteLoop fuel reLLevel lLevelBody st ;;
  st <- rewriteLoop fuel reL lBody st ;;
  st <- rewriteLoop fuel reItem itemBody st ;;
  st <- rewriteOnce reItemOpen itemOpenBody st ;;
  st <- substitute "</item>" "\NL**" st ;;
  st <- rewriteLoop fuel reName nameBody st ;;
  st <- rewriteLoop fuel reSeg segBody st ;;
  st <- rewriteLoop fuel reForeign
          (fun lc mt => emit ("\tl " ++ group 2 mt ++ "\tl*") lc) st ;;
  st <- rewriteLoop fuel reReference (referenceBody V) st ;;
  st <- rewriteLoop fuel reReferenceEmpty referenceEmptyBody st ;;
  st <- rewriteLoop fuel reHi hiBody st ;;
  st <- rewriteLoop fuel reHiPlain hiPlainBody st ;;
  (* Milestones *)
  st <- rewriteLoop fuel reMilestoneUsfm milestoneUsfmBody st ;;
  st <- rewriteLoop fuel reMilestoneStrongs delete st ;;
  st <- rewriteLoop fuel reMilestoneXP milestoneXPBody st ;;
  st <- rewriteLoop fuel reMilestoneCQuote milestoneCQuoteBody st ;;
  st <- rewriteLoop fuel reCloser
          (fun lc mt => emit ("\sig " ++ group 4 mt ++ "\sig*") lc) st ;;
  st <- rewriteLoop fuel reNoteSword noteSwordBody st ;;
  st <- rewriteLoop fuel reNote noteBody st ;;
  st <- rewriteLoop fuel reAbbr (fun lc mt => emit (group 2 mt) lc) st ;;
  st <- rewriteLoop fuel reA (fun lc mt => emit (group 4 mt) lc) st ;;
  (* Now scan for remaining fixed open and close fields *)
  let verseLine := snd st in
  verseLine <- replaceFixedPairs fuel (replacementList verseLine) verseLine ;;
  (* Check for anything left that we should have caught above: the line
     is printed; the halt of line 743 needs both debug flags *)
  (if (contains "<" verseLine || contains ">" verseLine)
      && (debugFlag && debuggingThisModule)
   then (if negb (String.eqb BBB "PSA") || negb (inTuple V ["1"; "5"])
         then Raise NameError else Ok tt)
   else Ok tt) ;;
  Ok verseLine.

End OSISPasses.

End Filters.

(** ** The importers (lines 749-775, 922-943, 1025-1046) *)

(** [thisBook] is an object of the class [BibleBook], which is defined
    outside this module.  The embedding records what the module does to
    it: the method calls it receives, oldest first. *)
Inductive bookCall : Type :=
| AddLine (marker text : string)
| AddVerseSegments (V verseLine location : string).

Definition book : Type := list bookCall.

Definition addLine (thisBook : book) (marker text : string) : book :=
  app thisBook [AddLine marker text].

Definition addVerseSegments (thisBook : book) (V verseLine location : string)
  : book :=
  app thisBook [AddVerseSegments V verseLine location].

(** Lines 772, 941, 1044: [debuggingThisModule] is [False], so the location
    is [moduleName BBB C:V]. *)
Definition locationOf (moduleName BBB C V : string) : string :=
  moduleName ++ " " ++ BBB ++ " " ++ C ++ ":" ++ V.

Section Importers.

Variable debugFlag : bool.

(** Lines 749-775. *)
Definition importOSISVerseLine (fuel : nat) (osisVerseString : string)
  (thisBook : book) (moduleName BBB C V : string) : result book :=
  verseLine <- filterOSISVerseLine debugFlag fuel osisVerseString
                 moduleName BBB C V ;;
  let location := locationOf moduleName BBB C V in
  if truthy verseLine || negb (String.eqb V "0")
  then Ok (addVerseSegments thisBook V verseLine location)
  else Ok thisBook.

(** Lines 922-943. *)
Definition importGBFVerseLine (fuel : nat) (gbfVerseString : string)
  (thisBook : book) (moduleName BBB C V : string) : result book :=
  verseLine <- filterGBFVerseLine debugFlag fuel gbfVerseString
                 moduleName BBB C V ;;
  let location := locationOf moduleName BBB C V in
  Ok (addVerseSegments thisBook V verseLine location).

(** Lines 1025-1046.  Line 1041 reads
    [verseLine = importTHMLVerseLine( thmlVerseString, moduleName, BBB, C, V )]:
    the function calls itself, not [filterTHMLVerseLine], with five
    positional arguments for its six parameters.  Python binds the
    arguments before it runs the body, so the call raises [TypeError]. *)
Definition importTHMLVerseLine (thmlVerseString : string) (thisBook : book)
  (moduleName BBB C V : string) : result book :=
  verseLine <- (Raise TypeError : result string) ;;
  let location := locationOf moduleName BBB C V in
  Ok (addVerseSegments thisBook V verseLine location).

(** *** The verse loop of [loadBook] (lines 1213-1276)

    The module hands the loop one entry per verse key.  An entry is kept
    here as the values the loop computes from it: [C], [V] and
    [nativeVerseText].  The loop state is [thisBook] and [currentC]. *)
Record verseEntry : Type := mkEntry {
  entryC : string;
  entryV : string;
  nativeVerseText : string
}.

(** Lines 1262-1270, for a module whose markup is OSIS. *)
Definition loadEntry (fuel : nat) (moduleAbbreviation BBB : string)
  (st : book * string) (e : verseEntry) : result (book * string) :=
  let '(thisBook, currentC) := st in
  let C := entryC e in
  let V := entryV e in
  let '(thisBook, currentC) :=
    if negb (String.eqb C currentC)
    then (addLine thisBook "c" C, C)
    else (thisBook, currentC) in
  if truthy (nativeVerseText e) then
    thisBook <- importOSISVerseLine fuel (nativeVerseText e) thisBook
                  moduleAbbreviation BBB C V ;;
    Ok (thisBook, currentC)
  else Ok (thisBook, currentC).

(** No [try] surrounds the call of the importer: an exception leaves the
    loop, and the entries after it are not read. *)
Fixpoint loadEntries (fuel : nat) (moduleAbbreviation BBB : string)
  (st : book * string) (entries : list verseEntry) : result (book * string) :=
  match entries with
  | [] => Ok st
  | e :: rest =>
      st' <- loadEntry fuel moduleAbbreviation BBB st e ;;
      loadEntries fuel moduleAbbreviation BBB st' rest
  end.

End Importers.

(** ** Well-formed lines over a pair table

    The input of the no-markup-leak property: text without angle brackets
    in which the codes of the table occur in matched, possibly nested,
    open/close pairs. *)

Definition angle (c : ascii) : bool := Ascii.eqb c "<"%char || Ascii.eqb c ">"%char.

Fixpoint plain (s : string) : bool :=
  match s with
  | EmptyString => true
  | String c t => negb (angle c) && plain t
  end.

Inductive wellFormed (table : list pair4) : string -> Prop :=
| wf_empty : wellFormed table EmptyString
| wf_text c s :
    angle c = false -> wellFormed table s -> wellFormed table (String c s)
| wf_pair openCode newOpenCode closeCode newCloseCode inner rest :
    In (openCode, newOpenCode, closeCode, newCloseCode) table ->
    wellFormed table inner -> wellFormed table rest ->
    wellFormed table (openCode ++ inner ++ closeCode ++ rest).

(** What follows the [<] of a tag: characters other than angle brackets,
    then [>] as the last character. *)
Fixpoint tagTail (s : string) : bool :=
  match s with
  | EmptyString => false
  | String c t =>
      if Ascii.eqb c ">"%char
      then match t with EmptyString => true | _ => false end
      else negb (Ascii.eqb c "<"%char) && tagTail t
  end.

Definition tagShaped (s : string) : bool :=
  match s with
  | String c t => Ascii.eqb c "<"%char && tagTail t
  | EmptyString => false
  end.

(** The open and close codes of a table, in order. *)
Fixpoint codes (table : list pair4) : list string :=
  match table with
  | [] => []
  | (openCode, _, closeCode, _) :: rest => openCode :: closeCode :: codes rest
  end.

Fixpoint distinct (l : list string) : bool :=
  match l with
  | [] => true
  | x :: r => negb (existsb (String.eqb x) r) && distinct r
  end.

(** A table of tags: every code is a tag, no code occurs twice, and the
    markers put in their place hold no angle bracket. *)
Definition tagTable (table : list pair4) : bool :=
  forallb tagShaped (codes table) && distinct (codes table)
  && forallb (fun p : pair4 =>
                let '(_, newOpenCode, _, newCloseCode) := p in
                plain newOpenCode && plain newCloseCode) table.

(** A line cut into characters of text and tags. *)
Inductive tok : Type :=
| Txt (c : ascii)
| Tag (t : string).

Fixpoint flatten (l : list tok) : string :=
  match l with
  | [] => EmptyString
  | Txt c :: r => String c (flatten r)
  | Tag t :: r => t ++ flatten r
  end.

Fixpoint txt (s : string) : list tok :=
  match s with
  | EmptyString => []
  | String c t => Txt c :: txt t
  end.

Definition okTok (x : tok) : bool :=
  match x with
  | Txt c => negb (angle c)
  | Tag t => tagShaped t
  end.

Fixpoint tags (l : list tok) : list string :=
  match l with
  | [] => []
  | Txt _ :: r => tags r
  | Tag t :: r => t :: tags r
  end.

(** The distance in characters to the first tag [t]. *)
Fixpoint offset (t : string) (l : list tok) : option nat :=
  match l with
  | [] => None
  | Txt _ :: r => option_map S (offset t r)
  | Tag t' :: r =>
      if String.eqb t t' then Some 0
      else option_map (Nat.add (length t')) (offset t r)
  end.

(** The first tag [t] replaced by the text [new]. *)
Fixpoint substFirst (t new : string) (l : list tok) : list tok :=
  match l with
  | [] => []
  | Txt c :: r => Txt c :: substFirst t new r
  | Tag t' :: r =>
      if String.eqb t t' then app (txt new) r
      else Tag t' :: substFirst t new r
  end.

Fixpoint removeFirst (t : string) (l : list string) : list string :=
  match l with
  | [] => []
  | x :: r => if String.eqb t x then r else x :: removeFirst t r
  end.

(** [n] opens are waiting for their close; every close finds an open
    before it and nothing is left open at the end. *)
Fixpoint balanced (o c : string) (n : nat) (l : list string) : bool :=
  match l with
  | [] => Nat.eqb n 0
  | x :: r =>
      if String.eqb x o then balanced o c (S n) r
      else if String.eqb x c then
             match n with
             | 0 => false
             | S m => balanced o c m r
             end
      else balanced o c n r
  end.

Definition without (o c : string) (l : list string) : list string :=
  filter (fun x => negb (String.eqb x o || String.eqb x c)) l.

(** The character [c] does not occur in [s]. *)
Fixpoint lacks (c : ascii) (s : string) : bool :=
  match s with
  | EmptyString => true
  | String a t => negb (Ascii.eqb a c) && lacks c t
  end.

(** ** Inputs named by the properties below *)

(** The divine-name entry (line 732). *)
Definition divineNamePair : pair4 :=
  ("<divineName>", "\nd ", "</divineName>", "\nd*").

(** The entry that removes left-over seg tags (line 727). *)
Definition segPair : pair4 := ("<seg>", EmptyString, "</seg>", EmptyString).

(** The italic entry (line 729 and line 1012). *)
Definition italicPair : pair4 := ("<i>", "\it ", "</i>", "\it*").

(** The section types that lines 331-336 know, and the div types that
    lines 368-376 know. *)
Definition knownSectionTypes : list string :=
  ["section"; "subSection"; "x-subSubSection"; "majorSection"; "book";
   "introduction"].

Definition knownDivTypes : list string :=
  ["x-p"; "glossary"; "book"; "outline"; "paragraph"; "majorSection";
   "section"; "preface"; "titlePage"; "introduction"; "x-license";
   "x-trademark"].

(** A div of the given type, as it stands in a verse. *)
Definition divOfType (divType : string) : string :=
  "<div type=" ++ dq ++ divType ++ dq ++ "/>".

(** The verses of the examples: a div of an unknown type, a verse of plain
    text, and a word whose tag carries an attribute that the filter does
    not know. *)
Definition unknownDivVerse : verseEntry := mkEntry "1" "1" (divOfType "x-unknown").
Definition plainVerse : verseEntry := mkEntry "1" "2" "And the earth".
Definition wordWithUnknownAttribute : string :=
  "<w foo=" ++ dq ++ "bar" ++ dq ++ ">word</w>".

(** The caller token and the callee token of the footnote property. *)
Definition callerToken : string := "<RF>1<Rf>".
Definition calleeToken : string := "<RF>1) note one<Rf>".

(** ** [exp] (lines 79-91) *)

(** Line 38. *)
Definition ShortProgName : string := "SwordResources".

(** [s.split( sep, 1 )] for a non-empty [sep]. *)
Definition split1 (sep s : string) : list string :=
  match find0 sep s with
  | Some i => [take i s; drop (i + length sep) s]
  | None => [s]
  end.

(** [a, b = l]: a list unpacked into two names. *)
Definition unpack2 (l : list string) : result (string * string) :=
  match l with
  | [a; b] => Ok (a, b)
  | _ => Raise ValueError
  end.

(** Lines 86-90; the [except ValueError] takes the message as it is. *)
Definition exp (debugFlag : bool) (messageString : string) : string :=
  let '(nameBit, errorBit) :=
    match unpack2 (split1 ": " messageString) with
    | Ok bits => bits
    | _ => (EmptyString, messageString)
    end in
  let nameBit :=
    if debugFlag || debuggingThisModule
    then ShortProgName ++ (if truthy nameBit then "." else EmptyString) ++ nameBit
    else nameBit in
  (if truthy nameBit then nameBit ++ ": " else EmptyString) ++ errorBit.

(** ** Lines of text and tags, rendered

    What [replaceFixedPairs] is meant to compute on a line whose tags
    come in matched pairs: every tag turned into its marker. *)

(** The marker that a table puts in the place of the code [t]. *)
Fixpoint markerOf (table : list pair4) (t : string) : string :=
  match table with
  | [] => t
  | (openCode, newOpenCode, closeCode, newCloseCode) :: rest =>
      if String.eqb t openCode then newOpenCode
      else if String.eqb t closeCode then newCloseCode
      else markerOf rest t
  end.

Fixpoint render (table : list pair4) (l : list tok) : string :=
  match l with
  | [] => EmptyString
  | Txt ch :: r => String ch (render table r)
  | Tag t :: r => markerOf table t ++ render table r
  end.

(** The tags of one entry turned into text. *)
Fixpoint substPair (o no c nc : string) (l : list tok) : list tok :=
  match l with
  | [] => []
  | Txt ch :: r => Txt ch :: substPair o no c nc r
  | Tag t :: r =>
      if String.eqb t o then app (txt no) (substPair o no c nc r)
      else if String.eqb t c then app (txt nc) (substPair o no c nc r)
      else Tag t :: substPair o no c nc r
  end.

(** Every entry of the table finds its codes in matched pairs. *)
Definition balancedFor (table : list pair4) (ts : list string) : bool :=
  forallb (fun p : pair4 =>
             let '(openCode, _, closeCode, _) := p in
             balanced openCode closeCode 0 ts) table.

(** Every code of the table holds the character [c]. *)
Definition codesHold (c : ascii) (table : list pair4) : bool :=
  forallb (fun p : pair4 =>
             let '(openCode, _, closeCode, _) := p in
             mem c openCode && mem c closeCode) table.

(** ** Runs of a character class *)

(** The characters of [w] pushed on a match, the first one last. *)
Fixpoint pushs (w : string) (r : option found) : option found :=
  match w with
  | EmptyString => r
  | String c t => pushc c (pushs t r)
  end.

(** Every character of [w] is in the class [k]. *)
Fixpoint allIn (k : cls) (w : string) : bool :=
  match w with
  | EmptyString => true
  | String c t => inCls k c && allIn k t
  end.

(** The text [x] cannot go on a run of the class [k]. *)
Definition stops (k : cls) (x : string) : bool :=
  match x with
  | EmptyString => true
  | String c _ => negb (inCls k c)
  end.

(** ** Lines woven of tags and text

    [(t, x)] stands for [<t] and then the text [x]. *)
Fixpoint weave (l : list (string * string)) : string :=
  match l with
  | [] => EmptyString
  | (t, x) :: rest => String "<"%char t ++ x ++ weave rest
  end.

(** No piece holds a [<] of its own. *)
Fixpoint woven (l : list (string * string)) : bool :=
  match l with
  | [] => true
  | (t, x) :: rest => lacks "<"%char t && lacks "<"%char x && woven rest
  end.

(** The pattern [r] matches at none of the tags. *)
Fixpoint missAll (r : regex) (l : list (string * string)) : Prop :=
  match l with
  | [] => True
  | _ :: rest => matchAt r (weave l) = None /\ missAll r rest
  end.

(** The string [old] stands at none of the tags. *)
Fixpoint absentAll (old : string) (l : list (string * string)) : Prop :=
  match l with
  | [] => True
  | _ :: rest => startswith old (weave l) = false /\ absentAll old rest
  end.

(** * Properties *)

(** A pattern in normal form, so that the lemmas on patterns that begin
    with a literal apply to it. *)
Ltac normal_pattern r := let n := eval cbv in r in change r with n.

(** ** Facts on the string primitives *)

Lemma strlen_app (a b : string) : length (a ++ b) = length a + length b.
Proof. induction a as [|c a IH]; simpl; [reflexivity | now rewrite IH]. Qed.

Lemma app_assoc_s (a b c : string) : (a ++ b) ++ c = a ++ (b ++ c).
Proof. induction a as [|x a IH]; simpl; [reflexivity | now rewrite IH]. Qed.

Lemma app_empty_r (a : string) : a ++ EmptyString = a.
Proof. induction a as [|x a IH]; simpl; [reflexivity | now rewrite IH]. Qed.

Lemma drop_app_length (a b : string) : drop (length a) (a ++ b) = b.
Proof. induction a as [|c a IH]; simpl; [now destruct b | exact IH]. Qed.

Lemma take_app_length (a b : string) : take (length a) (a ++ b) = a.
Proof. induction a as [|c a IH]; simpl; [reflexivity | now rewrite IH]. Qed.

Lemma drop_0 (s : string) : drop 0 s = s.
Proof. reflexivity. Qed.

Lemma startswith_app (a b : string) : startswith a (a ++ b) = true.
Proof.
  induction a as [|c a IH]; simpl; [reflexivity|].
  now rewrite Ascii.eqb_refl, IH.
Qed.

Lemma startswith_split (a s : string) :
  startswith a s = true -> s = a ++ drop (length a) s.
Proof.
  revert s; induction a as [|c a IH]; intros s H; simpl in *.
  - reflexivity.
  - destruct s as [|d s]; [discriminate|].
    apply andb_true_iff in H as [H1 H2].
    apply Ascii.eqb_eq in H1; subst d. simpl. f_equal. now apply IH.
Qed.

(** [find] from the start is [find0]. *)
Lemma find_0 (sub s : string) : find sub s 0 = find0 sub s.
Proof.
  unfold find. simpl. now destruct (find0 sub s).
Qed.

(** [find] past a prefix of known length. *)
Lemma find_app_length (sub a b : string) :
  find sub (a ++ b) (length a) = option_map (Nat.add (length a)) (find0 sub b).
Proof.
  unfold find. rewrite strlen_app, drop_app_length.
  replace (Nat.leb (length a) (length a + length b)) with true; [reflexivity|].
  symmetry; apply Nat.leb_le; lia.
Qed.

(** What [find0] finds is the leftmost occurrence. *)
Lemma find0_Some (sub s : string) (i : nat) :
  find0 sub s = Some i ->
  s = take i s ++ sub ++ drop (i + length sub) s
  /\ forall j, j < i -> startswith sub (drop j s) = false.
Proof.
  revert i; induction s as [|c s IH]; intros i H; simpl in H.
  - destruct (startswith sub EmptyString) eqn:E; [|discriminate].
    injection H as <-. destruct sub; [|discriminate]. split; [reflexivity | intros; lia].
  - destruct (startswith sub (String c s)) eqn:E.
    + injection H as <-. split; [|intros; lia].
      simpl take. simpl "++". apply startswith_split in E. exact E.
    + destruct (find0 sub s) as [k|] eqn:F; [|discriminate].
      injection H as <-. destruct (IH k eq_refl) as [H1 H2]. split.
      * simpl. f_equal. exact H1.
      * intros [|j] Hj; simpl; [exact E | apply H2; lia].
Qed.

Lemma find0_None (sub s : string) :
  find0 sub s = None -> forall j, startswith sub (drop j s) = false.
Proof.
  induction s as [|c s IH]; intros H j; simpl in H.
  - destruct (startswith sub EmptyString) eqn:E; [discriminate|].
    now destruct j.
  - destruct (startswith sub (String c s)) eqn:E; [discriminate|].
    destruct (find0 sub s) eqn:F; [discriminate|].
    destruct j; simpl; [exact E | now apply IH].
Qed.

(** [replace1] rewrites the leftmost occurrence and nothing else. *)
Lemma replace1_Some (old new s : string) (i : nat) :
  find0 old s = Some i ->
  replace1 old new s = take i s ++ new ++ drop (i + length old) s.
Proof.
  revert i; induction s as [|c s IH]; intros i H; simpl in H |- *.
  - destruct (startswith old EmptyString) eqn:E; [|discriminate].
    injection H as <-. reflexivity.
  - destruct (startswith old (String c s)) eqn:E.
    + injection H as <-. reflexivity.
    + destruct (find0 old s) as [k|] eqn:F; [|discriminate].
      injection H as <-. simpl. f_equal. now apply IH.
Qed.

Lemma replace1_None (old new s : string) :
  find0 old s = None -> replace1 old new s = s.
Proof.
  induction s as [|c s IH]; intros H; simpl in H |- *.
  - now destruct (startswith old EmptyString).
  - destruct (startswith old (String c s)) eqn:E; [discriminate|].
    destruct (find0 old s) eqn:F; [discriminate|].
    f_equal. now apply IH.
Qed.

(** ** Skipping text that cannot start an occurrence *)

Lemma option_map_add_S (k : nat) (o : option nat) :
  option_map S (option_map (Nat.add k) o) = option_map (Nat.add (S k)) o.
Proof. now destruct o. Qed.

Lemma option_map_add_0 (o : option nat) : option_map (Nat.add 0) o = o.
Proof. now destruct o. Qed.

Lemma option_map_add_add (j k : nat) (o : option nat) :
  option_map (Nat.add j) (option_map (Nat.add k) o) = option_map (Nat.add (j + k)) o.
Proof. destruct o; simpl; [f_equal; lia | reflexivity]. Qed.

Section Skip.

Variables (a : ascii) (sub' : string).
Let sub := String a sub'.

Lemma startswith_other (c : ascii) (s : string) :
  Ascii.eqb c a = false -> startswith sub (String c s) = false.
Proof.
  intros H. unfold sub. simpl. rewrite Ascii.eqb_sym, H. reflexivity.
Qed.

Lemma find0_skip (w x : string) :
  lacks a w = true ->
  find0 sub (w ++ x) = option_map (Nat.add (length w)) (find0 sub x).
Proof.
  induction w as [|c w IH]; intros H; simpl in H.
  - simpl. now rewrite option_map_add_0.
  - apply andb_true_iff in H as [H1 H2]. apply negb_true_iff in H1.
    change (String c w ++ x) with (String c (w ++ x)).
    cbn [find0]. rewrite (startswith_other c _ H1), (IH H2).
    apply option_map_add_S.
Qed.

Lemma replace1_skip (new w x : string) :
  lacks a w = true ->
  replace1 sub new (w ++ x) = w ++ replace1 sub new x.
Proof.
  induction w as [|c w IH]; intros H; simpl in H; [reflexivity|].
  apply andb_true_iff in H as [H1 H2]. apply negb_true_iff in H1.
  change (String c w ++ x) with (String c (w ++ x)).
  cbn [replace1]. rewrite (startswith_other c _ H1), (IH H2). reflexivity.
Qed.

Lemma replaceFrom_skip (new w x : string) :
  lacks a w = true ->
  replaceFrom 0 sub new (w ++ x) = w ++ replaceFrom 0 sub new x.
Proof.
  induction w as [|c w IH]; intros H; simpl in H; [reflexivity|].
  apply andb_true_iff in H as [H1 H2]. apply negb_true_iff in H1.
  change (String c w ++ x) with (String c (w ++ x)).
  cbn [replaceFrom]. rewrite (startswith_other c _ H1), (IH H2). reflexivity.
Qed.

Lemma find0_lacks (s : string) : lacks a s = true -> find0 sub s = None.
Proof.
  induction s as [|c s IH]; intros H; simpl in H.
  - reflexivity.
  - apply andb_true_iff in H as [H1 H2]. apply negb_true_iff in H1.
    cbn [find0]. rewrite (startswith_other c _ H1), (IH H2). reflexivity.
Qed.

Lemma replace_lacks (new s : string) :
  lacks a s = true -> replace sub new s = s.
Proof.
  intros H. unfold replace, sub.
  rewrite <- (app_empty_r s) at 1. fold sub.
  rewrite (replaceFrom_skip new s EmptyString H). simpl. apply app_empty_r.
Qed.

End Skip.

(** ** Tags *)

Lemma tagTail_lacks (r : string) : tagTail r = true -> lacks "<"%char r = true.
Proof.
  induction r as [|c r IH]; simpl; intros H; [discriminate|].
  destruct (Ascii.eqb c ">"%char) eqn:E.
  - apply Ascii.eqb_eq in E; subst c. destruct r; [reflexivity | discriminate].
  - apply andb_true_iff in H as [H1 H2]. rewrite H1. now apply IH.
Qed.

Lemma tagShaped_inv (t : string) :
  tagShaped t = true -> exists r, t = String "<"%char r /\ tagTail r = true.
Proof.
  destruct t as [|c r]; simpl; intros H; [discriminate|].
  apply andb_true_iff in H as [H1 H2]. apply Ascii.eqb_eq in H1; subst c.
  now exists r.
Qed.

Lemma startswith_tagTail (r r' x : string) :
  tagTail r = true -> tagTail r' = true ->
  startswith r (r' ++ x) = String.eqb r r'.
Proof.
  revert r'; induction r as [|c r IH]; intros r' H H'; [discriminate|].
  destruct r' as [|c' r']; [discriminate|].
  simpl in H, H'. cbn [append startswith String.eqb].
  destruct (Ascii.eqb c c') eqn:E; [|reflexivity].
  apply Ascii.eqb_eq in E; subst c'. simpl.
  destruct (Ascii.eqb c ">"%char).
  - destruct r; [|discriminate]. destruct r'; [|discriminate]. reflexivity.
  - apply andb_true_iff in H as [_ H]. apply andb_true_iff in H' as [_ H'].
    now apply IH.
Qed.

Lemma startswith_tag (t t' x : string) :
  tagShaped t = true -> tagShaped t' = true ->
  startswith t (t' ++ x) = String.eqb t t'.
Proof.
  intros H H'.
  destruct (tagShaped_inv _ H) as (r & -> & Hr).
  destruct (tagShaped_inv _ H') as (r' & -> & Hr').
  cbn [append startswith String.eqb]. rewrite Ascii.eqb_refl. simpl.
  now apply startswith_tagTail.
Qed.

Lemma flatten_app (l1 l2 : list tok) :
  flatten (l1 ++ l2)%list = flatten l1 ++ flatten l2.
Proof.
  induction l1 as [|[c|t] l1 IH]; simpl; [reflexivity | now rewrite IH |].
  now rewrite IH, app_assoc_s.
Qed.

Lemma flatten_txt (s : string) : flatten (txt s) = s.
Proof. induction s as [|c s IH]; simpl; [reflexivity | now rewrite IH]. Qed.

Lemma tags_app (l1 l2 : list tok) : tags (l1 ++ l2)%list = (tags l1 ++ tags l2)%list.
Proof.
  induction l1 as [|[c|t] l1 IH]; simpl; [reflexivity | exact IH | now rewrite IH].
Qed.

Lemma tags_txt (s : string) : tags (txt s) = [].
Proof. induction s as [|c s IH]; simpl; [reflexivity | exact IH]. Qed.

Lemma okTok_txt (s : string) : plain s = true -> forallb okTok (txt s) = true.
Proof.
  induction s as [|c s IH]; simpl; intros H; [reflexivity|].
  apply andb_true_iff in H as [H1 H2]. rewrite H1. now apply IH.
Qed.

Section OneTag.

Variable t : string.
Hypothesis Ht : tagShaped t = true.

Lemma startswith_flatten (l : list tok) :
  forallb okTok l = true ->
  startswith t (flatten l)
  = match l with Tag t' :: _ => String.eqb t t' | _ => false end.
Proof.
  intros Hl. destruct (tagShaped_inv _ Ht) as (r & E & Hr).
  destruct l as [|[c|t'] l]; simpl in Hl |- *.
  - now rewrite E.
  - apply andb_true_iff in Hl as [Hc _]. rewrite E.
    unfold angle in Hc. apply negb_true_iff, orb_false_iff in Hc as [Hc _].
    cbn [startswith]. rewrite Ascii.eqb_sym, Hc. reflexivity.
  - apply andb_true_iff in Hl as [Hc _]. now apply startswith_tag.
Qed.

(** Past a tag other than [t]. *)
Lemma find0_past_tag (t' x : string) :
  tagShaped t' = true -> String.eqb t t' = false ->
  find0 t (t' ++ x) = option_map (Nat.add (length t')) (find0 t x).
Proof.
  intros H' E. pose proof (startswith_tag t t' x Ht H') as S0. rewrite E in S0.
  destruct (tagShaped_inv _ Ht) as (r & -> & Hr).
  destruct (tagShaped_inv _ H') as (r' & -> & Hr').
  change (String "<" r' ++ x) with (String "<"%char (r' ++ x)) in *.
  cbn [find0]. rewrite S0.
  rewrite (find0_skip "<"%char r r' x (tagTail_lacks _ Hr')).
  simpl length. apply option_map_add_S.
Qed.

Lemma replace1_past_tag (new t' x : string) :
  tagShaped t' = true -> String.eqb t t' = false ->
  replace1 t new (t' ++ x) = t' ++ replace1 t new x.
Proof.
  intros H' E. pose proof (startswith_tag t t' x Ht H') as S0. rewrite E in S0.
  destruct (tagShaped_inv _ Ht) as (r & -> & Hr).
  destruct (tagShaped_inv _ H') as (r' & -> & Hr').
  change (String "<" r' ++ x) with (String "<"%char (r' ++ x)) in *.
  cbn [replace1]. rewrite S0.
  rewrite (replace1_skip "<"%char r new r' x (tagTail_lacks _ Hr')).
  reflexivity.
Qed.

Lemma replaceFrom_past_tag (new t' x : string) :
  tagShaped t' = true -> String.eqb t t' = false ->
  replaceFrom 0 t new (t' ++ x) = t' ++ replaceFrom 0 t new x.
Proof.
  intros H' E. pose proof (startswith_tag t t' x Ht H') as S0. rewrite E in S0.
  destruct (tagShaped_inv _ Ht) as (r & -> & Hr).
  destruct (tagShaped_inv _ H') as (r' & -> & Hr').
  change (String "<" r' ++ x) with (String "<"%char (r' ++ x)) in *.
  cbn [replaceFrom]. rewrite S0.
  rewrite (replaceFrom_skip "<"%char r new r' x (tagTail_lacks _ Hr')).
  reflexivity.
Qed.

(** [find] and [replace] on a line of tokens. *)
Lemma find0_flatten (l : list tok) :
  forallb okTok l = true -> find0 t (flatten l) = offset t l.
Proof.
  induction l as [|[c|t'] l IH]; intros Hl.
  - pose proof (startswith_flatten [] eq_refl) as S0. cbn [flatten] in S0.
    cbn [flatten find0 replace1 offset substFirst]. rewrite S0. reflexivity.
  - pose proof (startswith_flatten _ Hl) as S0. simpl in S0.
    simpl in Hl. apply andb_true_iff in Hl as [_ Hl].
    cbn [flatten find0 offset]. rewrite S0, (IH Hl). reflexivity.
  - simpl in Hl. apply andb_true_iff in Hl as [Hc Hl].
    cbn [flatten offset]. destruct (String.eqb t t') eqn:E.
    + apply String.eqb_eq in E; subst t'.
      destruct t as [|a r]; [discriminate|].
      cbn [append find0]. change (String a (r ++ flatten l)) with (String a r ++ flatten l).
      now rewrite startswith_app.
    + rewrite (find0_past_tag _ _ Hc E), (IH Hl). reflexivity.
Qed.

Lemma replace1_flatten (new : string) (l : list tok) :
  forallb okTok l = true ->
  replace1 t new (flatten l) = flatten (substFirst t new l).
Proof.
  induction l as [|[c|t'] l IH]; intros Hl.
  - pose proof (startswith_flatten [] eq_refl) as S0. cbn [flatten] in S0.
    cbn [flatten find0 replace1 offset substFirst]. rewrite S0. reflexivity.
  - pose proof (startswith_flatten _ Hl) as S0. simpl in S0.
    simpl in Hl. apply andb_true_iff in Hl as [_ Hl].
    cbn [flatten replace1 substFirst]. rewrite S0, (IH Hl). reflexivity.
  - simpl in Hl. apply andb_true_iff in Hl as [Hc Hl].
    cbn [flatten substFirst]. destruct (String.eqb t t') eqn:E.
    + apply String.eqb_eq in E; subst t'.
      rewrite flatten_app, flatten_txt.
      destruct t as [|a r] eqn:Et; [discriminate|].
      cbn [append replace1]. change (String a (r ++ flatten l)) with (String a r ++ flatten l).
      rewrite startswith_app, drop_app_length. reflexivity.
    + cbn [flatten]. rewrite (replace1_past_tag _ _ _ Hc E), (IH Hl). reflexivity.
Qed.

Lemma replace_flatten_absent (new : string) (l : list tok) :
  forallb okTok l = true -> ~ In t (tags l) ->
  replace t new (flatten l) = flatten l.
Proof.
  intros Hl Hn.
  assert (R : forall s, replace t new s = replaceFrom 0 t new s).
  { intros s. unfold replace. destruct (tagShaped_inv _ Ht) as (r & E & _).
    generalize (replaceFrom 0 t new s). rewrite E. reflexivity. }
  rewrite R. clear R.
  induction l as [|[c|t'] l IH].
  - reflexivity.
  - pose proof (startswith_flatten _ Hl) as S0. simpl in S0.
    simpl in Hl. apply andb_true_iff in Hl as [_ Hl].
    cbn [flatten replaceFrom]. rewrite S0, (IH Hl Hn). reflexivity.
  - simpl in Hl. apply andb_true_iff in Hl as [Hc Hl]. simpl in Hn.
    cbn [flatten]. destruct (String.eqb t t') eqn:E.
    + apply String.eqb_eq in E. exfalso. apply Hn. now left.
    + rewrite (replaceFrom_past_tag _ _ _ Hc E), IH; auto.
Qed.

End OneTag.

(** ** Lines of tokens: first occurrences *)

Lemma offset_None (t : string) (l : list tok) :
  offset t l = None <-> ~ In t (tags l).
Proof.
  induction l as [|[c|t'] l IH]; simpl.
  - split; [intros _ []| reflexivity].
  - destruct (offset t l); simpl; [|exact IH].
    split; [discriminate|]. intros H. now apply IH in H.
  - destruct (String.eqb_spec t t') as [->|N].
    + split; [discriminate|]. intros H. exfalso. apply H. now left.
    + destruct (offset t l); simpl.
      * split; [discriminate|]. intros H. exfalso.
        assert (Hn : ~ In t (tags l)) by (intros Hi; apply H; now right).
        now apply IH in Hn.
      * split; [|reflexivity]. intros _ [E|Hi]; [now apply N|].
        now apply (proj1 IH).
Qed.

Lemma offset_split (t : string) (l : list tok) (ix : nat) :
  offset t l = Some ix ->
  exists pre post, l = (pre ++ Tag t :: post)%list /\ ~ In t (tags pre)
                   /\ length (flatten pre) = ix.
Proof.
  revert ix; induction l as [|[c|t'] l IH]; intros ix H; simpl in H.
  - discriminate.
  - destruct (offset t l) as [k|] eqn:E; [|discriminate]. injection H as <-.
    destruct (IH k eq_refl) as (pre & post & -> & Hn & Hk).
    exists (Txt c :: pre), post. simpl. repeat split; auto.
  - destruct (String.eqb_spec t t') as [->|N].
    + injection H as <-. exists [], l. simpl. repeat split; auto.
    + destruct (offset t l) as [k|] eqn:E; [|discriminate]. injection H as <-.
      destruct (IH k eq_refl) as (pre & post & -> & Hn & Hk).
      exists (Tag t' :: pre), post. simpl. repeat split.
      * intros [E'|Hi]; [now apply N | now apply Hn].
      * rewrite strlen_app. now rewrite Hk.
Qed.

Lemma offset_absent_prefix (t : string) (pre m : list tok) :
  ~ In t (tags pre) ->
  offset t (pre ++ m)%list
  = option_map (Nat.add (length (flatten pre))) (offset t m).
Proof.
  induction pre as [|[c|t'] pre IH]; intros Hn; simpl in Hn |- *.
  - now rewrite option_map_add_0.
  - rewrite (IH Hn). apply option_map_add_S.
  - destruct (String.eqb_spec t t') as [->|N]; [exfalso; apply Hn; now left|].
    rewrite IH by (intros Hi; apply Hn; now right).
    rewrite option_map_add_add, strlen_app. reflexivity.
Qed.

Lemma substFirst_absent_prefix (t new : string) (pre m : list tok) :
  ~ In t (tags pre) ->
  substFirst t new (pre ++ m)%list = (pre ++ substFirst t new m)%list.
Proof.
  induction pre as [|[c|t'] pre IH]; intros Hn; simpl in Hn |- *.
  - reflexivity.
  - now rewrite (IH Hn).
  - destruct (String.eqb_spec t t') as [->|N]; [exfalso; apply Hn; now left|].
    rewrite IH by (intros Hi; apply Hn; now right). reflexivity.
Qed.

Lemma substFirst_here (t new : string) (post : list tok) :
  substFirst t new (Tag t :: post) = (txt new ++ post)%list.
Proof. simpl. now rewrite String.eqb_refl. Qed.

Lemma tags_substFirst (t new : string) (l : list tok) :
  tags (substFirst t new l) = removeFirst t (tags l).
Proof.
  induction l as [|[c|t'] l IH]; simpl; [reflexivity | exact IH |].
  destruct (String.eqb t t'); simpl.
  - now rewrite tags_app, tags_txt.
  - now rewrite IH.
Qed.

Lemma okTok_substFirst (t new : string) (l : list tok) :
  plain new = true -> forallb okTok l = true ->
  forallb okTok (substFirst t new l) = true.
Proof.
  intros Hp. induction l as [|[c|t'] l IH]; simpl; intros H; [reflexivity | |].
  - apply andb_true_iff in H as [H1 H2]. rewrite H1. now apply IH.
  - apply andb_true_iff in H as [H1 H2]. destruct (String.eqb t t'); simpl.
    + rewrite forallb_app, (okTok_txt _ Hp). exact H2.
    + rewrite H1. now apply IH.
Qed.

Lemma removeFirst_absent (t : string) (l : list string) :
  ~ In t l -> removeFirst t l = l.
Proof.
  induction l as [|x l IH]; simpl; intros H; [reflexivity|].
  destruct (String.eqb_spec t x) as [->|N]; [exfalso; apply H; now left|].
  f_equal. apply IH. intros Hi. apply H. now right.
Qed.

Lemma length_removeFirst (t : string) (l : list string) :
  In t l -> S (List.length (removeFirst t l)) = List.length l.
Proof.
  induction l as [|x l IH]; simpl; intros H; [contradiction|].
  destruct (String.eqb_spec t x) as [->|N]; [reflexivity|].
  destruct H as [E|H]; [congruence|]. simpl. now rewrite IH.
Qed.

Lemma length_removeFirst_le (t : string) (l : list string) :
  List.length (removeFirst t l) <= List.length l.
Proof.
  induction l as [|x l IH]; simpl; [lia|].
  destruct (String.eqb t x); simpl; lia.
Qed.

Lemma In_removeFirst (t x : string) (l : list string) :
  In x (removeFirst t l) -> In x l.
Proof.
  induction l as [|y l IH]; simpl; [auto|].
  destruct (String.eqb t y); simpl; intuition.
Qed.

(** ** Balanced tags *)

Section OnePair.

Variables o c : string.
Hypothesis Hoc : String.eqb o c = false.

Lemma balanced_needs_close (n : nat) (ts : list string) :
  balanced o c (S n) ts = true -> In c ts.
Proof.
  revert n; induction ts as [|x ts IH]; intros n H; simpl in H; [discriminate|].
  destruct (String.eqb x o); [right; eauto|].
  destruct (String.eqb_spec x c) as [->|N]; [now left | right; eauto].
Qed.

Lemma balanced_no_open (ts : list string) :
  ~ In o ts -> balanced o c 0 ts = true -> ~ In c ts.
Proof.
  induction ts as [|x ts IH]; simpl; intros Hn H; [tauto|].
  destruct (String.eqb_spec x o) as [->|N]; [exfalso; apply Hn; now left|].
  destruct (String.eqb_spec x c) as [->|N']; [discriminate|].
  intros [E|Hi]; [congruence|]. revert Hi. apply IH; auto.
Qed.

Lemma balanced_remove_close (n : nat) (ts : list string) :
  balanced o c (S n) ts = true -> balanced o c n (removeFirst c ts) = true.
Proof.
  revert n; induction ts as [|x ts IH]; intros n H; simpl in H; [discriminate|].
  simpl. destruct (String.eqb_spec x o) as [->|N].
  - rewrite String.eqb_sym, Hoc. simpl. rewrite String.eqb_refl. now apply IH.
  - destruct (String.eqb_spec x c) as [->|N'].
    + now rewrite String.eqb_refl.
    + destruct (String.eqb_spec c x) as [E|_]; [congruence|].
      simpl. destruct (String.eqb_spec x o); [congruence|].
      destruct (String.eqb_spec x c); [congruence|]. now apply IH.
Qed.

Lemma balanced_prefix (n : nat) (pre post : list string) :
  ~ In o pre -> ~ In c pre ->
  balanced o c n (pre ++ post)%list = balanced o c n post.
Proof.
  induction pre as [|x pre IH]; simpl; intros H1 H2; [reflexivity|].
  destruct (String.eqb_spec x o) as [->|N]; [exfalso; apply H1; now left|].
  destruct (String.eqb_spec x c) as [->|N']; [exfalso; apply H2; now left|].
  apply IH; tauto.
Qed.

Lemma balanced_first_open (pre post : list string) :
  ~ In o pre -> balanced o c 0 (pre ++ o :: post)%list = true ->
  ~ In c pre /\ balanced o c 1 post = true.
Proof.
  induction pre as [|x pre IH]; simpl; intros Hn H.
  - rewrite String.eqb_refl in H. tauto.
  - destruct (String.eqb_spec x o) as [->|N]; [exfalso; apply Hn; now left|].
    destruct (String.eqb_spec x c) as [->|N']; [discriminate|].
    destruct IH as [H1 H2]; [tauto | exact H |]. split; [|exact H2].
    intros [E|Hi]; [congruence | tauto].
Qed.

Lemma balanced_app (a b : list string) (m n : nat) :
  balanced o c m a = true ->
  balanced o c (m + n) (a ++ b)%list = balanced o c n b.
Proof.
  revert m; induction a as [|x a IH]; intros m H; simpl in H |- *.
  - apply Nat.eqb_eq in H; subst m. reflexivity.
  - destruct (String.eqb x o); [exact (IH (S m) H)|].
    destruct (String.eqb x c); [|exact (IH m H)].
    destruct m as [|m]; [discriminate|]. exact (IH m H).
Qed.

Lemma without_removeFirst_open (ts : list string) :
  without o c (removeFirst o ts) = without o c ts.
Proof.
  unfold without. induction ts as [|x ts IH]; simpl; [reflexivity|].
  destruct (String.eqb_spec o x) as [<-|N].
  - rewrite String.eqb_refl. reflexivity.
  - simpl. now rewrite IH.
Qed.

Lemma without_removeFirst_close (ts : list string) :
  without o c (removeFirst c ts) = without o c ts.
Proof.
  unfold without. induction ts as [|x ts IH]; simpl; [reflexivity|].
  destruct (String.eqb_spec c x) as [<-|N].
  - rewrite String.eqb_refl, orb_true_r. reflexivity.
  - simpl. now rewrite IH.
Qed.

Lemma without_absent (ts : list string) :
  ~ In o ts -> ~ In c ts -> without o c ts = ts.
Proof.
  unfold without. induction ts as [|x ts IH]; simpl; intros H1 H2; [reflexivity|].
  destruct (String.eqb_spec x o) as [->|N]; [exfalso; apply H1; now left|].
  destruct (String.eqb_spec x c) as [->|N']; [exfalso; apply H2; now left|].
  simpl. f_equal. apply IH; tauto.
Qed.

Lemma In_without (x : string) (ts : list string) :
  In x (without o c ts) <-> In x ts /\ x <> o /\ x <> c.
Proof.
  unfold without. rewrite filter_In, negb_true_iff, orb_false_iff.
  rewrite !String.eqb_neq. tauto.
Qed.

Lemma length_without (ts : list string) :
  List.length (without o c ts) <= List.length ts.
Proof. unfold without. apply filter_length_le. Qed.

(** Tags of another pair do not see [o] and [c]. *)
Lemma balanced_without (o' c' : string) (n : nat) (ts : list string) :
  o' <> o -> o' <> c -> c' <> o -> c' <> c ->
  balanced o' c' n (without o c ts) = balanced o' c' n ts.
Proof.
  intros A B C' D. unfold without.
  revert n; induction ts as [|x ts IH]; intros n; simpl; [reflexivity|].
  destruct (String.eqb_spec x o) as [->|N]; simpl.
  - destruct (String.eqb_spec o o'); [congruence|].
    destruct (String.eqb_spec o c'); [congruence|]. apply IH.
  - destruct (String.eqb_spec x c) as [->|N']; simpl.
    + destruct (String.eqb_spec c o'); [congruence|].
      destruct (String.eqb_spec c c'); [congruence|]. apply IH.
    + destruct (String.eqb x o'); [apply IH|].
      destruct (String.eqb x c'); [|apply IH].
      destruct n; [reflexivity | apply IH].
Qed.

End OnePair.

(** ** [replaceFixedPairs] on balanced lines *)

Section BalancedPair.

Variables o no c nc : string.
Hypothesis Ho : tagShaped o = true.
Hypothesis Hc : tagShaped c = true.
Hypothesis Hno : plain no = true.
Hypothesis Hnc : plain nc = true.
Hypothesis Hoc : String.eqb o c = false.

Let p : pair4 := (o, no, c, nc).

(** One turn of the loop on a balanced line: the first open and the first
    close become text, and the next [find] gives the first open left. *)
Lemma openStep_balanced (l : list tok) (ix : nat) :
  forallb okTok l = true ->
  balanced o c 0 (tags l) = true ->
  offset o l = Some ix ->
  exists l2,
    openStep p (flatten l) ix = flatten l2
    /\ find o (flatten l2) ix = offset o l2
    /\ forallb okTok l2 = true
    /\ balanced o c 0 (tags l2) = true
    /\ List.length (tags l2) < List.length (tags l)
    /\ without o c (tags l2) = without o c (tags l).
Proof.
  intros Hl Hb Hix.
  destruct (offset_split _ _ _ Hix) as (pre & post & -> & Hpre & Hlen).
  rewrite tags_app in Hb. simpl in Hb.
  destruct (balanced_first_open o c _ _ Hpre Hb) as [Hcpre Hpost].
  pose proof (balanced_needs_close o c _ _ Hpost) as Hcin.
  pose proof Hl as Hokall.
  rewrite forallb_app in Hl. apply andb_true_iff in Hl as [Hl1 Hl2].
  simpl in Hl2. apply andb_true_iff in Hl2 as [_ Hl2].
  assert (E1 : substFirst o no (pre ++ Tag o :: post)
               = (pre ++ txt no ++ post)%list).
  { rewrite (substFirst_absent_prefix _ _ _ _ Hpre), substFirst_here. reflexivity. }
  assert (Hok1 : forallb okTok (txt no ++ post) = true).
  { rewrite forallb_app, (okTok_txt _ Hno). exact Hl2. }
  assert (E2 : substFirst c nc (pre ++ txt no ++ post)
               = (pre ++ txt no ++ substFirst c nc post)%list).
  { rewrite (substFirst_absent_prefix _ _ _ _ Hcpre).
    rewrite substFirst_absent_prefix by (rewrite tags_txt; intros []).
    reflexivity. }
  assert (Hok2 : forallb okTok (txt no ++ substFirst c nc post) = true).
  { rewrite forallb_app, (okTok_txt _ Hno). now apply okTok_substFirst. }
  exists (pre ++ txt no ++ substFirst c nc post)%list.
  assert (T2 : tags (pre ++ txt no ++ substFirst c nc post)
               = (tags pre ++ removeFirst c (tags post))%list).
  { now rewrite !tags_app, tags_txt, tags_substFirst. }
  split; [|split; [|split; [|split; [|split]]]].
  - unfold openStep, p.
    rewrite (replace1_flatten o Ho no _ Hokall), E1.
    rewrite (flatten_app pre), <- Hlen, find_app_length.
    rewrite (find0_flatten c Hc _ Hok1).
    destruct (offset c (txt no ++ post)) as [k|] eqn:Ek.
    + simpl. rewrite <- (flatten_app pre).
      rewrite (replace1_flatten c Hc nc).
      * now rewrite E2.
      * rewrite forallb_app, Hl1. exact Hok1.
    + exfalso. apply offset_None in Ek. apply Ek.
      rewrite tags_app, tags_txt. exact Hcin.
  - rewrite (flatten_app pre), <- Hlen, find_app_length.
    rewrite (find0_flatten o Ho _ Hok2).
    rewrite (offset_absent_prefix _ _ _ Hpre). reflexivity.
  - rewrite forallb_app, Hl1. exact Hok2.
  - rewrite T2, (balanced_prefix o c _ _ _ Hpre Hcpre).
    now apply (balanced_remove_close o c Hoc).
  - rewrite T2, tags_app, !List.length_app. simpl.
    pose proof (length_removeFirst _ _ Hcin). lia.
  - rewrite T2, tags_app. unfold without. rewrite !filter_app. f_equal.
    simpl. rewrite String.eqb_refl. simpl.
    apply (without_removeFirst_close o c).
Qed.

(** The loop ends with no open left, whatever the close codes in front. *)
Lemma replaceOpens_balanced (fuel : nat) :
  forall (l : list tok) (ix : nat),
    forallb okTok l = true ->
    balanced o c 0 (tags l) = true ->
    offset o l = Some ix ->
    List.length (tags l) <= fuel ->
    exists l',
      replaceOpens fuel p (flatten l) ix = Ok (flatten l')
      /\ forallb okTok l' = true
      /\ ~ In o (tags l')
      /\ balanced o c 0 (tags l') = true
      /\ without o c (tags l') = without o c (tags l).
Proof.
  induction fuel as [|f IH]; intros l ix Hl Hb Hix Hf.
  - exfalso. destruct (tags l) eqn:E; [|simpl in Hf; lia].
    assert (N : offset o l = None) by (apply offset_None; rewrite E; intros []).
    congruence.
  - destruct (openStep_balanced l ix Hl Hb Hix)
      as (l2 & E1 & E2 & Hok & Hb2 & Hlt & Hw).
    cbn [replaceOpens]. rewrite E1. change (fst (fst (fst p))) with o. rewrite E2.
    destruct (offset o l2) as [ix'|] eqn:Eo.
    + destruct (IH l2 ix' Hok Hb2 Eo) as (l' & R & A & B & C' & D); [lia|].
      exists l'. repeat split; auto. now rewrite D.
    + exists l2. repeat split; auto. now apply offset_None.
Qed.

(** One entry of the table on a balanced line. *)
Lemma replaceFixedPair_balanced (fuel : nat) (l : list tok) :
  forallb okTok l = true ->
  balanced o c 0 (tags l) = true ->
  List.length (tags l) <= fuel ->
  exists l',
    replaceFixedPair fuel p (flatten l) = Ok (flatten l')
    /\ forallb okTok l' = true
    /\ tags l' = without o c (tags l).
Proof.
  intros Hl Hb Hf.
  assert (Fin : forall l', forallb okTok l' = true -> ~ In o (tags l') ->
            balanced o c 0 (tags l') = true ->
            repairBareClose p (flatten l') = Ok (flatten l')
            /\ tags l' = without o c (tags l')).
  { intros l' Hok Hn Hb'.
    pose proof (balanced_no_open o c _ Hn Hb') as Hnc'.
    split; [|symmetry; now apply without_absent].
    unfold repairBareClose, p. rewrite find_0, (find0_flatten c Hc _ Hok).
    apply offset_None in Hnc'. now rewrite Hnc'. }
  unfold replaceFixedPair, p. fold p.
  rewrite find_0, (find0_flatten o Ho _ Hl).
  destruct (offset o l) as [ix|] eqn:Eo.
  - destruct (replaceOpens_balanced fuel l ix Hl Hb Eo Hf)
      as (l' & R & A & B & C' & D).
    exists l'. rewrite R. cbn [bind].
    destruct (Fin l' A B C') as [F1 F2]. rewrite F1. repeat split; auto.
    now rewrite F2, D.
  - apply offset_None in Eo. exists l. cbn [bind].
    destruct (Fin l Hl Eo Hb) as [F1 F2]. rewrite F1. repeat split; auto.
Qed.

End BalancedPair.

(** ** Tables of tags *)

Lemma existsb_eqb_false (x : string) (l : list string) :
  existsb (String.eqb x) l = false <-> ~ In x l.
Proof.
  induction l as [|y l IH]; simpl; [tauto|].
  rewrite orb_false_iff, IH, String.eqb_neq. intuition congruence.
Qed.

Lemma tagTable_cons (o no c nc : string) (rest : list pair4) :
  tagTable ((o, no, c, nc) :: rest) = true ->
  tagShaped o = true /\ tagShaped c = true /\ plain no = true /\ plain nc = true
  /\ String.eqb o c = false /\ ~ In o (codes rest) /\ ~ In c (codes rest)
  /\ tagTable rest = true.
Proof.
  unfold tagTable. cbn [codes forallb distinct existsb].
  rewrite !andb_true_iff, !negb_true_iff, orb_false_iff, !existsb_eqb_false.
  intros [[[Ho [Hc Hf]] [[Hoc Ho'] [Hc' Hd]]] [[Hno Hnc] Hp]].
  repeat split; auto.
Qed.

Lemma codes_In (o no c nc : string) (table : list pair4) :
  In (o, no, c, nc) table -> In o (codes table) /\ In c (codes table).
Proof.
  induction table as [|[[[o' no'] c'] nc'] table IH]; simpl; [tauto|].
  intros [E|H]; [injection E as -> -> -> ->; tauto | destruct (IH H); tauto].
Qed.

Lemma tagTable_In (o no c nc : string) (table : list pair4) :
  tagTable table = true -> In (o, no, c, nc) table ->
  tagShaped o = true /\ tagShaped c = true /\ String.eqb o c = false.
Proof.
  induction table as [|[[[o' no'] c'] nc'] table IH]; simpl; [tauto|].
  intros HT [E|H].
  - injection E as -> -> -> ->.
    destruct (tagTable_cons _ _ _ _ _ HT) as (A & B & _ & _ & C' & _). tauto.
  - apply IH; auto. now destruct (tagTable_cons _ _ _ _ _ HT) as (_&_&_&_&_&_&_&R).
Qed.

(** Two entries of a table of tags are the same pair of codes or share no
    code. *)
Lemma tagTable_pairs (table : list pair4) (o no c nc o' no' c' nc' : string) :
  tagTable table = true ->
  In (o, no, c, nc) table -> In (o', no', c', nc') table ->
  (o' = o /\ c' = c) \/ (o' <> o /\ o' <> c /\ c' <> o /\ c' <> c).
Proof.
  induction table as [|[[[o0 no0] c0] nc0] table IH]; simpl; [tauto|].
  intros HT H H'.
  destruct (tagTable_cons _ _ _ _ _ HT) as (_ & _ & _ & _ & Hoc & Ho & Hc & HR).
  apply String.eqb_neq in Hoc.
  destruct H as [E|H]; destruct H' as [E'|H'].
  - injection E as <- <- <- <-. injection E' as <- <- <- <-. now left.
  - injection E as <- <- <- <-. destruct (codes_In _ _ _ _ _ H') as [A B].
    right. repeat split; intros ->; tauto.
  - injection E' as <- <- <- <-. destruct (codes_In _ _ _ _ _ H) as [A B].
    right. repeat split; intros <-; tauto.
  - now apply IH.
Qed.

Lemma replaceFixedPairs_balanced (fuel : nat) (table : list pair4) :
  forall l : list tok,
    tagTable table = true ->
    forallb okTok l = true ->
    (forall t, In t (tags l) -> In t (codes table)) ->
    (forall o no c nc, In (o, no, c, nc) table ->
                       balanced o c 0 (tags l) = true) ->
    List.length (tags l) <= fuel ->
    exists l',
      replaceFixedPairs fuel table (flatten l) = Ok (flatten l')
      /\ forallb okTok l' = true /\ tags l' = [].
Proof.
  induction table as [|[[[o no] c] nc] table IH]; intros l HT Hl Hin Hb Hf.
  - exists l. repeat split; auto.
    destruct (tags l) as [|t ts]; [reflexivity|]. destruct (Hin t). now left.
  - destruct (tagTable_cons _ _ _ _ _ HT)
      as (Ho & Hc & Hno & Hnc & Hoc & Ho' & Hc' & HR).
    destruct (replaceFixedPair_balanced o no c nc Ho Hc Hno Hnc Hoc fuel l Hl)
      as (l1 & R & Hok1 & T1); auto.
    { apply (Hb o no c nc). now left. }
    cbn [replaceFixedPairs]. rewrite R. cbn [bind].
    apply IH; auto.
    + intros t Ht. rewrite T1 in Ht. apply In_without in Ht as (A & B & C').
      destruct (Hin t A) as [E|[E|E]]; [congruence | congruence | exact E].
    + intros o1 no1 c1 nc1 H1. rewrite T1.
      destruct (tagTable_pairs _ o no c nc o1 no1 c1 nc1 HT) as [[-> ->]|(A&B&C'&D)].
      * now left.
      * now right.
      * exfalso. destruct (codes_In _ _ _ _ _ H1). tauto.
      * rewrite balanced_without; auto. apply (Hb o1 no1 c1 nc1). now right.
    + rewrite T1. pose proof (length_without o c (tags l)). lia.
Qed.

(** A well-formed line is a balanced line of tokens. *)
Lemma wellFormed_tokens (table : list pair4) (s : string) :
  tagTable table = true -> wellFormed table s ->
  exists l, flatten l = s /\ forallb okTok l = true
            /\ (forall t, In t (tags l) -> In t (codes table))
            /\ (forall o no c nc, In (o, no, c, nc) table ->
                                  balanced o c 0 (tags l) = true).
Proof.
  intros HT H. induction H as [|ch s Hc H IH|o no c nc inner rest Hp Hi IHi Hr IHr].
  - exists []. repeat split; auto. intros t [].
  - destruct IH as (l & <- & Hl & Hin & Hb).
    exists (Txt ch :: l). simpl. rewrite Hc. repeat split; auto.
  - destruct IHi as (li & <- & Hli & Hini & Hbi).
    destruct IHr as (lr & <- & Hlr & Hinr & Hbr).
    destruct (tagTable_In _ _ _ _ _ HT Hp) as (Ho & Hcl & Hoc).
    destruct (codes_In _ _ _ _ _ Hp) as [Io Ic].
    exists (Tag o :: li ++ Tag c :: lr)%list. repeat split.
    + simpl. now rewrite flatten_app.
    + simpl. rewrite Ho, forallb_app, Hli. simpl. now rewrite Hcl, Hlr.
    + simpl. rewrite tags_app. simpl. intros t [<-|Ht]; [exact Io|].
      apply in_app_or in Ht as [Ht|[<-|Ht]]; auto.
    + intros o1 no1 c1 nc1 H1. simpl. rewrite tags_app. simpl.
      destruct (tagTable_pairs _ o no c nc o1 no1 c1 nc1 HT Hp H1)
        as [[-> ->]|(A&B&C'&D)].
      * rewrite String.eqb_refl.
        pose proof (balanced_app o c (tags li) (c :: tags lr) 0 1 (Hbi _ _ _ _ Hp)) as E.
        cbn [Nat.add] in E. rewrite E.
        simpl. rewrite String.eqb_sym, Hoc, String.eqb_refl. eauto.
      * destruct (String.eqb_spec o o1); [congruence|].
        destruct (String.eqb_spec o c1); [congruence|].
        pose proof (balanced_app o1 c1 (tags li) (c :: tags lr) 0 0 (Hbi _ _ _ _ H1)) as E.
        cbn [Nat.add] in E. rewrite E.
        simpl. destruct (String.eqb_spec c o1); [congruence|].
        destruct (String.eqb_spec c c1); [congruence|]. eauto.
Qed.

Lemma tagShaped_length (t : string) : tagShaped t = true -> 1 <= length t.
Proof. destruct t; [discriminate | simpl; lia]. Qed.

Lemma tags_length (l : list tok) :
  forallb okTok l = true -> List.length (tags l) <= length (flatten l).
Proof.
  induction l as [|[ch|t] l IH]; simpl; intros H; [lia | |].
  - apply andb_true_iff in H as [_ H]. apply IH in H. lia.
  - apply andb_true_iff in H as [Ht H]. apply IH in H.
    apply tagShaped_length in Ht. rewrite strlen_app. lia.
Qed.

Lemma plain_flatten (l : list tok) :
  forallb okTok l = true -> tags l = [] -> plain (flatten l) = true.
Proof.
  induction l as [|[ch|t] l IH]; simpl; intros H T; [reflexivity | | discriminate].
  apply andb_true_iff in H as [H1 H2]. rewrite H1. now apply IH.
Qed.

Lemma plain_lacks (s : string) :
  plain s = true -> lacks "<"%char s = true /\ lacks ">"%char s = true.
Proof.
  induction s as [|ch s IH]; simpl; intros H; [tauto|].
  apply andb_true_iff in H as [H1 H2]. destruct (IH H2) as [A B].
  unfold angle in H1. apply negb_true_iff, orb_false_iff in H1 as [H3 H4].
  now rewrite H3, H4, A, B.
Qed.

Lemma plain_no_angle (s : string) :
  plain s = true -> contains "<" s = false /\ contains ">" s = false.
Proof.
  intros H. destruct (plain_lacks _ H) as [A B]. unfold contains.
  rewrite !find_0, (find0_lacks "<"%char EmptyString s A),
    (find0_lacks ">"%char EmptyString s B). tauto.
Qed.

(** On a well-formed line of a table of tags, [replaceFixedPairs] returns,
    and returns a line without angle brackets. *)
Lemma replaceFixedPairs_wellFormed (fuel : nat) (table : list pair4) (s : string) :
  tagTable table = true -> wellFormed table s -> length s <= fuel ->
  exists out, replaceFixedPairs fuel table s = Ok out /\ plain out = true.
Proof.
  intros HT Hw Hf.
  destruct (wellFormed_tokens _ _ HT Hw) as (l & <- & Hl & Hin & Hb).
  destruct (replaceFixedPairs_balanced fuel table l HT Hl Hin Hb) as (l' & R & A & B).
  - pose proof (tags_length l Hl). lia.
  - exists (flatten l'). split; [exact R | now apply plain_flatten].
Qed.

(** ** Searching past text that cannot start a match *)

Section HeadChar.

(** A pattern that begins with the literal character [a]. *)
Variables (a : ascii) (lit' : string) (r' : regex).
Let r : regex := Lit (String a lit') :: r'.

Lemma matchAt_other (c : ascii) (x : string) :
  Ascii.eqb c a = false -> matchAt r (String c x) = None.
Proof. intros H. unfold r. cbn [matchAt lit]. rewrite Ascii.eqb_sym, H. reflexivity. Qed.

Lemma matchAt_empty : matchAt r EmptyString = None.
Proof. reflexivity. Qed.

Lemma search_skip (w x : string) :
  lacks a w = true ->
  search r (w ++ x) = option_map (shiftBy w) (search r x).
Proof.
  induction w as [|c w IH]; intros H; simpl in H.
  - simpl. destruct (search r x) as [[b sg af]|]; reflexivity.
  - apply andb_true_iff in H as [H1 H2]. apply negb_true_iff in H1.
    change (String c w ++ x) with (String c (w ++ x)).
    cbn [search]. rewrite (matchAt_other c _ H1), (IH H2).
    destruct (search r x) as [[b sg af]|]; reflexivity.
Qed.

Lemma search_lacks (s : string) : lacks a s = true -> search r s = None.
Proof.
  intros H. rewrite <- (app_empty_r s), (search_skip _ _ H). reflexivity.
Qed.

(** Past a match attempt that fails. *)
Lemma search_step (c : ascii) (x : string) :
  matchAt r (String c x) = None ->
  search r (String c x) = option_map (shiftBy (String c EmptyString)) (search r x).
Proof.
  intros H. cbn [search]. rewrite H.
  destruct (search r x) as [[b sg af]|]; reflexivity.
Qed.

End HeadChar.

(** A pattern that begins with [<] and matches at none of the tags of a
    line finds nothing in the line. *)
Lemma search_flatten_none (lit' : string) (r' : regex) (allowed : list string)
  (l : list tok) :
  let r := Lit (String "<"%char lit') :: r' in
  (forall t x, In t allowed -> matchAt r (t ++ x) = None) ->
  forallb okTok l = true ->
  (forall t, In t (tags l) -> In t allowed) ->
  search r (flatten l) = None.
Proof.
  intros r Hm. induction l as [|[c|t] l IH]; intros Hl Hin.
  - reflexivity.
  - simpl in Hl. apply andb_true_iff in Hl as [Hc Hl].
    unfold angle in Hc. apply negb_true_iff, orb_false_iff in Hc as [Hc _].
    cbn [flatten]. unfold r. rewrite search_step by now apply matchAt_other.
    fold r. now rewrite IH.
  - simpl in Hl. apply andb_true_iff in Hl as [Ht Hl].
    cbn [flatten].
    pose proof (Hm t (flatten l) (Hin t (or_introl eq_refl))) as M.
    destruct (tagShaped_inv _ Ht) as (rt & -> & Hrt).
    change (String "<" rt ++ flatten l) with (String "<"%char (rt ++ flatten l)) in *.
    unfold r. rewrite search_step by exact M.
    rewrite (search_skip _ _ _ _ _ (tagTail_lacks _ Hrt)). fold r.
    rewrite IH; auto. intros t' Ht'. apply Hin. now right.
Qed.


(** ** The THML filter on well-formed lines *)

Lemma thml_tagTable : tagTable THML.replacementList = true.
Proof. reflexivity. Qed.

Lemma thml_patterns_miss (t x : string) :
  In t (codes THML.replacementList) ->
  matchAt THML.reTitleDiv (t ++ x) = None
  /\ matchAt THML.reSecheadDiv (t ++ x) = None
  /\ matchAt THML.reScripRef (t ++ x) = None
  /\ matchAt THML.reWT (t ++ x) = None.
Proof.
  intros H. simpl in H.
  repeat (destruct H as [<-|H]; [repeat split; reflexivity|]). contradiction.
Qed.

Ltac no_match_in l M Hl Hin :=
  apply (search_flatten_none _ _ (codes THML.replacementList) l M Hl Hin).

Lemma thml_no_match (l : list tok) :
  forallb okTok l = true ->
  (forall t, In t (tags l) -> In t (codes THML.replacementList)) ->
  search THML.reTitleDiv (flatten l) = None
  /\ search THML.reSecheadDiv (flatten l) = None
  /\ search THML.reScripRef (flatten l) = None
  /\ search THML.reWT (flatten l) = None.
Proof.
  intros Hl Hin.
  pose proof (fun t x Ht => proj1 (thml_patterns_miss t x Ht)) as M1.
  pose proof (fun t x Ht => proj1 (proj2 (thml_patterns_miss t x Ht))) as M2.
  pose proof (fun t x Ht => proj1 (proj2 (proj2 (thml_patterns_miss t x Ht)))) as M3.
  pose proof (fun t x Ht => proj2 (proj2 (proj2 (thml_patterns_miss t x Ht)))) as M4.
  revert M1 M2 M3 M4.
  normal_pattern THML.reTitleDiv. normal_pattern THML.reSecheadDiv.
  normal_pattern THML.reScripRef. normal_pattern THML.reWT.
  intros M1 M2 M3 M4.
  split; [no_match_in l M1 Hl Hin|].
  split; [no_match_in l M2 Hl Hin|].
  split; [no_match_in l M3 Hl Hin | no_match_in l M4 Hl Hin].
Qed.

Lemma thml_no_break (l : list tok) :
  forallb okTok l = true ->
  (forall t, In t (tags l) -> In t (codes THML.replacementList)) ->
  replace "<br />" "\NL**" (flatten l) = flatten l
  /\ replace "<br/>" "\NL**" (flatten l) = flatten l.
Proof.
  intros Hl Hin. split; apply replace_flatten_absent; auto;
    intros H; apply Hin in H; simpl in H;
    repeat (destruct H as [H|H]; [discriminate|]); contradiction.
Qed.

(** C2: on a verse that is well formed over the pair table of the THML
    filter -- text without angle brackets in which the codes of the table
    come in matched pairs -- [filterTHMLVerseLine] returns, given fuel for
    the length of the verse, and the line it returns holds neither [<] nor
    [>]. *)
Theorem thml_no_markup_leak (debugFlag : bool) (fuel : nat)
  (thmlVerseString moduleName BBB C V : string) :
  wellFormed THML.replacementList thmlVerseString ->
  length thmlVerseString < fuel ->
  exists verseLine,
    filterTHMLVerseLine debugFlag fuel thmlVerseString moduleName BBB C V
    = Ok verseLine
    /\ contains "<" verseLine = false /\ contains ">" verseLine = false.
Proof.
  intros Hw Hf.
  destruct (replaceFixedPairs_wellFormed fuel _ _ thml_tagTable Hw)
    as (out & R & Hp); [lia|].
  destruct (wellFormed_tokens _ _ thml_tagTable Hw) as (l & E & Hl & Hin & _).
  destruct (thml_no_match l Hl Hin) as (M1 & M2 & M3 & M4).
  destruct (thml_no_break l Hl Hin) as (B1 & B2).
  rewrite E in *.
  destruct (plain_no_angle _ Hp) as [A1 A2].
  exists out. split; [|tauto].
  destruct fuel as [|f]; [lia|].
  unfold filterTHMLVerseLine.
  cbn [rewriteAll]. rewrite M1. cbn [bind rewriteAll]. rewrite M2.
  cbn [bind rewriteAll]. rewrite M3. cbn [bind rewriteAll]. rewrite M4.
  cbn [bind]. rewrite B1, B2, R. cbn [bind].
  unfold leftoverCheck. rewrite A1, A2. reflexivity.
Qed.

Lemma thml_no_markup_leak_witness :
  exists verseLine,
    filterTHMLVerseLine false 40 "a <i>b <sup>c</sup></i> <i>d</i>"
      "KJV" "GEN" "1" "1" = Ok verseLine
    /\ contains "<" verseLine = false /\ contains ">" verseLine = false.
Proof.
  apply thml_no_markup_leak; [|simpl; lia].
  apply (wf_text _ "a"%char); [reflexivity|].
  apply (wf_text _ " "%char); [reflexivity|].
  apply (wf_pair _ "<i>" "\it " "</i>" "\it*" "b <sup>c</sup>" " <i>d</i>").
  - simpl. tauto.
  - apply (wf_text _ "b"%char); [reflexivity|].
    apply (wf_text _ " "%char); [reflexivity|].
    apply (wf_pair _ "<sup>" "\ord " "</sup>" "\ord*" "c" EmptyString).
    + simpl. tauto.
    + apply (wf_text _ "c"%char); [reflexivity | apply wf_empty].
    + apply wf_empty.
  - apply (wf_text _ " "%char); [reflexivity|].
    apply (wf_pair _ "<i>" "\it " "</i>" "\it*" "d" EmptyString).
    + simpl. tauto.
    + apply (wf_text _ "d"%char); [reflexivity | apply wf_empty].
    + apply wf_empty.
Defined.

(** ** The pair reconciler on given inputs *)

Lemma openStep_spec (openCode newOpenCode closeCode newCloseCode verseLine : string)
  (ix : nat) :
  find0 openCode verseLine = Some ix ->
  let opened := take ix verseLine ++ newOpenCode
                  ++ drop (ix + length openCode) verseLine in
  (forall j, j < ix -> startswith openCode (drop j verseLine) = false)
  /\ openStep (openCode, newOpenCode, closeCode, newCloseCode) verseLine ix
     = match find closeCode opened ix with
       | None => opened ++ newCloseCode
       | Some _ =>
           match find0 closeCode opened with
           | Some k => take k opened ++ newCloseCode
                         ++ drop (k + length closeCode) opened
           | None => opened
           end
       end.
Proof.
  intros H opened. split; [exact (proj2 (find0_Some _ _ _ H))|].
  unfold openStep. rewrite (replace1_Some _ newOpenCode _ _ H). fold opened.
  destruct (find closeCode opened ix); [|reflexivity].
  destruct (find0 closeCode opened) as [k|] eqn:E.
  - now apply replace1_Some.
  - now apply replace1_None.
Qed.

(** C6: with the divine-name entry the reconciler turns
    <divineName>LORD</divineName> into the open marker, LORD, the close
    marker, and no angle bracket is left; so does the OSIS filter, which
    appends that entry (lines 731-737).  In every turn of the loop the
    leftmost open code is the one rewritten, and one close code -- the
    first of the line -- is rewritten for it, or the close marker is put
    at the end when no close code follows. *)
Theorem pair_repair_forward :
  (forall fuel,
      replaceFixedPairs (S fuel) [divineNamePair] "<divineName>LORD</divineName>"
      = Ok ("\nd " ++ "LORD" ++ "\nd*"))
  /\ contains "<" ("\nd " ++ "LORD" ++ "\nd*") = false
  /\ contains ">" ("\nd " ++ "LORD" ++ "\nd*") = false
  /\ (forall debugFlag fuel moduleName BBB C V,
         filterOSISVerseLine debugFlag (S fuel) "<divineName>LORD</divineName>"
           moduleName BBB C V = Ok "\nd LORD\nd*")
  /\ (forall openCode newOpenCode closeCode newCloseCode verseLine ix,
         find0 openCode verseLine = Some ix ->
         let opened := take ix verseLine ++ newOpenCode
                         ++ drop (ix + length openCode) verseLine in
         (forall j, j < ix -> startswith openCode (drop j verseLine) = false)
         /\ openStep (openCode, newOpenCode, closeCode, newCloseCode) verseLine ix
            = match find closeCode opened ix with
              | None => opened ++ newCloseCode
              | Some _ =>
                  match find0 closeCode opened with
                  | Some k => take k opened ++ newCloseCode
                                ++ drop (k + length closeCode) opened
                  | None => opened
                  end
              end).
Proof.
  split; [intros; vm_compute; reflexivity|].
  split; [reflexivity|]. split; [reflexivity|].
  split; [intros; vm_compute; reflexivity|].
  intros. now apply openStep_spec.
Qed.

Lemma pair_repair_forward_witness :
  openStep divineNamePair "a<divineName>LORD</divineName>" 1 = "a\nd LORD\nd*".
Proof.
  destruct pair_repair_forward as (_ & _ & _ & _ & H).
  destruct (H "<divineName>" "\nd " "</divineName>" "\nd*"
              "a<divineName>LORD</divineName>" 1 eq_refl) as [_ E].
  exact E.
Defined.

(** ** The insert-position scan *)

Lemma scanToSpace_ge (k : nat) (verseLine : string) (i : nat) :
  i <= scanToSpace k verseLine i.
Proof.
  revert i; induction k as [|k IH]; intros i; simpl; [lia|].
  destruct (get i verseLine) as [ch|]; [|specialize (IH (S i)); lia].
  destruct (Ascii.eqb_spec ch " "%char) as [->|N].
  - lia.
  - assert (E : match ch with " "%char => i | _ => scanToSpace k verseLine (S i) end
                = scanToSpace k verseLine (S i)).
    { destruct ch as [[] [] [] [] [] [] [] []]; try reflexivity. now elim N. }
    rewrite E. specialize (IH (S i)). lia.
Qed.

Lemma get_Some_lt (s : string) (i : nat) (ch : ascii) :
  get i s = Some ch -> i < length s.
Proof.
  revert i; induction s as [|c s IH]; intros i H; simpl in H.
  - discriminate.
  - destruct i; simpl; [lia|]. apply IH in H. lia.
Qed.

(** The bound given to the scan of lines 127-131 is never reached: the
    scan returns an index or raises. *)
Lemma skipMarkers_bound (fuel : nat) (verseLine : string) (i : nat) :
  length verseLine - i < fuel -> skipMarkers fuel verseLine i <> OutOfFuel.
Proof.
  revert i; induction fuel as [|f IH]; intros i H; [lia|].
  simpl. destruct (get i verseLine) as [ch|] eqn:G; [|discriminate].
  destruct (Ascii.eqb ch "\"%char); [|discriminate].
  apply IH. apply get_Some_lt in G.
  pose proof (scanToSpace_ge (length verseLine - 1 - S i) verseLine (S i)). lia.
Qed.

(** C9: the reconciler does raise.  With the entry that removes seg tags
    a line made of the close code alone becomes empty, and the scan of
    line 127 reads its first character: [IndexError], also through the OSIS
    filter, whose table holds that entry.  A line that the repair leaves
    with a backslash as its last character runs the scan past the end as
    well. *)
Theorem bare_close_index_error :
  (forall fuel, replaceFixedPairs fuel [segPair] "</seg>" = Raise IndexError)
  /\ (forall debugFlag fuel moduleName BBB C V,
         filterOSISVerseLine debugFlag (S fuel) "</seg>" moduleName BBB C V
         = Raise IndexError)
  /\ (forall fuel,
         replaceFixedPairs fuel [("<a>", "\a ", "</a>", "\")] "</a>"
         = Raise IndexError).
Proof.
  repeat split; intros; vm_compute; reflexivity.
Qed.

(** C1: on the close code alone the scan for the insert position runs over
    the close marker that the repair has just written, so the open marker
    lands inside it: </i> becomes \it \it * and not the open marker followed
    by the close marker.  With text before the close code the open marker
    is put at position zero, after a space. *)
Theorem bare_close_repair :
  (forall fuel, replaceFixedPairs fuel [italicPair] "</i>" = Ok "\it \it *")
  /\ (forall fuel, replaceFixedPairs fuel [italicPair] "word</i>"
                   = Ok " \it word\it*")
  /\ (forall fuel, replaceFixedPairs fuel [italicPair] "\p word</i>"
                   = Ok "\p \it  word\it*").
Proof.
  repeat split; intros; vm_compute; reflexivity.
Qed.

(** ** The importers *)

(** C5: [importTHMLVerseLine] never reaches the filter or the book: its
    first statement calls the function itself with five arguments, which
    raises [TypeError]; the GBF importer, its twin, hands the filtered line
    to the book. *)
Theorem importTHML_raises :
  (forall thmlVerseString thisBook moduleName BBB C V,
      importTHMLVerseLine thmlVerseString thisBook moduleName BBB C V
      = Raise TypeError)
  /\ (forall debugFlag fuel gbfVerseString thisBook moduleName BBB C V verseLine,
         filterGBFVerseLine debugFlag fuel gbfVerseString moduleName BBB C V
         = Ok verseLine ->
         importGBFVerseLine debugFlag fuel gbfVerseString thisBook moduleName BBB C V
         = Ok (addVerseSegments thisBook V verseLine
                 (locationOf moduleName BBB C V))).
Proof.
  split; [reflexivity|].
  intros * H. unfold importGBFVerseLine. now rewrite H.
Qed.

Lemma truthy_iff (s : string) : truthy s = true <-> s <> EmptyString.
Proof. destruct s; simpl; split; congruence. Qed.

Lemma app_one_neq {A : Type} (l : list A) (x : A) : (l ++ [x])%list <> l.
Proof.
  intros E. apply (f_equal (@List.length A)) in E.
  rewrite List.length_app in E. simpl in E. lia.
Qed.

(** C10: when the filter returns [verseLine], [importOSISVerseLine] hands
    it to [thisBook.addVerseSegments] if and only if [verseLine] is not
    empty or [V] is not '0'; otherwise the book is left as it was. *)
Theorem importOSIS_stores_iff (debugFlag : bool) (fuel : nat)
  (osisVerseString : string) (thisBook : book)
  (moduleName BBB C V verseLine : string) :
  filterOSISVerseLine debugFlag fuel osisVerseString moduleName BBB C V
  = Ok verseLine ->
  let stored := addVerseSegments thisBook V verseLine
                  (locationOf moduleName BBB C V) in
  let imported := importOSISVerseLine debugFlag fuel osisVerseString thisBook
                    moduleName BBB C V in
  (imported = Ok stored <-> (verseLine <> EmptyString \/ V <> "0"))
  /\ (imported = Ok thisBook <-> (verseLine = EmptyString /\ V = "0")).
Proof.
  intros H stored imported.
  assert (E : imported = if truthy verseLine || negb (String.eqb V "0")
                         then Ok stored else Ok thisBook).
  { unfold imported, importOSISVerseLine. rewrite H. reflexivity. }
  rewrite E. clear E.
  destruct (truthy verseLine) eqn:T; simpl.
  - apply truthy_iff in T. split.
    + split; [tauto | reflexivity].
    + split; [|tauto]. intros X. injection X as X.
      exfalso. revert X. apply app_one_neq.
  - assert (T' : verseLine = EmptyString) by (destruct verseLine; [reflexivity | discriminate]).
    destruct (String.eqb_spec V "0") as [->|N]; simpl.
    + split.
      * split; [|tauto]. intros X. injection X as X. symmetry in X.
        exfalso. revert X. apply app_one_neq.
      * split; [tauto | reflexivity].
    + split.
      * split; [tauto | reflexivity].
      * split; [|tauto]. intros X. injection X as X.
        exfalso. revert X. apply app_one_neq.
Qed.

Lemma importOSIS_stores_iff_witness :
  importOSISVerseLine false 5 (divOfType "book") [] "KJV" "GEN" "0" "0" = Ok []
  /\ importOSISVerseLine false 5 (divOfType "book") [] "KJV" "GEN" "1" "1"
     = Ok [AddVerseSegments "1" EmptyString "KJV GEN 1:1"].
Proof.
  split.
  - apply (importOSIS_stores_iff false 5 (divOfType "book") [] "KJV" "GEN" "0" "0"
             EmptyString); [vm_compute; reflexivity | tauto].
  - apply (importOSIS_stores_iff false 5 (divOfType "book") [] "KJV" "GEN" "1" "1"
             EmptyString); [vm_compute; reflexivity |].
    right. discriminate.
Defined.

(** ** The OSIS filter: containers *)

Lemma divReplacement_paragraph (C : string) :
  OSIS.divReplacement C "paragraph"
  = Ok (if String.eqb C "0" then "\NL**\ip " else "\NL**\p\NL**").
Proof. reflexivity. Qed.

(** One turn of a rewriting loop. *)
Lemma rewriteLoop_turn (fuel : nat) (r : regex)
  (body : OSIS.locals -> rmatch -> result (OSIS.locals * string))
  (st : OSIS.locals * string) (mt : rmatch) :
  search r (snd st) = Some mt ->
  OSIS.rewriteLoop (S fuel) r body st
  = ('(lc, spliced) <- body (fst st) mt ;;
     OSIS.rewriteLoop fuel r body (lc, before mt ++ spliced ++ after mt)).
Proof. intros H. cbn [OSIS.rewriteLoop]. now rewrite H. Qed.

Lemma rewriteLoop_done (fuel : nat) (r : regex)
  (body : OSIS.locals -> rmatch -> result (OSIS.locals * string))
  (st : OSIS.locals * string) :
  search r (snd st) = None -> OSIS.rewriteLoop (S fuel) r body st = Ok st.
Proof. intros H. cbn [OSIS.rewriteLoop]. now rewrite H. Qed.

(** The passes of a filter, one at a time: a pass that returns hands its
    value to the passes after it. *)
Lemma bind_Ok_eq (A B : Type) (x : result A) (v : A) (k : A -> result B)
  (r : result B) :
  x = Ok v -> k v = r -> bind x k = r.
Proof. intros -> H. exact H. Qed.

Lemma bind_Raise_eq (A B : Type) (x : result A) (e : exn) (k : A -> result B) :
  x = Raise e -> bind x k = Raise e.
Proof. intros ->. reflexivity. Qed.

Ltac run_pass :=
  match goal with
  | |- bind _ _ = _ => eapply bind_Ok_eq; [vm_compute; reflexivity | cbv beta]
  end.

Lemma paragraph_div_in_chapter (debugFlag : bool) (fuel : nat)
  (moduleName BBB C V : string) :
  filterOSISVerseLine debugFlag (S (S fuel)) (divOfType "paragraph" ++ "In the beginning")
    moduleName BBB C V
  = Ok (if String.eqb C "0" then "\NL**\ip In the beginning"
        else "\NL**\p\NL**In the beginning").
Proof.
  unfold filterOSISVerseLine.
  do 16 run_pass.
  erewrite rewriteLoop_turn by (vm_compute; reflexivity).
  unfold divBody at 1.
  match goal with
  | |- context [OSIS.divReplacement C ?t] =>
      replace t with "paragraph" by (vm_compute; reflexivity)
  end.
  rewrite divReplacement_paragraph.
  destruct (String.eqb C "0").
  - repeat run_pass. reflexivity.
  - repeat run_pass. reflexivity.
Qed.



Lemma titleMarkerOf_unknown (sectionType : string) :
  ~ In sectionType knownSectionTypes ->
  OSIS.titleMarkerOf sectionType = Raise NameError.
Proof.
  intros H. unfold OSIS.titleMarkerOf.
  repeat match goal with
         | |- context [String.eqb sectionType ?k] =>
             destruct (String.eqb_spec sectionType k);
             [exfalso; apply H; subst; simpl; tauto|]
         end.
  reflexivity.
Qed.

Lemma divReplacement_unknown (C divType : string) :
  ~ In divType knownDivTypes -> OSIS.divReplacement C divType = Raise NameError.
Proof.
  intros H. unfold OSIS.divReplacement, inTuple, existsb.
  repeat match goal with
         | |- context [String.eqb divType ?k] =>
             destruct (String.eqb_spec divType k);
             [exfalso; apply H; subst; simpl; tauto|]
         end.
  reflexivity.
Qed.

Lemma divReplacement_known (C divType : string) :
  In divType knownDivTypes -> returns (OSIS.divReplacement C divType).
Proof.
  intros H. simpl in H.
  repeat (destruct H as [<-|H]; [eexists; reflexivity|]). contradiction.
Qed.

Lemma titleMarkerOf_known (sectionType : string) :
  In sectionType knownSectionTypes -> returns (OSIS.titleMarkerOf sectionType).
Proof.
  intros H. simpl in H.
  repeat (destruct H as [<-|H]; [eexists; reflexivity|]). contradiction.
Qed.




(** ** The OSIS filter: word attributes *)




(** ** The GBF filter: a caller met twice *)

Lemma lacks_app (a : ascii) (x y : string) :
  lacks a (x ++ y) = lacks a x && lacks a y.
Proof.
  induction x as [|c x IH]; simpl; [reflexivity|].
  now rewrite IH, andb_assoc.
Qed.

Lemma drop_add (a b : string) (n : nat) :
  drop (length a + n) (a ++ b) = drop n b.
Proof. induction a as [|c a IH]; simpl; [reflexivity | exact IH]. Qed.

Lemma shiftBy_shiftBy (w v : string) (x : rmatch) :
  shiftBy w (shiftBy v x) = shiftBy (w ++ v) x.
Proof. unfold shiftBy. simpl. now rewrite app_assoc_s. Qed.

Lemma option_map_shiftBy (w v : string) (o : option rmatch) :
  option_map (shiftBy w) (option_map (shiftBy v) o)
  = option_map (shiftBy (w ++ v)) o.
Proof. destruct o; simpl; [now rewrite shiftBy_shiftBy | reflexivity]. Qed.

(** The GBF patterns that are run on the verse line all begin with [<]. *)
Lemma gbf_skip (w x : string) :
  lacks "<"%char w = true ->
  search GBF.reCaller (w ++ x) = option_map (shiftBy w) (search GBF.reCaller x)
  /\ search GBF.reCallee (w ++ x) = option_map (shiftBy w) (search GBF.reCallee x)
  /\ search GBF.reUnnumbered (w ++ x)
     = option_map (shiftBy w) (search GBF.reUnnumbered x).
Proof.
  intros H.
  normal_pattern GBF.reCaller. normal_pattern GBF.reCallee.
  normal_pattern GBF.reUnnumbered.
  repeat split; apply search_skip; exact H.
Qed.

Lemma gbf_lacks (s : string) :
  lacks "<"%char s = true ->
  search GBF.reCaller s = None /\ search GBF.reCallee s = None
  /\ search GBF.reUnnumbered s = None /\ search GBF.reFootnote s = None
  /\ search GBF.reWT s = None /\ search GBF.reWH s = None
  /\ search GBF.reWG s = None.
Proof.
  intros H.
  normal_pattern GBF.reCaller. normal_pattern GBF.reCallee.
  normal_pattern GBF.reUnnumbered. normal_pattern GBF.reFootnote.
  normal_pattern GBF.reWT. normal_pattern GBF.reWH. normal_pattern GBF.reWG.
  repeat split; apply search_lacks; exact H.
Qed.

Lemma caller_found (x : string) :
  search GBF.reCaller (callerToken ++ x)
  = Some (mkMatch EmptyString ["<RF>"; "1"; "<Rf>"] x).
Proof. reflexivity. Qed.

Lemma callee_found (x : string) :
  search GBF.reCallee (calleeToken ++ x)
  = Some (mkMatch EmptyString ["<RF>"; "1"; ") "; "note one"; "<Rf>"] x).
Proof. reflexivity. Qed.

Lemma callee_not_at_caller (x : string) :
  search GBF.reCallee (callerToken ++ x)
  = option_map (shiftBy callerToken) (search GBF.reCallee x).
Proof.
  unfold callerToken. cbn [append search].
  change (matchAt GBF.reCallee ("<RF>1<Rf>" ++ x)) with (@None found).
  change (matchAt GBF.reCallee ("RF>1<Rf>" ++ x)) with (@None found).
  change (matchAt GBF.reCallee ("F>1<Rf>" ++ x)) with (@None found).
  change (matchAt GBF.reCallee (">1<Rf>" ++ x)) with (@None found).
  change (matchAt GBF.reCallee ("1<Rf>" ++ x)) with (@None found).
  change (matchAt GBF.reCallee ("<Rf>" ++ x)) with (@None found).
  change (matchAt GBF.reCallee ("Rf>" ++ x)) with (@None found).
  change (matchAt GBF.reCallee ("f>" ++ x)) with (@None found).
  change (matchAt GBF.reCallee (">" ++ x)) with (@None found).
  destruct (search GBF.reCallee x) as [[b s a]|]; reflexivity.
Qed.

Lemma unnumbered_not_at_caller (x : string) :
  search GBF.reUnnumbered (callerToken ++ x)
  = option_map (shiftBy callerToken) (search GBF.reUnnumbered x).
Proof.
  unfold callerToken. cbn [append search].
  change (matchAt GBF.reUnnumbered ("<RF>1<Rf>" ++ x)) with (@None found).
  change (matchAt GBF.reUnnumbered ("RF>1<Rf>" ++ x)) with (@None found).
  change (matchAt GBF.reUnnumbered ("F>1<Rf>" ++ x)) with (@None found).
  change (matchAt GBF.reUnnumbered (">1<Rf>" ++ x)) with (@None found).
  change (matchAt GBF.reUnnumbered ("1<Rf>" ++ x)) with (@None found).
  change (matchAt GBF.reUnnumbered ("<Rf>" ++ x)) with (@None found).
  change (matchAt GBF.reUnnumbered ("Rf>" ++ x)) with (@None found).
  change (matchAt GBF.reUnnumbered ("f>" ++ x)) with (@None found).
  change (matchAt GBF.reUnnumbered (">" ++ x)) with (@None found).
  destruct (search GBF.reUnnumbered x) as [[b s a]|]; reflexivity.
Qed.

(** An entry whose codes begin with [<] leaves a line without [<] as it
    is. *)
Lemma replaceFixedPair_lacks (fuel : nat) (o' no c' nc s : string) :
  lacks "<"%char s = true ->
  replaceFixedPair fuel (String "<"%char o', no, String "<"%char c', nc) s = Ok s.
Proof.
  intros H. unfold replaceFixedPair, repairBareClose.
  rewrite find_0, (find0_lacks "<"%char o' s H). cbn [bind].
  rewrite find_0, (find0_lacks "<"%char c' s H). reflexivity.
Qed.

Section CallerTwice.

Variables pre mid post1 post2 : string.
Hypothesis Hpre : lacks "<"%char pre = true.
Hypothesis Hmid : lacks "<"%char mid = true.
Hypothesis Hpost1 : lacks "<"%char post1 = true.
Hypothesis Hpost2 : lacks "<"%char post2 = true.
Hypothesis Hgap : mid <> EmptyString.

Let note : string := GBF.footnote "note one".
Let verse : string :=
  pre ++ callerToken ++ mid ++ calleeToken ++ post1 ++ callerToken ++ post2.
Let line1 : string := pre ++ note ++ mid ++ post1 ++ callerToken ++ post2.
Let line2 : string := pre ++ note ++ mid ++ post1 ++ note ++ post2.
Let seen : dict := [("1", "note one")].
Let called : option (string * string) := Some ("1", "note one").

Lemma first_caller :
  search GBF.reCaller verse
  = Some (mkMatch pre ["<RF>"; "1"; "<Rf>"]
            (mid ++ calleeToken ++ post1 ++ callerToken ++ post2)).
Proof.
  unfold verse. rewrite (proj1 (gbf_skip pre _ Hpre)), caller_found.
  simpl. unfold shiftBy. simpl. now rewrite app_empty_r.
Qed.

Lemma first_callee :
  search GBF.reCallee verse
  = Some (mkMatch (pre ++ callerToken ++ mid)
            ["<RF>"; "1"; ") "; "note one"; "<Rf>"]
            (post1 ++ callerToken ++ post2)).
Proof.
  unfold verse.
  rewrite (proj1 (proj2 (gbf_skip pre _ Hpre))), callee_not_at_caller.
  rewrite (proj1 (proj2 (gbf_skip mid _ Hmid))), callee_found.
  simpl. unfold shiftBy. simpl. now rewrite app_empty_r.
Qed.

Lemma lacks_note : lacks "<"%char note = true.
Proof. reflexivity. Qed.

Lemma lacks_front : lacks "<"%char (pre ++ note ++ mid ++ post1) = true.
Proof. now rewrite !lacks_app, Hpre, Hmid, Hpost1, lacks_note. Qed.

Lemma line1_split : line1 = (pre ++ note ++ mid ++ post1) ++ callerToken ++ post2.
Proof. unfold line1. now rewrite !app_assoc_s. Qed.

Lemma second_caller :
  search GBF.reCaller line1
  = Some (mkMatch (pre ++ note ++ mid ++ post1) ["<RF>"; "1"; "<Rf>"] post2).
Proof.
  rewrite line1_split, (proj1 (gbf_skip _ _ lacks_front)), caller_found.
  simpl. unfold shiftBy. simpl. now rewrite app_empty_r.
Qed.

Lemma no_second_callee :
  search GBF.reCallee line1 = None /\ search GBF.reUnnumbered line1 = None.
Proof.
  destruct (gbf_lacks post2 Hpost2) as (_ & A & B & _).
  rewrite line1_split. split.
  - rewrite (proj1 (proj2 (gbf_skip _ _ lacks_front))), callee_not_at_caller, A.
    reflexivity.
  - rewrite (proj2 (proj2 (gbf_skip _ _ lacks_front))), unnumbered_not_at_caller, B.
    reflexivity.
Qed.

Lemma lacks_line2 : lacks "<"%char line2 = true.
Proof.
  unfold line2. now rewrite !lacks_app, Hpre, Hmid, Hpost1, Hpost2, lacks_note.
Qed.

(** The first turn: the callee is read, stored under its number and
    removed from the line; the caller becomes the footnote. *)
Lemma first_turn (fuel : nat) :
  GBF.callerTurn (S (S fuel)) (GBF.mkCallerState verse [] None None)
    (mkMatch pre ["<RF>"; "1"; "<Rf>"]
       (mid ++ calleeToken ++ post1 ++ callerToken ++ post2))
  = Ok (GBF.mkCallerState line1 seen called called).
Proof.
  unfold GBF.callerTurn. cbn [GBF.csLine GBF.csDict GBF.lastCalled].
  rewrite first_callee. cbn [assert bind].
  change (group 1 (mkMatch pre ["<RF>"; "1"; "<Rf>"] _)) with "1".
  cbn [dictGet].
  change (group 1 (mkMatch _ ["<RF>"; "1"; ") "; "note one"; "<Rf>"] _)) with "1".
  change (rstrip (group 2 (mkMatch _ ["<RF>"; "1"; ") "; "note one"; "<Rf>"] _)))
    with "note one".
  change (GBF.splitCallees (S (S fuel)) [] ("1" ++ ") " ++ "note one") 0)
    with (Ok ([("1", "note one")], EmptyString, 1)).
  cbn [bind]. change (dictItem "1" (@cons (string * string) ("1", "note one") nil))
    with (Ok "note one").
  cbn [bind].
  assert (A : GBF.assertAfter
                (mkMatch pre ["<RF>"; "1"; "<Rf>"]
                   (mid ++ calleeToken ++ post1 ++ callerToken ++ post2))
                (mkMatch (pre ++ callerToken ++ mid)
                   ["<RF>"; "1"; ") "; "note one"; "<Rf>"]
                   (post1 ++ callerToken ++ post2)) = Ok tt).
  { unfold GBF.assertAfter, mstart, mend, group0. cbn [before segs].
    rewrite !strlen_app.
    change (length (String.concat EmptyString ["<RF>"; "1"; "<Rf>"])) with 9.
    change (length
              (String.concat EmptyString ["<RF>"; "1"; ") "; "note one"; "<Rf>"]))
      with 19.
    change (length callerToken) with 9.
    assert (0 < length mid) by (destruct mid; [congruence | simpl; lia]).
    replace (Nat.ltb (length pre) (length pre + (9 + length mid))) with true
      by (symmetry; apply Nat.ltb_lt; lia).
    replace (Nat.ltb (length pre + 9) (length pre + (9 + length mid) + 19))
      with true by (symmetry; apply Nat.ltb_lt; lia).
    replace (Nat.ltb (length pre + 9) (length pre + (9 + length mid)))
      with true by (symmetry; apply Nat.ltb_lt; lia).
    reflexivity. }
  rewrite A. cbn [bind GBF.endOfTurn before after].
  f_equal. f_equal. unfold line1, verse, slice, mstart, mend, group0.
  cbn [before segs].
  change (length (String.concat EmptyString ["<RF>"; "1"; "<Rf>"])) with 9.
  rewrite !strlen_app. change (length callerToken) with 9.
  replace (length pre + (9 + length mid) - (length pre + 9)) with (length mid)
    by lia.
  rewrite drop_add. change (drop 9 (callerToken ++ ?x)) with x.
  cbn [drop append callerToken].
  rewrite take_app_length. reflexivity.
Qed.

(** The second turn: the caller is known, its stored content is used
    again. *)
Lemma second_turn (fuel : nat) :
  GBF.callerTurn fuel (GBF.mkCallerState line1 seen called called)
    (mkMatch (pre ++ note ++ mid ++ post1) ["<RF>"; "1"; "<Rf>"] post2)
  = Ok (GBF.mkCallerState line2 seen called called).
Proof.
  unfold GBF.callerTurn. cbn [GBF.csLine GBF.csDict GBF.lastCalled].
  destruct no_second_callee as [A B]. rewrite A, B.
  unfold called at 1. cbn [assert bind].
  change (group 1 (mkMatch _ ["<RF>"; "1"; "<Rf>"] _)) with "1".
  change (dictGet "1" seen) with (Some "note one").
  cbn [GBF.endOfTurn GBF.calleeContents before after]. unfold called.
  f_equal. f_equal. unfold line2. fold note. now rewrite !app_assoc_s.
Qed.

Lemma caller_loop (fuel inner : nat) :
  GBF.callerLoop (S (S (S fuel))) (S (S inner))
    (GBF.mkCallerState verse [] None None)
  = Ok (GBF.mkCallerState line2 seen called called).
Proof.
  cbn [GBF.callerLoop GBF.csLine]. rewrite first_caller, first_turn.
  cbn [bind GBF.csLine]. rewrite second_caller, second_turn.
  cbn [bind GBF.csLine].
  now rewrite (proj1 (gbf_lacks _ lacks_line2)).
Qed.

Lemma pairs_untouched (fuel : nat) :
  replaceFixedPairs fuel GBF.replacementList line2 = Ok line2.
Proof.
  unfold GBF.replacementList. cbn [replaceFixedPairs].
  repeat (rewrite (replaceFixedPair_lacks _ _ _ _ _ _ lacks_line2); cbn [bind]).
  reflexivity.
Qed.

Lemma filter_on_verse (debugFlag : bool) (fuel : nat)
  (moduleName BBB C V : string) :
  moduleName <> "ASV" ->
  filterGBFVerseLine debugFlag (S (S (S fuel))) verse moduleName BBB C V
  = Ok (replace nl "\NL**" line2).
Proof.
  intros HM. unfold filterGBFVerseLine.
  apply String.eqb_neq in HM. rewrite HM.
  rewrite caller_loop. cbn [bind GBF.csLine].
  destruct (gbf_lacks _ lacks_line2) as (_ & _ & _ & A & B & C' & D).
  cbn [rewriteAll]. rewrite A. cbn [bind rewriteAll]. rewrite B.
  cbn [bind rewriteAll]. rewrite C'. cbn [bind rewriteAll]. rewrite D.
  cbn [bind]. rewrite pairs_untouched. cbn [bind].
  rewrite (replace_lacks "<"%char "CM>" _ _ lacks_line2).
  rewrite (replace_lacks "<"%char "Fo>" _ _ lacks_line2).
  unfold leftoverCheck, debuggingThisModule.
  rewrite andb_false_r, andb_false_r. reflexivity.
Qed.

End CallerTwice.

Lemma replace_char_app (c : ascii) (new a b : string) :
  replace (String c EmptyString) new (a ++ b)
  = replace (String c EmptyString) new a ++ replace (String c EmptyString) new b.
Proof.
  unfold replace. induction a as [|d a IH]; [reflexivity|].
  change (String d a ++ b) with (String d (a ++ b)).
  cbn [replaceFrom startswith length Nat.sub].
  destruct (Ascii.eqb c d); cbn [andb].
  - rewrite IH. now rewrite app_assoc_s.
  - now rewrite IH.
Qed.




(** ** Verses without markup *)

Lemma rewriteOnce_done (r : regex)
  (body : OSIS.locals -> rmatch -> result (OSIS.locals * string))
  (st : OSIS.locals * string) :
  search r (snd st) = None -> OSIS.rewriteOnce r body st = Ok st.
Proof. intros H. unfold OSIS.rewriteOnce. now rewrite H. Qed.

Lemma rewriteAll_done (fuel : nat) (r : regex) (body : rmatch -> result string)
  (s : string) :
  search r s = None -> rewriteAll (S fuel) r body s = Ok s.
Proof. intros H. cbn [rewriteAll]. now rewrite H. Qed.

(** A string that holds the character [c] does not occur in a text
    without [c]. *)
Lemma startswith_without (c : ascii) (old x : string) :
  lacks c x = true -> mem c old = true -> startswith old x = false.
Proof.
  revert x. induction old as [|a old IH]; intros x Hx Hm; [discriminate|].
  destruct x as [|b x]; [reflexivity|].
  cbn [lacks] in Hx. apply andb_true_iff in Hx as [Hb Hx].
  cbn [startswith]. cbn [mem] in Hm.
  destruct (Ascii.eqb a b) eqn:E; [|reflexivity].
  apply Ascii.eqb_eq in E. subst b. cbn [andb].
  apply orb_true_iff in Hm as [Hm|Hm].
  - rewrite Ascii.eqb_sym in Hm. rewrite Hm in Hb. discriminate.
  - now apply IH.
Qed.

Lemma find0_without (c : ascii) (old s : string) :
  lacks c s = true -> mem c old = true -> find0 old s = None.
Proof.
  intros Hs Hm. induction s as [|a s IH].
  - cbn [find0]. now rewrite (startswith_without c old EmptyString).
  - cbn [find0]. rewrite (startswith_without c old _ Hs Hm).
    cbn [lacks] in Hs. apply andb_true_iff in Hs as [_ Hs].
    now rewrite (IH Hs).
Qed.

Lemma replace_without (c : ascii) (old new s : string) :
  lacks c s = true -> mem c old = true -> replace old new s = s.
Proof.
  intros Hs Hm. destruct old as [|a0 old0] eqn:Eo; [discriminate|].
  rewrite <- Eo in *. unfold replace. rewrite Eo at 1. clear Eo.
  induction s as [|a s IH]; [reflexivity|].
  cbn [replaceFrom]. rewrite (startswith_without c old _ Hs Hm).
  cbn [lacks] in Hs. apply andb_true_iff in Hs as [_ Hs].
  now rewrite (IH Hs).
Qed.

Lemma substituteAll_without (c : ascii) (table : list (string * string)) (s : string) :
  lacks c s = true ->
  forallb (fun p => mem c (fst p)) table = true ->
  OSIS.substituteAll table s = s.
Proof.
  intros Hs. induction table as [|[old new] table IH]; [reflexivity|].
  cbn [forallb fst]. intros H. apply andb_true_iff in H as [H1 H2].
  cbn [OSIS.substituteAll]. rewrite (replace_without c old new s Hs H1).
  now apply IH.
Qed.

Ltac miss_loop H :=
  match goal with
  | |- bind (OSIS.rewriteLoop _ ?r _ _) _ = _ =>
      eapply bind_Ok_eq;
      [apply rewriteLoop_done; cbn [snd]; normal_pattern r; apply search_lacks; exact H
      | cbv beta]
  | |- bind (OSIS.rewriteOnce ?r _ _) _ = _ =>
      eapply bind_Ok_eq;
      [apply rewriteOnce_done; cbn [snd]; normal_pattern r; apply search_lacks; exact H
      | cbv beta]
  | |- bind (OSIS.substitute ?old ?new (?lc, ?s)) _ = _ =>
      eapply bind_Ok_eq;
      [unfold OSIS.substitute; cbn [fst snd];
       rewrite (replace_without "<"%char old new s H) by reflexivity; reflexivity
      | cbv beta]
  end.


Lemma replaceFixedPairs_without (c : ascii) (fuel : nat) (table : list pair4)
  (s : string) :
  lacks c s = true -> codesHold c table = true ->
  replaceFixedPairs fuel table s = Ok s.
Proof.
  intros Hs. induction table as [|[[[o no] cl] nc] table IH]; [reflexivity|].
  unfold codesHold. cbn [forallb]. intros H.
  apply andb_true_iff in H as [H1 H2]. apply andb_true_iff in H1 as [Ho Hc].
  cbn [replaceFixedPairs]. unfold replaceFixedPair, repairBareClose.
  rewrite find_0, (find0_without c o s Hs Ho). cbn [bind].
  rewrite find_0, (find0_without c cl s Hs Hc). cbn [bind].
  now apply IH.
Qed.

Lemma contains_without (c : ascii) (old s : string) :
  lacks c s = true -> mem c old = true -> contains old s = false.
Proof.
  intros Hs Hm. unfold contains. now rewrite find_0, (find0_without c old s Hs Hm).
Qed.

(** X10: on a verse that holds neither [<] nor [>], whatever the module,
    the book, the chapter, the verse and the debug flag,
    [filterOSISVerseLine] returns the verse as it is: no substitution and
    no loop of lines 243-737 finds anything to rewrite, and no assertion
    or halt is reached. *)
Theorem osis_plain_text (debugFlag : bool) (fuel : nat)
  (osisVerseString moduleName BBB C V : string) :
  plain osisVerseString = true ->
  filterOSISVerseLine debugFlag (S fuel) osisVerseString moduleName BBB C V
  = Ok osisVerseString.
Proof.
  intros P. destruct (plain_lacks osisVerseString P) as [H G].
  unfold filterOSISVerseLine.
  rewrite (substituteAll_without ">"%char _ osisVerseString G) by reflexivity.
  repeat miss_loop H.
  cbn [snd].
  rewrite (replaceFixedPairs_without "<"%char (S fuel) _ osisVerseString H).
  - cbn [bind]. rewrite (contains_without "<"%char "<" osisVerseString H) by reflexivity.
    rewrite (contains_without ">"%char ">" osisVerseString G) by reflexivity.
    reflexivity.
  - unfold OSIS.replacementList.
    rewrite (contains_without "<"%char "<divineName>" osisVerseString H) by reflexivity.
    rewrite (contains_without "<"%char "<transChange>" osisVerseString H) by reflexivity.
    reflexivity.
Qed.

Lemma osis_plain_text_witness :
  filterOSISVerseLine true 1 "In the beginning" "KJV" "GEN" "1" "1"
  = Ok "In the beginning".
Proof.
  exact (osis_plain_text true 0 "In the beginning" "KJV" "GEN" "1" "1" eq_refl).
Defined.

(** X6: on a verse without [<], whatever the module, the book and the
    debug flag, [filterGBFVerseLine] returns the verse with every newline
    turned into the line-break sentinel and nothing else changed; and
    [importGBFVerseLine] stores that line in the book under the verse
    number -- for an empty verse 0 as well, which the OSIS importer
    drops. *)
Theorem gbf_plain_text (debugFlag : bool) (fuel : nat)
  (gbfVerseString : string) (thisBook : book) (moduleName BBB C V : string) :
  lacks "<"%char gbfVerseString = true ->
  filterGBFVerseLine debugFlag (S fuel) gbfVerseString moduleName BBB C V
  = Ok (replace nl "\NL**" gbfVerseString)
  /\ importGBFVerseLine debugFlag (S fuel) gbfVerseString thisBook moduleName BBB C V
     = Ok (addVerseSegments thisBook V (replace nl "\NL**" gbfVerseString)
             (locationOf moduleName BBB C V)).
Proof.
  intros H. destruct (gbf_lacks gbfVerseString H) as (M1 & _ & _ & M4 & M5 & M6 & M7).
  assert (F : filterGBFVerseLine debugFlag (S fuel) gbfVerseString moduleName BBB C V
              = Ok (replace nl "\NL**" gbfVerseString)).
  { unfold filterGBFVerseLine.
    rewrite (replace_without "<"%char _ _ gbfVerseString H) by reflexivity.
    assert (E : (if String.eqb moduleName "ASV" then gbfVerseString
                 else gbfVerseString) = gbfVerseString)
      by (destruct (String.eqb moduleName "ASV"); reflexivity).
    rewrite E. cbn [GBF.callerLoop GBF.csLine]. rewrite M1. cbn [bind GBF.csLine].
    rewrite (rewriteAll_done fuel _ _ gbfVerseString M4). cbn [bind].
    rewrite (rewriteAll_done fuel _ _ gbfVerseString M5). cbn [bind].
    rewrite (rewriteAll_done fuel _ _ gbfVerseString M6). cbn [bind].
    rewrite (rewriteAll_done fuel _ _ gbfVerseString M7). cbn [bind].
    rewrite (replaceFixedPairs_without "<"%char (S fuel) _ gbfVerseString H)
      by reflexivity.
    cbn [bind].
    rewrite (replace_without "<"%char "<CM>" _ gbfVerseString H) by reflexivity.
    rewrite (replace_without "<"%char "<Fo>" _ gbfVerseString H) by reflexivity.
    unfold leftoverCheck. unfold debuggingThisModule.
    rewrite !andb_false_r. reflexivity. }
  split; [exact F|]. unfold importGBFVerseLine. now rewrite F.
Qed.

Lemma gbf_plain_text_witness :
  filterGBFVerseLine false 1 ("In the beginning" ++ nl ++ "God created")
    "ASV" "GEN" "1" "1"
  = Ok "In the beginning\NL**God created"
  /\ importGBFVerseLine false 1 ("In the beginning" ++ nl ++ "God created")
       [AddLine "c" "1"] "ASV" "GEN" "1" "1"
     = Ok [AddLine "c" "1";
           AddVerseSegments "1" "In the beginning\NL**God created" "ASV GEN 1:1"].
Proof.
  exact (gbf_plain_text false 0 ("In the beginning" ++ nl ++ "God created")
           [AddLine "c" "1"] "ASV" "GEN" "1" "1" eq_refl).
Defined.

(** X9: on a verse without [<], whatever the module, the book and the
    debug flag, [filterTHMLVerseLine] returns the verse as it is; a
    newline stays a newline. *)
Theorem thml_plain_text (debugFlag : bool) (fuel : nat)
  (thmlVerseString moduleName BBB C V : string) :
  lacks "<"%char thmlVerseString = true ->
  filterTHMLVerseLine debugFlag (S fuel) thmlVerseString moduleName BBB C V
  = Ok thmlVerseString.
Proof.
  intros H. unfold filterTHMLVerseLine.
  assert (M1 : search THML.reTitleDiv thmlVerseString = None)
    by (normal_pattern THML.reTitleDiv; now apply search_lacks).
  assert (M2 : search THML.reSecheadDiv thmlVerseString = None)
    by (normal_pattern THML.reSecheadDiv; now apply search_lacks).
  assert (M3 : search THML.reScripRef thmlVerseString = None)
    by (normal_pattern THML.reScripRef; now apply search_lacks).
  assert (M4 : search THML.reWT thmlVerseString = None)
    by (normal_pattern THML.reWT; now apply search_lacks).
  rewrite (rewriteAll_done fuel _ _ thmlVerseString M1). cbn [bind].
  rewrite (rewriteAll_done fuel _ _ thmlVerseString M2). cbn [bind].
  rewrite (rewriteAll_done fuel _ _ thmlVerseString M3). cbn [bind].
  rewrite (rewriteAll_done fuel _ _ thmlVerseString M4). cbn [bind].
  rewrite (replace_without "<"%char "<br />" _ thmlVerseString H) by reflexivity.
  rewrite (replace_without "<"%char "<br/>" _ thmlVerseString H) by reflexivity.
  rewrite (replaceFixedPairs_without "<"%char (S fuel) _ thmlVerseString H)
    by reflexivity.
  cbn [bind]. unfold leftoverCheck, debuggingThisModule.
  rewrite !andb_false_r. reflexivity.
Qed.

Lemma thml_plain_text_witness :
  filterTHMLVerseLine false 1 ("In the beginning" ++ nl ++ "God > all") "KJV" "GEN" "1" "1"
  = Ok ("In the beginning" ++ nl ++ "God > all").
Proof.
  exact (thml_plain_text false 0 ("In the beginning" ++ nl ++ "God > all")
           "KJV" "GEN" "1" "1" eq_refl).
Defined.


(** ** [replaceFixedPairs] on matched pairs: the line it returns *)

Section SubstPair.

Variables o no c nc : string.
Hypothesis Hoc : String.eqb o c = false.

Lemma substPair_app (a b : list tok) :
  substPair o no c nc (a ++ b) = (substPair o no c nc a ++ substPair o no c nc b)%list.
Proof.
  induction a as [|[ch|t] a IH]; cbn [substPair List.app]; [reflexivity | now rewrite IH |].
  destruct (String.eqb t o); [now rewrite IH, List.app_assoc|].
  destruct (String.eqb t c); [now rewrite IH, List.app_assoc|].
  now rewrite IH.
Qed.

Lemma substPair_txt (s : string) : substPair o no c nc (txt s) = txt s.
Proof. induction s as [|ch s IH]; cbn [txt substPair]; [reflexivity | now rewrite IH]. Qed.

Lemma substPair_absent (l : list tok) :
  ~ In o (tags l) -> ~ In c (tags l) -> substPair o no c nc l = l.
Proof.
  induction l as [|[ch|t] l IH]; cbn [substPair tags]; intros Ho Hc.
  - reflexivity.
  - now rewrite IH.
  - destruct (String.eqb_spec t o) as [->|_]; [exfalso; apply Ho; now left|].
    destruct (String.eqb_spec t c) as [->|_]; [exfalso; apply Hc; now left|].
    rewrite IH; [reflexivity | |]; intros H; [apply Ho | apply Hc]; now right.
Qed.

Lemma substPair_open (l : list tok) :
  substPair o no c nc (substFirst o no l) = substPair o no c nc l.
Proof.
  induction l as [|[ch|t] l IH]; cbn [substFirst substPair]; [reflexivity | now rewrite IH |].
  rewrite (String.eqb_sym o t).
  destruct (String.eqb t o) eqn:E.
  - now rewrite substPair_app, substPair_txt.
  - cbn [substPair]. rewrite E. destruct (String.eqb t c); now rewrite IH.
Qed.

Lemma substPair_close (l : list tok) :
  substPair o no c nc (substFirst c nc l) = substPair o no c nc l.
Proof.
  induction l as [|[ch|t] l IH]; cbn [substFirst substPair]; [reflexivity | now rewrite IH |].
  rewrite (String.eqb_sym c t).
  destruct (String.eqb t c) eqn:E.
  - apply String.eqb_eq in E. subst t. rewrite String.eqb_sym, Hoc.
    now rewrite substPair_app, substPair_txt.
  - cbn [substPair]. rewrite E. destruct (String.eqb t o); now rewrite IH.
Qed.

Lemma tags_substPair (l : list tok) :
  tags (substPair o no c nc l) = without o c (tags l).
Proof.
  induction l as [|[ch|t] l IH]; cbn [substPair tags]; [reflexivity | exact IH |].
  unfold without. cbn [filter]. fold (without o c (tags l)).
  destruct (String.eqb t o); cbn [orb negb].
  - now rewrite tags_app, tags_txt.
  - destruct (String.eqb t c); cbn [negb].
    + now rewrite tags_app, tags_txt.
    + cbn [tags]. now rewrite IH.
Qed.

Lemma okTok_substPair (l : list tok) :
  plain no = true -> plain nc = true -> forallb okTok l = true ->
  forallb okTok (substPair o no c nc l) = true.
Proof.
  intros Hno Hnc. induction l as [|[ch|t] l IH]; cbn [substPair forallb]; intros H.
  - reflexivity.
  - apply andb_true_iff in H as [H1 H2]. now rewrite H1, IH.
  - apply andb_true_iff in H as [H1 H2].
    destruct (String.eqb t o); [rewrite forallb_app, (okTok_txt _ Hno); now apply IH|].
    destruct (String.eqb t c); [rewrite forallb_app, (okTok_txt _ Hnc); now apply IH|].
    cbn [forallb]. now rewrite H1, IH.
Qed.

End SubstPair.

Lemma render_txt_app (table : list pair4) (s : string) (l : list tok) :
  render table (txt s ++ l) = s ++ render table l.
Proof. induction s as [|ch s IH]; cbn [txt List.app render append]; [reflexivity | now rewrite IH]. Qed.

Lemma render_cons (o no c nc : string) (rest : list pair4) (l : list tok) :
  render ((o, no, c, nc) :: rest) l = render rest (substPair o no c nc l).
Proof.
  induction l as [|[ch|t] l IH]; cbn [render substPair markerOf]; [reflexivity | now rewrite IH |].
  destruct (String.eqb t o); [now rewrite render_txt_app, IH|].
  destruct (String.eqb t c); [now rewrite render_txt_app, IH|].
  cbn [render]. now rewrite IH.
Qed.

Lemma render_nil (l : list tok) : render [] l = flatten l.
Proof. induction l as [|[ch|t] l IH]; cbn [render flatten markerOf]; now rewrite ?IH. Qed.

Section RenderPair.

Variables o no c nc : string.
Hypothesis Ho : tagShaped o = true.
Hypothesis Hc : tagShaped c = true.
Hypothesis Hno : plain no = true.
Hypothesis Hnc : plain nc = true.
Hypothesis Hoc : String.eqb o c = false.

Let p : pair4 := (o, no, c, nc).

Lemma openStep_substPair (l : list tok) (ix : nat) :
  forallb okTok l = true ->
  balanced o c 0 (tags l) = true ->
  offset o l = Some ix ->
  exists l2,
    openStep p (flatten l) ix = flatten l2
    /\ find o (flatten l2) ix = offset o l2
    /\ forallb okTok l2 = true
    /\ balanced o c 0 (tags l2) = true
    /\ List.length (tags l2) < List.length (tags l)
    /\ substPair o no c nc l2 = substPair o no c nc l.
Proof.
  intros Hl Hb Hix.
  destruct (offset_split _ _ _ Hix) as (pre & post & -> & Hpre & Hlen).
  rewrite tags_app in Hb. simpl in Hb.
  destruct (balanced_first_open o c _ _ Hpre Hb) as [Hcpre Hpost].
  pose proof (balanced_needs_close o c _ _ Hpost) as Hcin.
  pose proof Hl as Hokall.
  rewrite forallb_app in Hl. apply andb_true_iff in Hl as [Hl1 Hl2].
  simpl in Hl2. apply andb_true_iff in Hl2 as [_ Hl2].
  assert (E1 : substFirst o no (pre ++ Tag o :: post)
               = (pre ++ txt no ++ post)%list).
  { rewrite (substFirst_absent_prefix _ _ _ _ Hpre), substFirst_here. reflexivity. }
  assert (Hok1 : forallb okTok (txt no ++ post) = true).
  { rewrite forallb_app, (okTok_txt _ Hno). exact Hl2. }
  assert (E2 : substFirst c nc (pre ++ txt no ++ post)
               = (pre ++ txt no ++ substFirst c nc post)%list).
  { rewrite (substFirst_absent_prefix _ _ _ _ Hcpre).
    rewrite substFirst_absent_prefix by (rewrite tags_txt; intros []).
    reflexivity. }
  assert (Hok2 : forallb okTok (txt no ++ substFirst c nc post) = true).
  { rewrite forallb_app, (okTok_txt _ Hno). now apply okTok_substFirst. }
  exists (pre ++ txt no ++ substFirst c nc post)%list.
  assert (T2 : tags (pre ++ txt no ++ substFirst c nc post)
               = (tags pre ++ removeFirst c (tags post))%list).
  { now rewrite !tags_app, tags_txt, tags_substFirst. }
  split; [|split; [|split; [|split; [|split]]]].
  - unfold openStep, p.
    rewrite (replace1_flatten o Ho no _ Hokall), E1.
    rewrite (flatten_app pre), <- Hlen, find_app_length.
    rewrite (find0_flatten c Hc _ Hok1).
    destruct (offset c (txt no ++ post)) as [k|] eqn:Ek.
    + simpl. rewrite <- (flatten_app pre).
      rewrite (replace1_flatten c Hc nc).
      * now rewrite E2.
      * rewrite forallb_app, Hl1. exact Hok1.
    + exfalso. apply offset_None in Ek. apply Ek.
      rewrite tags_app, tags_txt. exact Hcin.
  - rewrite (flatten_app pre), <- Hlen, find_app_length.
    rewrite (find0_flatten o Ho _ Hok2).
    rewrite (offset_absent_prefix _ _ _ Hpre). reflexivity.
  - rewrite forallb_app, Hl1. exact Hok2.
  - rewrite T2, (balanced_prefix o c _ _ _ Hpre Hcpre).
    now apply (balanced_remove_close o c Hoc).
  - rewrite T2, tags_app, !List.length_app. simpl.
    pose proof (length_removeFirst _ _ Hcin). lia.
  - rewrite !substPair_app, substPair_txt, (substPair_close o no c nc Hoc).
    cbn [substPair]. rewrite String.eqb_refl. reflexivity.
Qed.

Lemma replaceOpens_substPair (fuel : nat) :
  forall (l : list tok) (ix : nat),
    forallb okTok l = true ->
    balanced o c 0 (tags l) = true ->
    offset o l = Some ix ->
    List.length (tags l) <= fuel ->
    exists l',
      replaceOpens fuel p (flatten l) ix = Ok (flatten l')
      /\ forallb okTok l' = true
      /\ ~ In o (tags l')
      /\ balanced o c 0 (tags l') = true
      /\ substPair o no c nc l' = substPair o no c nc l.
Proof.
  induction fuel as [|f IH]; intros l ix Hl Hb Hix Hf.
  - exfalso. destruct (tags l) eqn:E; [|simpl in Hf; lia].
    assert (N : offset o l = None) by (apply offset_None; rewrite E; intros []).
    congruence.
  - destruct (openStep_substPair l ix Hl Hb Hix)
      as (l2 & E1 & E2 & Hok & Hb2 & Hlt & Hw).
    cbn [replaceOpens]. rewrite E1. change (fst (fst (fst p))) with o. rewrite E2.
    destruct (offset o l2) as [ix'|] eqn:Eo.
    + destruct (IH l2 ix' Hok Hb2 Eo) as (l' & R & A & B & C' & D); [lia|].
      exists l'. repeat split; auto. now rewrite D.
    + exists l2. repeat split; auto. now apply offset_None.
Qed.

(** One entry of the table on a balanced line: its tags become its
    markers, and nothing else changes. *)
Lemma replaceFixedPair_substPair (fuel : nat) (l : list tok) :
  forallb okTok l = true ->
  balanced o c 0 (tags l) = true ->
  List.length (tags l) <= fuel ->
  replaceFixedPair fuel p (flatten l) = Ok (flatten (substPair o no c nc l)).
Proof.
  intros Hl Hb Hf.
  assert (Fin : forall l', forallb okTok l' = true -> ~ In o (tags l') ->
            balanced o c 0 (tags l') = true ->
            repairBareClose p (flatten l') = Ok (flatten l')
            /\ substPair o no c nc l' = l').
  { intros l' Hok Hn Hb'.
    pose proof (balanced_no_open o c _ Hn Hb') as Hnc'.
    split; [|now apply substPair_absent].
    unfold repairBareClose, p. rewrite find_0, (find0_flatten c Hc _ Hok).
    apply offset_None in Hnc'. now rewrite Hnc'. }
  unfold replaceFixedPair, p. fold p.
  rewrite find_0, (find0_flatten o Ho _ Hl).
  destruct (offset o l) as [ix|] eqn:Eo.
  - destruct (replaceOpens_substPair fuel l ix Hl Hb Eo Hf)
      as (l' & R & A & B & C' & D).
    rewrite R. cbn [bind].
    destruct (Fin l' A B C') as [F1 F2]. rewrite F1. now rewrite <- D, F2.
  - apply offset_None in Eo. cbn [bind].
    destruct (Fin l Hl Eo Hb) as [F1 F2]. rewrite F1. now rewrite F2.
Qed.

End RenderPair.

Lemma replaceFixedPairs_render (fuel : nat) (table : list pair4) :
  forall l : list tok,
    tagTable table = true ->
    forallb okTok l = true ->
    (forall o no c nc, In (o, no, c, nc) table ->
                       balanced o c 0 (tags l) = true) ->
    List.length (tags l) <= fuel ->
    replaceFixedPairs fuel table (flatten l) = Ok (render table l).
Proof.
  induction table as [|[[[o no] c] nc] table IH]; intros l HT Hl Hb Hf.
  - cbn [replaceFixedPairs]. now rewrite render_nil.
  - destruct (tagTable_cons _ _ _ _ _ HT)
      as (Ho & Hc & Hno & Hnc & Hoc & Ho' & Hc' & HR).
    cbn [replaceFixedPairs].
    rewrite (replaceFixedPair_substPair o no c nc Ho Hc Hno Hnc Hoc fuel l Hl); auto.
    2:{ apply (Hb o no c nc). now left. }
    cbn [bind]. rewrite render_cons.
    apply IH; auto.
    + now apply okTok_substPair.
    + intros o1 no1 c1 nc1 H1. rewrite tags_substPair.
      destruct (tagTable_pairs _ o no c nc o1 no1 c1 nc1 HT) as [[-> ->]|(A&B&C'&D)].
      * now left.
      * now right.
      * exfalso. destruct (codes_In _ _ _ _ _ H1). tauto.
      * rewrite balanced_without; auto. apply (Hb o1 no1 c1 nc1). now right.
    + rewrite tags_substPair. pose proof (length_without o c (tags l)). lia.
Qed.


Lemma balancedFor_In (table : list pair4) (ts : list string) :
  balancedFor table ts = true ->
  forall o no c nc, In (o, no, c, nc) table -> balanced o c 0 ts = true.
Proof.
  unfold balancedFor. rewrite forallb_forall. intros H o no c nc Hin.
  exact (H _ Hin).
Qed.

Lemma inTuple_In (t : string) (l : list string) : inTuple t l = true -> In t l.
Proof.
  unfold inTuple. rewrite existsb_exists. intros (x & Hx & E).
  apply String.eqb_eq in E. now subst x.
Qed.

(** X1: on a line of text and tags, for a table of tags, where the tags
    of each entry come in matched pairs, possibly nested, and whatever
    other tags stand in the line, [replaceFixedPairs] returns, and returns
    the line with every tag of the table turned into its marker and
    nothing else changed. *)
Theorem replaceFixedPairs_renders (fuel : nat) (table : list pair4) (l : list tok) :
  tagTable table = true ->
  forallb okTok l = true ->
  balancedFor table (tags l) = true ->
  List.length (tags l) <= fuel ->
  replaceFixedPairs fuel table (flatten l) = Ok (render table l).
Proof.
  intros HT Hl Hb Hf. apply replaceFixedPairs_render; auto.
  now apply balancedFor_In.
Qed.

Lemma replaceFixedPairs_renders_witness :
  replaceFixedPairs 6 [italicPair; divineNamePair]
    "<i>the <divineName>LORD</divineName></i> is <i>one</i>"
  = Ok "\it the \nd LORD\nd*\it* is \it one\it*".
Proof.
  exact (replaceFixedPairs_renders 6 [italicPair; divineNamePair]
           (Tag "<i>" :: txt "the " ++ Tag "<divineName>" :: txt "LORD"
              ++ Tag "</divineName>" :: Tag "</i>" :: txt " is "
              ++ Tag "<i>" :: txt "one" ++ [Tag "</i>"])
           eq_refl eq_refl eq_refl (le_n 6)).
Defined.

(** X5: on a line of text and tags of its pair table that come in matched
    pairs, [filterTHMLVerseLine] returns the line with every tag turned
    into its marker; the text, newlines included, is as it was. *)
Theorem thml_renders (debugFlag : bool) (fuel : nat) (l : list tok)
  (moduleName BBB C V : string) :
  forallb okTok l = true ->
  forallb (fun t => inTuple t (codes THML.replacementList)) (tags l) = true ->
  balancedFor THML.replacementList (tags l) = true ->
  List.length (tags l) < fuel ->
  filterTHMLVerseLine debugFlag fuel (flatten l) moduleName BBB C V
  = Ok (render THML.replacementList l).
Proof.
  intros Hl Hin Hb Hf.
  assert (Hin' : forall t, In t (tags l) -> In t (codes THML.replacementList)).
  { intros t Ht. rewrite forallb_forall in Hin. apply inTuple_In. now apply Hin. }
  destruct (thml_no_match l Hl Hin') as (M1 & M2 & M3 & M4).
  destruct (thml_no_break l Hl Hin') as (B1 & B2).
  destruct fuel as [|f]; [lia|].
  unfold filterTHMLVerseLine.
  cbn [rewriteAll]. rewrite M1. cbn [bind rewriteAll]. rewrite M2.
  cbn [bind rewriteAll]. rewrite M3. cbn [bind rewriteAll]. rewrite M4.
  cbn [bind]. rewrite B1, B2.
  rewrite (replaceFixedPairs_render (S f) _ l thml_tagTable Hl
             (balancedFor_In _ _ Hb)) by lia.
  cbn [bind]. unfold leftoverCheck, debuggingThisModule.
  rewrite !andb_false_r. reflexivity.
Qed.

Lemma thml_renders_witness :
  filterTHMLVerseLine false 5 "the <i>word <sup>a</sup></i>" "KJV" "GEN" "1" "1"
  = Ok "the \it word \ord a\ord*\it*".
Proof.
  refine (thml_renders false 5
            (txt "the " ++ Tag "<i>" :: txt "word " ++ Tag "<sup>" :: txt "a"
               ++ [Tag "</sup>"; Tag "</i>"])
            "KJV" "GEN" "1" "1" eq_refl eq_refl eq_refl _); simpl; lia.
Defined.


(** ** [replaceFixedPairs] on a code without its partner *)

Lemma startswith_head (a : ascii) (s : string) :
  startswith (String a EmptyString) s = true -> exists t, s = String a t.
Proof.
  destruct s as [|b s]; cbn [startswith]; [discriminate|].
  rewrite andb_true_r. intros E. apply Ascii.eqb_eq in E. subst b. now exists s.
Qed.

Lemma find0_here (sub b : string) : find0 sub (sub ++ b) = Some 0.
Proof.
  assert (U : forall s, find0 sub s
                        = if startswith sub s then Some 0
                          else match s with
                               | EmptyString => None
                               | String _ t => option_map S (find0 sub t)
                               end) by (intros []; reflexivity).
  now rewrite U, startswith_app.
Qed.

Lemma find_past (sub a b : string) :
  find sub (a ++ b) (length a) = option_map (Nat.add (length a)) (find0 sub b).
Proof. apply find_app_length. Qed.

(** X2: an open code with no close code after it, in a line that holds no
    other [<]: the open code becomes its marker and the close marker is
    put at the end of the line. *)
Theorem unclosed_open_closed_at_end (fuel : nat) (o no c nc a b : string) :
  startswith "<" o = true -> startswith "<" c = true ->
  lacks "<"%char no = true -> lacks "<"%char nc = true ->
  lacks "<"%char a = true -> lacks "<"%char b = true ->
  replaceFixedPairs (S fuel) [(o, no, c, nc)] (a ++ o ++ b)
  = Ok (a ++ no ++ b ++ nc).
Proof.
  intros Ho Hc Hno Hnc Ha Hb.
  destruct (startswith_head _ _ Ho) as [o' Eo].
  destruct (startswith_head _ _ Hc) as [c' Ec].
  assert (Fo : forall s, lacks "<"%char s = true -> find0 o s = None)
    by (intros s Hs; rewrite Eo; now apply find0_lacks).
  assert (Fc : forall s, lacks "<"%char s = true -> find0 c s = None)
    by (intros s Hs; rewrite Ec; now apply find0_lacks).
  assert (F : find0 o (a ++ o ++ b) = Some (length a)).
  { rewrite Eo at 1. rewrite (find0_skip "<"%char o' a _ Ha), <- Eo.
    rewrite find0_here. cbn [option_map]. f_equal. lia. }
  assert (Lnb : lacks "<"%char (no ++ b) = true) by (now rewrite lacks_app, Hno, Hb).
  assert (Lnbc : lacks "<"%char ((no ++ b) ++ nc) = true)
    by (now rewrite lacks_app, Lnb, Hnc).
  assert (Lall : lacks "<"%char (a ++ (no ++ b) ++ nc) = true)
    by (now rewrite lacks_app, Ha, Lnbc).
  assert (R : replace1 o no (a ++ o ++ b) = a ++ no ++ b).
  { rewrite (replace1_Some _ no _ _ F), take_app_length, drop_add.
    now rewrite <- (Nat.add_0_r (length o)), drop_add, drop_0. }
  cbn [replaceFixedPairs]. unfold replaceFixedPair.
  rewrite find_0, F. cbn [replaceOpens]. unfold openStep. rewrite R.
  rewrite find_past, (Fc _ Lnb).
  cbn [option_map fst].
  replace ((a ++ no ++ b) ++ nc) with (a ++ (no ++ b) ++ nc)
    by (now rewrite !app_assoc_s).
  rewrite find_past, (Fo _ Lnbc).
  cbn [option_map bind]. unfold repairBareClose.
  rewrite find_0, (Fc _ Lall).
  now rewrite !app_assoc_s.
Qed.

Lemma unclosed_open_closed_at_end_witness :
  replaceFixedPairs 1 [italicPair] "He <i>said" = Ok "He \it said\it*".
Proof.
  exact (unclosed_open_closed_at_end 0 "<i>" "\it " "</i>" "\it*" "He " "said"
           eq_refl eq_refl eq_refl eq_refl eq_refl eq_refl).
Defined.

Lemma get_app_length (pre : string) (x : ascii) (t : string) :
  get (length pre) (pre ++ String x t) = Some x.
Proof. induction pre as [|ch pre IH]; [reflexivity | exact IH]. Qed.

Lemma scanToSpace_step (k : nat) (verseLine : string) (i : nat) :
  scanToSpace (S k) verseLine i
  = match get i verseLine with
    | Some ch => if Ascii.eqb ch " "%char then i
                 else scanToSpace k verseLine (S i)
    | None => scanToSpace k verseLine (S i)
    end.
Proof.
  cbn [scanToSpace]. destruct (get i verseLine) as [ch|]; [|reflexivity].
  destruct ch as [[] [] [] [] [] [] [] []]; reflexivity.
Qed.

(** The inner scan stops on the first space. *)
Lemma scanToSpace_marker (m : string) :
  forall (pre tail : string) (k : nat),
    lacks " "%char m = true -> length m <= k ->
    scanToSpace k (pre ++ m ++ String " "%char tail) (length pre)
    = length pre + length m.
Proof.
  induction m as [|x m IH]; intros pre tail k Hm Hk.
  - cbn [append length]. rewrite Nat.add_0_r. destruct k as [|k]; [reflexivity|].
    now rewrite scanToSpace_step, get_app_length.
  - cbn [lacks] in Hm. apply andb_true_iff in Hm as [Hx Hm].
    apply negb_true_iff in Hx.
    destruct k as [|k]; [cbn [length] in Hk; lia|].
    rewrite scanToSpace_step. cbn [append]. rewrite get_app_length, Hx.
    replace (pre ++ String x (m ++ String " "%char tail))
      with ((pre ++ String x EmptyString) ++ m ++ String " "%char tail)
      by (now rewrite app_assoc_s).
    replace (S (length pre)) with (length (pre ++ String x EmptyString))
      by (rewrite strlen_app; cbn [length]; lia).
    rewrite IH; [|exact Hm | cbn [length] in Hk; lia].
    rewrite strlen_app. cbn [length]. lia.
Qed.

Lemma skipMarkers_stop (fuel : nat) (verseLine : string) (i : nat) (ch : ascii) :
  get i verseLine = Some ch -> Ascii.eqb ch "\"%char = false ->
  skipMarkers (S fuel) verseLine i = Ok i.
Proof. intros G E. cbn [skipMarkers]. now rewrite G, E. Qed.

Lemma skipMarkers_marker (fuel : nat) (verseLine : string) (i : nat) :
  get i verseLine = Some "\"%char ->
  skipMarkers (S fuel) verseLine i
  = skipMarkers fuel verseLine
      (scanToSpace (length verseLine - 1 - S i) verseLine (S i)).
Proof. intros G. cbn [skipMarkers]. now rewrite G. Qed.

Section BareClose.

Variables o no c nc : string.
Hypothesis Ho : tagShaped o = true.
Hypothesis Hc : tagShaped c = true.
Hypothesis Hoc : String.eqb o c = false.
Hypothesis Hno : lacks "<"%char no = true.
Hypothesis Hnc : lacks "<"%char nc = true.

Variables a b : string.
Hypothesis Ha : lacks "<"%char a = true.
Hypothesis Hb : lacks "<"%char b = true.

(** The line is searched for the open code, which it does not hold, and
    its close code is rewritten; what is left is the scan. *)
Lemma bare_close_scan (fuel : nat) :
  replaceFixedPairs fuel [(o, no, c, nc)] (a ++ c ++ b)
  = (insertIndex <- skipMarkers (S (length (a ++ nc ++ b))) (a ++ nc ++ b) 0 ;;
     Ok (take insertIndex (a ++ nc ++ b) ++ " " ++ no
           ++ drop insertIndex (a ++ nc ++ b))).
Proof.
  destruct (tagShaped_inv _ Ho) as (o' & Eo & _).
  destruct (tagShaped_inv _ Hc) as (c' & Ec & _).
  assert (Fo : find0 o (a ++ c ++ b) = None).
  { rewrite Eo, (find0_skip "<"%char o' a _ Ha), <- Eo.
    rewrite (find0_past_tag o Ho c b Hc Hoc).
    rewrite Eo, (find0_lacks "<"%char o' b Hb). reflexivity. }
  assert (Fc : find0 c (a ++ c ++ b) = Some (length a)).
  { rewrite Ec, (find0_skip "<"%char c' a _ Ha), <- Ec.
    rewrite find0_here. cbn [option_map]. f_equal. lia. }
  cbn [replaceFixedPairs]. unfold replaceFixedPair.
  rewrite find_0, Fo. cbn [bind]. unfold repairBareClose.
  rewrite find_0, Fc.
  rewrite (replace1_Some _ nc _ _ Fc), take_app_length, drop_add.
  rewrite <- (Nat.add_0_r (length c)), drop_add, drop_0.
  destruct (skipMarkers _ _ 0); reflexivity.
Qed.

End BareClose.

(** X3: a close code with no open code, in a line that holds no other
    [<] and does not begin with a backslash: the close code becomes its
    marker, and a space and the open marker are put in front of the
    line. *)
Theorem bare_close_opened_in_front (fuel : nat) (o no c nc : string) (ch : ascii)
  (a b : string) :
  tagShaped o = true -> tagShaped c = true -> String.eqb o c = false ->
  lacks "<"%char no = true -> lacks "<"%char nc = true ->
  lacks "<"%char (String ch a) = true -> lacks "<"%char b = true ->
  Ascii.eqb ch "\"%char = false ->
  replaceFixedPairs fuel [(o, no, c, nc)] (String ch a ++ c ++ b)
  = Ok (" " ++ no ++ String ch a ++ nc ++ b).
Proof.
  intros Ho Hc Hoc Hno Hnc Ha Hb Hch.
  rewrite (bare_close_scan o no c nc Ho Hc Hoc (String ch a) b Ha Hb).
  cbn [append skipMarkers get]. rewrite Hch. reflexivity.
Qed.

Lemma bare_close_opened_in_front_witness :
  replaceFixedPairs 0 [italicPair] "word</i> more" = Ok " \it word\it* more".
Proof.
  exact (bare_close_opened_in_front 0 "<i>" "\it " "</i>" "\it*" "w"%char "ord" " more"
           eq_refl eq_refl eq_refl eq_refl eq_refl eq_refl eq_refl eq_refl).
Defined.

(** X4: the same in a line that begins with a paragraph marker, a
    backslash and a name that ends on a space: the scan of lines 126-131
    stops on that space, and the space and the open marker are put between
    the paragraph marker and the space. *)
Theorem bare_close_opened_after_marker (fuel : nat) (o no c nc m rest b : string) :
  tagShaped o = true -> tagShaped c = true -> String.eqb o c = false ->
  lacks "<"%char no = true -> lacks "<"%char nc = true ->
  lacks "<"%char m = true -> lacks " "%char m = true ->
  lacks "<"%char rest = true -> lacks "<"%char b = true ->
  replaceFixedPairs fuel [(o, no, c, nc)] ("\" ++ m ++ " " ++ rest ++ c ++ b)
  = Ok ("\" ++ m ++ " " ++ no ++ " " ++ rest ++ nc ++ b).
Proof.
  intros Ho Hc Hoc Hno Hnc Hm Hsp Hrest Hb.
  assert (Ha : lacks "<"%char ("\" ++ m ++ " " ++ rest) = true).
  { cbn [append lacks]. rewrite lacks_app, Hm. cbn [lacks append]. now rewrite Hrest. }
  replace ("\" ++ m ++ " " ++ rest ++ c ++ b)
    with (("\" ++ m ++ " " ++ rest) ++ c ++ b)
    by (cbn [append]; now rewrite !app_assoc_s).
  rewrite (bare_close_scan o no c nc Ho Hc Hoc _ b Ha Hb).
  set (tail := rest ++ nc ++ b).
  assert (Ev : ("\" ++ m ++ " " ++ rest) ++ nc ++ b = "\" ++ m ++ " " ++ tail).
  { unfold tail. cbn [append]. now rewrite !app_assoc_s. }
  rewrite Ev.
  assert (Len : length ("\" ++ m ++ " " ++ tail) = 2 + length m + length tail).
  { cbn [append length]. rewrite strlen_app. cbn [append length]. lia. }
  assert (S1 : skipMarkers (S (length ("\" ++ m ++ " " ++ tail)))
                 ("\" ++ m ++ " " ++ tail) 0 = Ok (1 + length m)).
  { rewrite skipMarkers_marker by reflexivity.
    rewrite Len.
    replace (2 + length m + length tail - 1 - 1) with (length m + length tail) by lia.
    pose proof (scanToSpace_marker m "\" tail (length m + length tail) Hsp) as Sc.
    change (length "\") with 1 in Sc.
    change ("\" ++ m ++ " " ++ tail) with ("\" ++ m ++ String " "%char tail).
    rewrite Sc by lia.
    apply (skipMarkers_stop _ _ _ " "%char); [|reflexivity].
    change ("\" ++ m ++ String " "%char tail)
      with (("\" ++ m) ++ String " "%char tail).
    change (1 + length m) with (length ("\" ++ m)).
    apply get_app_length. }
  rewrite S1. cbn [bind].
  change ("\" ++ m ++ " " ++ tail) with (("\" ++ m) ++ " " ++ tail).
  change (1 + length m) with (length ("\" ++ m)).
  rewrite take_app_length, drop_app_length.
  unfold tail. cbn [append]. reflexivity.
Qed.

Lemma bare_close_opened_after_marker_witness :
  replaceFixedPairs 0 [italicPair] "\p In the</i> beginning"
  = Ok "\p \it  In the\it* beginning".
Proof.
  exact (bare_close_opened_after_marker 0 "<i>" "\it " "</i>" "\it*" "p" "In the"
           " beginning" eq_refl eq_refl eq_refl eq_refl eq_refl eq_refl eq_refl
           eq_refl eq_refl).
Defined.


(** ** Patterns over runs of text *)

Lemma pushs_Some (w seg : string) (sg : list string) (rest : string) :
  pushs w (Some (seg :: sg, rest)) = Some ((w ++ seg) :: sg, rest).
Proof. induction w as [|c w IH]; cbn [pushs append]; [reflexivity | now rewrite IH]. Qed.

Lemma pushs_None (w : string) : pushs w None = None.
Proof. induction w as [|c w IH]; cbn [pushs]; [reflexivity | now rewrite IH]. Qed.

Lemma lit_app (l : string) (cont : string -> option found) (x : string) :
  lit l cont (l ++ x) = pushs l (cont x).
Proof.
  induction l as [|c l IH]; cbn [lit append pushs]; [reflexivity|].
  now rewrite Ascii.eqb_refl, IH.
Qed.

Lemma matchAt_lit (l : string) (r : regex) (x : string) :
  matchAt (Lit l :: r) (l ++ x) = pushs l (matchAt r x).
Proof. cbn [matchAt]. apply lit_app. Qed.

Lemma matchAt_mark (r : regex) (x : string) :
  matchAt (Mark :: r) x = pushm (matchAt r x).
Proof. reflexivity. Qed.

(** A lazy repetition, at least once, over a run [w] of its class: when
    what follows the repetition in the pattern cannot start on a character
    of [w] and matches right after [w], the repetition takes [w]. *)
Lemma rep_lazy_run (k : cls) (cont : string -> option found) (x : string)
  (f : found) (c : ascii) (w : string) :
  allIn k (String c w) = true ->
  (forall d t, mem d w = true -> cont (String d t) = None) ->
  cont x = Some f ->
  rep false k 1 None cont (String c w ++ x) = pushs (String c w) (Some f).
Proof.
  intros Hk Hc Hx. cbn [allIn] in Hk. apply andb_true_iff in Hk as [Hk0 Hk].
  cbn [append rep mayMore andb option_map pushs]. rewrite Hk0. f_equal.
  clear Hk0 c. induction w as [|d w IH].
  - cbn [append pushs]. destruct x as [|e x]; cbn [rep]; now rewrite Hx.
  - cbn [allIn] in Hk. apply andb_true_iff in Hk as [Hd Hk].
    cbn [append rep mayMore andb option_map pushs].
    rewrite (Hc d (w ++ x)) by (cbn [mem]; now rewrite Ascii.eqb_refl).
    rewrite Hd. f_equal. apply IH; [exact Hk|].
    intros d' t Hm. apply Hc. cbn [mem]. rewrite Hm. apply orb_true_r.
Qed.

Lemma lacks_mem (a : ascii) (w : string) (d : ascii) :
  lacks a w = true -> mem d w = true -> Ascii.eqb a d = false.
Proof.
  induction w as [|c w IH]; cbn [lacks mem]; [discriminate|].
  intros H M. apply andb_true_iff in H as [H1 H2]. apply negb_true_iff in H1.
  apply orb_true_iff in M as [M|M]; [|now apply IH].
  apply Ascii.eqb_eq in M. subst d. now rewrite Ascii.eqb_sym.
Qed.

(** The same when the repetition closes a group and a literal follows. *)
Lemma matchAt_lazy_group (k : cls) (a : ascii) (l : string) (r : regex)
  (x : string) (f : found) (c : ascii) (w : string) :
  allIn k (String c w) = true ->
  lacks a w = true ->
  matchAt (Mark :: Lit (String a l) :: r) x = Some f ->
  matchAt (Rep false 1 None k :: Mark :: Lit (String a l) :: r) (String c w ++ x)
  = pushs (String c w) (Some f).
Proof.
  intros Hk Ha Hx. cbn [matchAt]. apply rep_lazy_run; [exact Hk | | exact Hx].
  intros d t M. cbn [lit]. now rewrite (lacks_mem a w d Ha M).
Qed.

(** Text with one element in it: [T1 w T2] between [a] and [b], where the
    tags begin with [<] and nothing else does. *)
Section TwoTags.

Variables a t1 w t2 b : string.
Hypothesis Ha : lacks "<"%char a = true.
Hypothesis Ht1 : lacks "<"%char t1 = true.
Hypothesis Hw : lacks "<"%char w = true.
Hypothesis Ht2 : lacks "<"%char t2 = true.
Hypothesis Hb : lacks "<"%char b = true.

Let element : string := String "<"%char t1 ++ w ++ String "<"%char t2 ++ b.

Lemma search_two_tags (l : string) (r : regex) :
  matchAt (Lit (String "<"%char l) :: r) element = None ->
  matchAt (Lit (String "<"%char l) :: r) (String "<"%char t2 ++ b) = None ->
  search (Lit (String "<"%char l) :: r) (a ++ element) = None.
Proof.
  intros M1 M2.
  rewrite (search_skip _ _ _ _ _ Ha). unfold element in *.
  cbn [append] in *. rewrite (search_step _ _ _ _ _ M1).
  rewrite (search_skip _ _ _ _ _ Ht1), (search_skip _ _ _ _ _ Hw).
  rewrite (search_step _ _ _ _ _ M2), (search_skip _ _ _ _ _ Ht2).
  now rewrite (search_lacks _ _ _ _ Hb).
Qed.

Lemma search_first_tag (l : string) (r : regex) (sg : list string) (rest : string) :
  matchAt (Lit (String "<"%char l) :: r) element = Some (sg, rest) ->
  search (Lit (String "<"%char l) :: r) (a ++ element)
  = Some (mkMatch a sg rest).
Proof.
  intros M. rewrite (search_skip _ _ _ _ _ Ha).
  destruct element as [|e el] eqn:E; [discriminate E|].
  cbn [search]. rewrite M. cbn [option_map]. unfold shiftBy. cbn [before segs after].
  now rewrite app_empty_r.
Qed.

Lemma replaceFrom_step (old new : string) (c : ascii) (x : string) :
  startswith old (String c x) = false ->
  replaceFrom 0 old new (String c x) = String c (replaceFrom 0 old new x).
Proof. intros H. cbn [replaceFrom]. now rewrite H. Qed.

Lemma replace_two_tags (l new : string) :
  startswith (String "<"%char l) element = false ->
  startswith (String "<"%char l) (String "<"%char t2 ++ b) = false ->
  replace (String "<"%char l) new (a ++ element) = a ++ element.
Proof.
  intros M1 M2. unfold replace.
  rewrite (replaceFrom_skip _ _ _ _ _ Ha). unfold element in *.
  cbn [append] in *. rewrite (replaceFrom_step _ _ _ _ M1).
  rewrite (replaceFrom_skip _ _ _ _ _ Ht1), (replaceFrom_skip _ _ _ _ _ Hw).
  rewrite (replaceFrom_step _ _ _ _ M2), (replaceFrom_skip _ _ _ _ _ Ht2).
  pose proof (replace_lacks "<"%char l new b Hb) as R. unfold replace in R.
  now rewrite R.
Qed.

End TwoTags.


(** ** The OSIS filter: a quotation *)

Lemma startswith_unfold (a : ascii) (sub : string) (b : ascii) (s : string) :
  startswith (String a sub) (String b s) = Ascii.eqb a b && startswith sub s.
Proof. reflexivity. Qed.

(** The first straight substitution rewrites a space, a slash and [>]:
    a stretch without [>] that does not end in a slash holds none, nor
    does it start one that ends on the [>] after it. *)
Lemma self_close_gap (new s rest : string) :
  lacks ">"%char s = true -> last s <> Some "/"%char ->
  replaceFrom 0 " />" new (s ++ String ">"%char rest)
  = s ++ String ">"%char (replaceFrom 0 " />" new rest).
Proof.
  induction s as [|x s IH]; intros Hs Hl.
  - reflexivity.
  - cbn [lacks] in Hs. apply andb_true_iff in Hs as [Hx Hs].
    assert (Hl' : last s <> Some "/"%char).
    { destruct s as [|y s']; [discriminate | exact Hl]. }
    cbn [append]. rewrite replaceFrom_step; [now rewrite (IH Hs Hl')|].
    rewrite startswith_unfold.
    destruct (Ascii.eqb " " x) eqn:Ex; [|reflexivity]. cbn [andb].
    destruct s as [|y s']; [reflexivity|].
    cbn [append]. rewrite startswith_unfold.
    destruct (Ascii.eqb "/" y) eqn:Ey; [|reflexivity]. cbn [andb].
    destruct s' as [|z s'']; cbn [append].
    + exfalso. apply Hl. apply Ascii.eqb_eq in Ey. now subst y.
    + rewrite startswith_unfold. cbn [lacks] in Hs.
      apply andb_true_iff in Hs as [_ Hs]. apply andb_true_iff in Hs as [Hz _].
      apply negb_true_iff in Hz. rewrite Ascii.eqb_sym, Hz. reflexivity.
Qed.

Lemma last_app (x : string) (c : ascii) (y : string) :
  last (x ++ String c y) = last (String c y).
Proof.
  induction x as [|d x IH]; [reflexivity|].
  rewrite <- IH. cbn [append].
  destruct (x ++ String c y) eqn:E; [destruct x; discriminate | reflexivity].
Qed.

Lemma last_lacks (a : ascii) (s : string) :
  lacks a s = true -> last s <> Some a.
Proof.
  induction s as [|c s IH]; [discriminate|].
  cbn [lacks]. intros H. apply andb_true_iff in H as [Hc Hs].
  apply negb_true_iff in Hc.
  destruct s as [|d s'].
  - cbn [last]. intros E. injection E as ->. now rewrite Ascii.eqb_refl in Hc.
  - exact (IH Hs).
Qed.

Lemma allIn_NoneOf (set w : string) (a : ascii) :
  mem a set = true -> allIn (NoneOf set) w = true -> lacks a w = true.
Proof.
  intros Ha. induction w as [|c w IH]; [reflexivity|].
  cbn [allIn lacks inCls]. intros H. apply andb_true_iff in H as [Hc Hw].
  rewrite (IH Hw), andb_true_r. apply negb_true_iff in Hc. apply negb_true_iff.
  destruct (Ascii.eqb_spec c a) as [->|]; [congruence | reflexivity].
Qed.

Lemma quote_shape (a attrs words b : string) :
  a ++ String "<"%char ("q " ++ attrs ++ ">") ++ words ++ String "<"%char "/q>" ++ b
  = (a ++ "<q " ++ attrs) ++ String ">"%char ((words ++ "</q") ++ String ">"%char b).
Proof. cbn [append]. rewrite !app_assoc_s. reflexivity. Qed.

Ltac miss_two T :=
  match goal with
  | |- bind (OSIS.rewriteLoop _ ?r _ _) _ = _ =>
      eapply bind_Ok_eq;
      [apply rewriteLoop_done; cbn [snd]; normal_pattern r;
       apply T; reflexivity
      | cbv beta]
  | |- bind (OSIS.rewriteOnce ?r _ _) _ = _ =>
      eapply bind_Ok_eq;
      [apply rewriteOnce_done; cbn [snd]; normal_pattern r;
       apply T; reflexivity
      | cbv beta]
  end.

Ltac keep_two R :=
  match goal with
  | |- bind (OSIS.substitute ?old ?new (?lc, ?s)) _ = _ =>
      eapply bind_Ok_eq;
      [unfold OSIS.substitute; cbn [fst snd];
       rewrite R by reflexivity; reflexivity
      | cbv beta]
  end.

Section Quote.

Variable debugFlag : bool.
Variables a w b : string.
Variables (c0 : ascii) (attrs' : string) (d0 : ascii) (w' : string).
Let attrs : string := String c0 attrs'.
Let words : string := String d0 w'.

Hypothesis Ha : plain a = true.
Hypothesis Hb : plain b = true.
Hypothesis Hw : plain words = true.
Hypothesis Hline : allIn Any words = true.
Hypothesis Hattrs : allIn (NoneOf "/>") attrs = true.
Hypothesis Hattrs' : lacks "<"%char attrs = true.

Let t1 : string := "q " ++ attrs ++ ">".
Let t2 : string := "/q>".
Let element : string := String "<"%char t1 ++ words ++ String "<"%char t2 ++ b.

Lemma quote_t1 : lacks "<"%char t1 = true.
Proof. unfold t1. cbn [append lacks]. rewrite lacks_app, Hattrs'. reflexivity. Qed.

Lemma quote_straight :
  OSIS.substituteAll OSIS.straightSubstitutions (a ++ element) = a ++ element.
Proof.
  destruct (plain_lacks _ Ha) as [La Ga]. destruct (plain_lacks _ Hb) as [Lb Gb].
  destruct (plain_lacks _ Hw) as [Lw Gw].
  pose proof quote_t1 as Lt1.
  assert (Lt2 : lacks "<"%char t2 = true) by reflexivity.
  normal_pattern OSIS.straightSubstitutions. cbn [OSIS.substituteAll].
  assert (E : replace " />" "/>" (a ++ element) = a ++ element).
  { unfold replace, element, t1, t2.
    rewrite quote_shape, self_close_gap.
    - rewrite self_close_gap.
      + pose proof (replace_without ">"%char " />" "/>" b Gb eq_refl) as R.
        unfold replace in R. rewrite R. now rewrite <- quote_shape.
      + rewrite lacks_app, Gw. reflexivity.
      + rewrite last_app. discriminate.
    - rewrite !lacks_app, Ga. cbn [append lacks].
      now rewrite (allIn_NoneOf "/>" attrs ">"%char eq_refl Hattrs).
    - unfold attrs. rewrite <- (app_assoc_s a "<q " (String c0 attrs')), last_app.
      apply last_lacks. exact (allIn_NoneOf "/>" attrs "/"%char eq_refl Hattrs). }
  rewrite E.
  repeat (rewrite (replace_two_tags a t1 words t2 b La Lt1 Lw Lt2 Lb)
            by reflexivity).
  reflexivity.
Qed.

Lemma quote_match :
  matchAt OSIS.reQ element = Some (["<q "; attrs; ">"; words; "</q>"], b).
Proof.
  destruct (plain_lacks _ Hw) as [Lw _].
  assert (E : element = "<q " ++ attrs ++ ">" ++ words ++ "</q>" ++ b).
  { unfold element, t1, t2. cbn [append]. now rewrite !app_assoc_s. }
  rewrite E. normal_pattern OSIS.reQ.
  rewrite matchAt_lit, matchAt_mark.
  unfold attrs at 1.
  rewrite (matchAt_lazy_group _ _ _ _ _ ([EmptyString; ">"; words; "</q>"], b)).
  - rewrite pushs_Some, app_empty_r. reflexivity.
  - exact Hattrs.
  - cbn [allIn] in Hattrs. apply andb_true_iff in Hattrs as [_ H].
    exact (allIn_NoneOf "/>" attrs' ">"%char eq_refl H).
  - rewrite matchAt_mark, matchAt_lit, matchAt_mark.
    unfold words at 1.
    rewrite (matchAt_lazy_group _ _ _ _ _ ([EmptyString; "</q>"], b)).
    + rewrite pushs_Some, app_empty_r. reflexivity.
    + exact Hline.
    + cbn [lacks] in Lw. apply andb_true_iff in Lw as [_ H]. exact H.
    + reflexivity.
Qed.

Hypothesis Hwho : contains ("who=" ++ dq ++ "Jesus" ++ dq) attrs = false.

Lemma quote_raises (fuel : nat) (moduleName BBB C V : string) :
  filterOSISVerseLine debugFlag (S fuel) (a ++ element) moduleName BBB C V
  = Raise (if debugFlag then NameError else UnboundLocalError).
Proof.
  destruct (plain_lacks _ Ha) as [La _]. destruct (plain_lacks _ Hb) as [Lb _].
  destruct (plain_lacks _ Hw) as [Lw _].
  pose proof quote_t1 as Lt1.
  assert (Lt2 : lacks "<"%char t2 = true) by reflexivity.
  unfold filterOSISVerseLine. rewrite quote_straight.
  repeat (miss_two (search_two_tags a t1 words t2 b La Lt1 Lw Lt2 Lb)
          || keep_two (replace_two_tags a t1 words t2 b La Lt1 Lw Lt2 Lb)).
  apply bind_Raise_eq.
  erewrite rewriteLoop_turn.
  2:{ cbn [snd]. pose proof quote_match as M. revert M.
      normal_pattern OSIS.reQ. intros M.
      exact (search_first_tag a t1 words t2 b La _ _ _ _ M). }
  cbn [fst]. unfold qBody, quoteBody, group. cbn [segs nth Nat.mul Nat.add Nat.sub].
  rewrite Hwho. unfold haltIfDebug.
  destruct debugFlag; reflexivity.
Qed.

End Quote.

(** X13: a quotation element whose attributes do not name Jesus, in a
    verse that holds no other markup: the loop of lines 424-437 finds it,
    assigns nothing to [replacement] and splices [replacement] in, so the
    filter raises -- [NameError] from the halt of line 435 when
    [debugFlag] is set, [UnboundLocalError] at line 437 when it is not. *)
Theorem osis_other_speaker_raises (debugFlag : bool) (fuel : nat)
  (front attributes words back moduleName BBB C V : string) :
  plain front = true -> plain words = true -> plain back = true ->
  truthy words = true -> allIn Any words = true ->
  truthy attributes = true -> allIn (NoneOf "/>") attributes = true ->
  lacks "<"%char attributes = true ->
  contains ("who=" ++ dq ++ "Jesus" ++ dq) attributes = false ->
  filterOSISVerseLine debugFlag (S fuel)
    (front ++ "<q " ++ attributes ++ ">" ++ words ++ "</q>" ++ back)
    moduleName BBB C V
  = Raise (if debugFlag then NameError else UnboundLocalError).
Proof.
  intros Hf Hw Hb Tw Lw Ta Na La Hwho.
  destruct attributes as [|c0 attrs']; [discriminate|].
  destruct words as [|d0 w']; [discriminate|].
  replace (front ++ "<q " ++ String c0 attrs' ++ ">" ++ String d0 w' ++ "</q>" ++ back)
    with (front ++ String "<"%char ("q " ++ String c0 attrs' ++ ">")
            ++ String d0 w' ++ String "<"%char "/q>" ++ back)
    by (cbn [append]; now rewrite !app_assoc_s).
  now apply quote_raises.
Qed.

Lemma osis_other_speaker_raises_witness :
  filterOSISVerseLine false 1
    ("He said <q who=" ++ dq ++ "Peter" ++ dq ++ ">Lord</q> again")
    "KJV" "JHN" "21" "15"
  = Raise UnboundLocalError.
Proof.
  exact (osis_other_speaker_raises false 0 "He said " ("who=" ++ dq ++ "Peter" ++ dq)
           "Lord" " again" "KJV" "JHN" "21" "15"
           eq_refl eq_refl eq_refl eq_refl eq_refl eq_refl eq_refl eq_refl eq_refl).
Defined.


(** ** [exp] *)

Lemma find0_unfold (sub s : string) :
  find0 sub s = if startswith sub s then Some 0
                else match s with
                     | EmptyString => None
                     | String _ t => option_map S (find0 sub t)
                     end.
Proof. destruct s; reflexivity. Qed.

Lemma find0_zero (sub s : string) :
  find0 sub s = Some 0 <-> startswith sub s = true.
Proof.
  rewrite find0_unfold. destruct (startswith sub s); [tauto|].
  split; [|discriminate]. destruct s as [|c t]; [discriminate|].
  destruct (find0 sub t); discriminate.
Qed.

Lemma take_S_truthy (i : nat) (s : string) :
  s <> EmptyString -> truthy (take (S i) s) = true.
Proof. destruct s; [congruence | reflexivity]. Qed.

(** X15: without the debug flag [exp] gives the message back, less a leading
    colon and space; with it the message comes after the name of the
    module, joined by a dot when the message names its origin, by a colon
    and a space when it does not. *)
Theorem exp_keeps_message (messageString : string) :
  exp false messageString
  = (if startswith ": " messageString then drop 2 messageString
     else messageString)
  /\ exp true messageString
     = ShortProgName
         ++ match find0 ": " messageString with
            | Some 0 => EmptyString
            | Some (S _) => "."
            | None => ": "
            end
         ++ messageString.
Proof.
  unfold exp, split1, debuggingThisModule.
  destruct (find0 ": " messageString) as [i|] eqn:F.
  - destruct (find0_Some _ _ _ F) as [E _]. cbn [unpack2 length] in *.
    destruct i as [|i].
    + apply find0_zero in F. rewrite F. cbn [take truthy orb append Nat.add] in *.
      split; [reflexivity|]. rewrite E at 2. reflexivity.
    + assert (N : startswith ": " messageString = false).
      { destruct (startswith ": " messageString) eqn:S0; [|reflexivity].
        apply find0_zero in S0. congruence. }
      assert (T : truthy (take (S i) messageString) = true).
      { apply take_S_truthy. intros ->. discriminate F. }
      rewrite N. cbn [orb]. rewrite T. split.
      * rewrite app_assoc_s. symmetry. exact E.
      * assert (T2 : forall x, truthy (ShortProgName ++ x) = true) by reflexivity.
        rewrite T2, !app_assoc_s. do 2 f_equal. symmetry. exact E.
  - cbn [unpack2 truthy orb append].
    assert (N : startswith ": " messageString = false).
    { destruct (startswith ": " messageString) eqn:S0; [|reflexivity].
      apply find0_zero in S0. congruence. }
    rewrite N. split; reflexivity.
Qed.


(** ** The OSIS filter: Strong's numbers *)

(** A greedy counted repetition over a run [d] of its class that ends
    where the text cannot go on: the repetition takes the whole run. *)
Lemma rep_greedy_run (k : cls) (cont : string -> option found) (x seg : string)
  (sg : list string) (rest : string) :
  stops k x = true -> cont x = Some (seg :: sg, rest) ->
  forall (d : string) (lo hi : nat),
    allIn k d = true -> lo <= length d -> length d <= hi ->
    rep true k lo (Some hi) cont (d ++ x) = Some ((d ++ seg) :: sg, rest).
Proof.
  intros Hx Hc. induction d as [|c d IH]; intros lo hi Hk Hlo Hhi.
  - cbn [length] in Hlo. assert (lo = 0) by lia. subst lo. cbn [append].
    destruct x as [|e x]; cbn [rep].
    + exact Hc.
    + cbn [stops] in Hx. apply negb_true_iff in Hx. rewrite Hx, andb_false_r. exact Hc.
  - cbn [allIn] in Hk. apply andb_true_iff in Hk as [Hc0 Hk].
    cbn [length] in Hlo, Hhi. destruct hi as [|hi]; [lia|].
    cbn [append]. destruct lo as [|lo]; cbn [rep mayMore andb option_map pred];
      rewrite Hc0, (IH _ hi Hk) by lia; reflexivity.
Qed.

Lemma allIn_Digit_lacks (a : ascii) (d : string) :
  isdigit a = false -> allIn Digit d = true -> lacks a d = true.
Proof.
  intros Ha. induction d as [|c d IH]; [reflexivity|].
  cbn [allIn lacks inCls]. intros H. apply andb_true_iff in H as [Hc Hd].
  rewrite (IH Hd), andb_true_r. apply negb_true_iff.
  destruct (Ascii.eqb_spec c a) as [->|]; [congruence | reflexivity].
Qed.

Lemma allIn_Digit_Any (d : string) : allIn Digit d = true -> allIn Any d = true.
Proof.
  induction d as [|c d IH]; [reflexivity|].
  cbn [allIn inCls]. intros H. apply andb_true_iff in H as [Hc Hd].
  rewrite (IH Hd), andb_true_r. apply negb_true_iff.
  destruct (Ascii.eqb_spec c "010"%char) as [->|]; [discriminate | reflexivity].
Qed.

Lemma countFrom_skip (a : ascii) (sub' w x : string) :
  lacks a w = true ->
  countFrom 0 (String a sub') (w ++ x) = countFrom 0 (String a sub') x.
Proof.
  induction w as [|c w IH]; intros H; [reflexivity|].
  cbn [lacks] in H. apply andb_true_iff in H as [Hc Hw]. apply negb_true_iff in Hc.
  cbn [append countFrom].
  rewrite (startswith_other a sub' c _ Hc). now apply IH.
Qed.

Lemma matchAt_one (k : cls) (r : regex) (c : ascii) (x : string) :
  inCls k c = true -> matchAt (One k :: r) (String c x) = pushc c (matchAt r x).
Proof. intros H. cbn [matchAt]. now rewrite H. Qed.

(** The patterns of the shape name="(.+?)" on an attribute of that name. *)
Lemma matchAt_quoted (opening : string) (c : ascii) (w x : string) :
  allIn Any (String c w) = true -> lacks "034"%char w = true ->
  matchAt [Lit opening; Mark; Rep false 1 None Any; Mark; Lit dq]
    (opening ++ String c w ++ dq ++ x)
  = Some ([opening; String c w; dq], x).
Proof.
  intros A L. rewrite matchAt_lit, matchAt_mark. unfold dq.
  rewrite (matchAt_lazy_group _ _ _ _ _ ([EmptyString; dq], x)).
  - rewrite pushs_Some, !app_empty_r. cbn [pushm]. rewrite pushs_Some, app_empty_r.
    reflexivity.
  - exact A.
  - exact L.
  - reflexivity.
Qed.

Section Strongs.

Variable debugFlag : bool.
Variables (g : ascii) (d : string).
Hypothesis Hg : mem g "GH" = true.
Hypothesis Hd : allIn Digit d = true.
Hypothesis Hlo : 1 <= length d.
Hypothesis Hhi : length d <= 5.

Let code : string := String g d.
Let value : string := "strong:" ++ code.
Let attribute : string := "lemma=" ++ dq ++ value ++ dq.

Lemma strongs_g : g = "G"%char \/ g = "H"%char.
Proof.
  cbn [mem] in Hg. rewrite orb_false_r in Hg. apply orb_true_iff in Hg.
  destruct Hg as [E|E]; apply Ascii.eqb_eq in E; tauto.
Qed.

Lemma strongs_count : count ("=" ++ dq) attribute = 1.
Proof.
  assert (L : lacks "="%char d = true) by (apply allIn_Digit_lacks; [reflexivity | exact Hd]).
  assert (E : forall tl, count ("=" ++ dq) ("lemma=" ++ dq ++ "strong:" ++ String g tl)
                         = S (countFrom 0 (String "="%char dq) tl)).
  { intros tl. destruct strongs_g as [-> | ->]; reflexivity. }
  unfold attribute, value, code.
  replace ("lemma=" ++ dq ++ ("strong:" ++ String g d) ++ dq)
    with ("lemma=" ++ dq ++ "strong:" ++ String g (d ++ dq)) by reflexivity.
  rewrite E, (countFrom_skip _ _ _ _ L). reflexivity.
Qed.

Lemma strongs_no_savlm : search OSIS.reSavlm attribute = None.
Proof.
  assert (L : lacks "s"%char d = true) by (apply allIn_Digit_lacks; [reflexivity | exact Hd]).
  unfold attribute, value, code. normal_pattern OSIS.reSavlm.
  destruct strongs_g as [-> | ->]; cbn [append dq];
    repeat (rewrite search_step by reflexivity);
    rewrite (search_skip _ _ _ _ _ L); reflexivity.
Qed.

Lemma strongs_value_line :
  allIn Any value = true /\ lacks "034"%char ("trong:" ++ code) = true.
Proof.
  unfold value, code. split.
  - destruct strongs_g as [-> | ->]; cbn [append allIn inCls]; cbn;
      now apply allIn_Digit_Any.
  - destruct strongs_g as [-> | ->]; cbn [append lacks]; cbn;
      apply allIn_Digit_lacks; [reflexivity | exact Hd | reflexivity | exact Hd].
Qed.

Lemma strongs_lemma :
  search OSIS.reLemma attribute
  = Some (mkMatch EmptyString ["lemma=" ++ dq; value; dq] EmptyString).
Proof.
  destruct strongs_value_line as [A L].
  pose proof (matchAt_quoted ("lemma=" ++ dq) "s"%char ("trong:" ++ code)
                EmptyString A L) as M.
  unfold attribute. normal_pattern OSIS.reLemma.
  change ("lemma=" ++ dq ++ value ++ dq)
    with (("lemma=" ++ dq) ++ String "s"%char ("trong:" ++ code) ++ dq ++ EmptyString).
  unfold dq in M |- *. cbn [append] in M |- *. cbn [search]. rewrite M. reflexivity.
Qed.

Lemma strongs_code :
  search OSIS.reStrong value
  = Some (mkMatch EmptyString ["strong:"; code; EmptyString] EmptyString).
Proof.
  assert (R : rep true Digit 1 (Some 5) (matchAt [Mark]) (d ++ EmptyString)
              = Some ([d ++ EmptyString; EmptyString], EmptyString)).
  { apply rep_greedy_run; auto. }
  rewrite app_empty_r in R.
  unfold value. normal_pattern OSIS.reStrong.
  assert (M : matchAt [Lit "strong:"; Mark; One (OneOf "GH"); Rep true 1 (Some 5) Digit; Mark]
                ("strong:" ++ code)
              = Some (["strong:"; code; EmptyString], EmptyString)).
  { rewrite matchAt_lit, matchAt_mark. unfold code.
    rewrite matchAt_one by exact Hg.
    change (matchAt [Rep true 1 (Some 5) Digit; Mark] d)
      with (rep true Digit 1 (Some 5) (matchAt [Mark]) d).
    rewrite R. reflexivity. }
  cbn [append] in M |- *. cbn [search]. rewrite M. reflexivity.
Qed.

Lemma strongs_extracted (fuel : nat) :
  handleOSISWordAttributes debugFlag (S (S fuel)) attribute
  = Ok ("\str " ++ code ++ "\str*").
Proof.
  unfold handleOSISWordAttributes. rewrite strongs_count.
  cbn [OSIS.wordAttributesLoop]. unfold OSIS.wordAttributesTurn.
  unfold OSIS.codedAttribute at 1. rewrite strongs_no_savlm. cbn [bind].
  unfold OSIS.codedAttribute at 1. rewrite strongs_lemma.
  unfold group. cbn [segs nth Nat.mul Nat.add Nat.sub before after append].
  cbn [OSIS.extractCodes]. rewrite strongs_code.
  cbn [before after append segs nth].
  change (search OSIS.reStrong EmptyString) with (@None rmatch). cbn [bind].
  unfold OSIS.codedAttribute.
  change (search OSIS.reMorph EmptyString) with (@None rmatch). cbn [bind].
  unfold OSIS.typeAttribute.
  change (search OSIS.reType EmptyString) with (@None rmatch). cbn [bind].
  unfold OSIS.droppedAttribute.
  change (search OSIS.reSubType EmptyString) with (@None rmatch).
  change (search OSIS.reSrc EmptyString) with (@None rmatch).
  change (search OSIS.reWn EmptyString) with (@None rmatch).
  cbn [bind]. reflexivity.
Qed.

End Strongs.

(** X11: [handleOSISWordAttributes] on a lemma attribute that holds one
    Strong's number, G or H and one to five digits: the number comes back
    between the \str markers, and nothing is left of the attribute. *)
Theorem word_attributes_strongs (debugFlag : bool) (fuel : nat)
  (letter : ascii) (digits : string) :
  mem letter "GH" = true -> allIn Digit digits = true ->
  1 <= length digits -> length digits <= 5 ->
  handleOSISWordAttributes debugFlag (S (S fuel))
    ("lemma=" ++ dq ++ "strong:" ++ String letter digits ++ dq)
  = Ok ("\str " ++ String letter digits ++ "\str*").
Proof.
  intros Hg Hd Hlo Hhi.
  replace ("lemma=" ++ dq ++ "strong:" ++ String letter digits ++ dq)
    with ("lemma=" ++ dq ++ ("strong:" ++ String letter digits) ++ dq)
    by reflexivity.
  now apply strongs_extracted.
Qed.

Lemma word_attributes_strongs_witness :
  handleOSISWordAttributes true 2 ("lemma=" ++ dq ++ "strong:H0430" ++ dq)
  = Ok "\str H0430\str*".
Proof.
  refine (word_attributes_strongs true 0 "H"%char "0430" eq_refl eq_refl _ _);
    simpl; lia.
Defined.


(** A lazy repetition over a run of its class that the text cannot go
    on, when what follows in the pattern matches nowhere in the run nor
    after it: no match. *)
Lemma rep_lazy_fail (k : cls) (cont : string -> option found) (x : string) :
  stops k x = true -> cont x = None ->
  forall (w : string) (lo : nat),
    (forall d t, mem d w = true -> cont (String d t) = None) ->
    rep false k lo None cont (w ++ x) = None.
Proof.
  intros Hx Hc. induction w as [|c w IH]; intros lo Hw.
  - cbn [append]. destruct x as [|e x].
    + destruct lo; cbn [rep]; [now rewrite Hc | reflexivity].
    + cbn [stops] in Hx. apply negb_true_iff in Hx.
      destruct lo; cbn [rep mayMore andb]; rewrite ?Hc, Hx; reflexivity.
  - assert (Hw' : forall d t, mem d w = true -> cont (String d t) = None).
    { intros d t M. apply Hw. cbn [mem]. rewrite M. apply orb_true_r. }
    cbn [append]. destruct lo as [|lo]; cbn [rep mayMore andb option_map].
    + rewrite (Hw c (w ++ x)) by (cbn [mem]; now rewrite Ascii.eqb_refl).
      destruct (inCls k c); [|reflexivity]. now rewrite (IH 0 Hw').
    + destruct (inCls k c); [|reflexivity]. now rewrite (IH lo Hw').
Qed.

(** A lazy repetition, possibly empty, over a run [w] of its class. *)
Lemma rep_lazy_run0 (k : cls) (cont : string -> option found) (x : string)
  (f : found) (w : string) :
  allIn k w = true ->
  (forall d t, mem d w = true -> cont (String d t) = None) ->
  cont x = Some f ->
  rep false k 0 None cont (w ++ x) = pushs w (Some f).
Proof.
  intros Hk Hc Hx. induction w as [|d w IH].
  - cbn [append pushs]. destruct x as [|e x]; cbn [rep]; now rewrite Hx.
  - cbn [allIn] in Hk. apply andb_true_iff in Hk as [Hd Hk].
    cbn [append rep mayMore andb option_map pushs].
    rewrite (Hc d (w ++ x)) by (cbn [mem]; now rewrite Ascii.eqb_refl).
    rewrite Hd. f_equal. apply IH; [exact Hk|].
    intros d' t Hm. apply Hc. cbn [mem]. rewrite Hm. apply orb_true_r.
Qed.

Lemma matchAt_lazy_group0 (k : cls) (a : ascii) (l : string) (r : regex)
  (x : string) (f : found) (w : string) :
  allIn k w = true ->
  lacks a w = true ->
  matchAt (Mark :: Lit (String a l) :: r) x = Some f ->
  matchAt (Rep false 0 None k :: Mark :: Lit (String a l) :: r) (w ++ x)
  = pushs w (Some f).
Proof.
  intros Hk Ha Hx. cbn [matchAt]. apply rep_lazy_run0; [exact Hk | | exact Hx].
  intros d t M. cbn [lit]. now rewrite (lacks_mem a w d Ha M).
Qed.

Lemma matchAt_lazy_none (k : cls) (a : ascii) (l : string) (r : regex)
  (x : string) (lo : nat) (w : string) :
  lacks a w = true -> stops k x = true ->
  matchAt (Mark :: Lit (String a l) :: r) x = None ->
  matchAt (Rep false lo None k :: Mark :: Lit (String a l) :: r) (w ++ x) = None.
Proof.
  intros Ha Hs Hx. cbn [matchAt]. apply rep_lazy_fail; [exact Hs | exact Hx |].
  intros d t M. cbn [lit]. now rewrite (lacks_mem a w d Ha M).
Qed.

Lemma pushs_nil (w : string) (rest : string) (c : ascii) :
  pushs (String c w) (Some ([], rest)) = Some ([String c w], rest).
Proof.
  revert c. induction w as [|d w IH]; intros c; [reflexivity|].
  cbn [pushs] in *. now rewrite IH.
Qed.

Section Word.

Variable debugFlag : bool.
Variables a w b : string.
Variables (g : ascii) (d : string).
Hypothesis Ha : plain a = true.
Hypothesis Hb : plain b = true.
Hypothesis Hw : plain w = true.
Hypothesis Hline : allIn Any w = true.
Hypothesis Hg : mem g "GH" = true.
Hypothesis Hd : allIn Digit d = true.
Hypothesis Hlo : 1 <= length d.
Hypothesis Hhi : length d <= 5.

Let code : string := String g d.
Let attrs : string := "lemma=" ++ dq ++ ("strong:" ++ code) ++ dq.
Let t1 : string := "w " ++ attrs ++ ">".
Let t2 : string := "/w>".
Let element : string := String "<"%char t1 ++ w ++ String "<"%char t2 ++ b.

Lemma word_attrs : allIn (NoneOf "/>") attrs = true /\ lacks "<"%char attrs = true.
Proof.
  unfold attrs, code.
  assert (L1 : lacks "/"%char d = true) by (apply allIn_Digit_lacks; auto).
  assert (L2 : lacks ">"%char d = true) by (apply allIn_Digit_lacks; auto).
  assert (L3 : lacks "<"%char d = true) by (apply allIn_Digit_lacks; auto).
  assert (N : forall s, lacks "/"%char s = true -> lacks ">"%char s = true ->
                        allIn (NoneOf "/>") s = true).
  { induction s as [|c s IH]; [reflexivity|]. cbn [lacks allIn inCls mem].
    intros H1 H2. apply andb_true_iff in H1 as [A1 B1].
    apply andb_true_iff in H2 as [A2 B2]. rewrite (IH B1 B2), andb_true_r.
    apply negb_true_iff in A1, A2. now rewrite A1, A2. }
  destruct (strongs_g g Hg) as [-> | ->]; split;
    try (apply N); cbn [append dq lacks]; rewrite !lacks_app; cbn;
    rewrite ?L1, ?L2, ?L3; reflexivity.
Qed.

Lemma word_t1 : lacks "<"%char t1 = true.
Proof.
  unfold t1. cbn [append lacks]. rewrite lacks_app, (proj2 word_attrs). reflexivity.
Qed.

Lemma word_shape :
  a ++ element
  = (a ++ "<w " ++ attrs) ++ String ">"%char ((w ++ "</w") ++ String ">"%char b).
Proof. unfold element, t1, t2. cbn [append]. now rewrite !app_assoc_s. Qed.

Lemma word_straight :
  OSIS.substituteAll OSIS.straightSubstitutions (a ++ element) = a ++ element.
Proof.
  destruct (plain_lacks _ Ha) as [La Ga]. destruct (plain_lacks _ Hb) as [Lb Gb].
  destruct (plain_lacks _ Hw) as [Lw Gw].
  pose proof word_t1 as Lt1. destruct word_attrs as [Na Lattrs].
  assert (Lt2 : lacks "<"%char t2 = true) by reflexivity.
  normal_pattern OSIS.straightSubstitutions. cbn [OSIS.substituteAll].
  assert (E : replace " />" "/>" (a ++ element) = a ++ element).
  { unfold replace. rewrite word_shape, self_close_gap.
    - rewrite self_close_gap.
      + pose proof (replace_without ">"%char " />" "/>" b Gb eq_refl) as R.
        unfold replace in R. now rewrite R.
      + rewrite lacks_app, Gw. reflexivity.
      + rewrite last_app. discriminate.
    - rewrite !lacks_app, Ga. cbn [append lacks].
      now rewrite (allIn_NoneOf "/>" attrs ">"%char eq_refl Na).
    - unfold attrs. rewrite <- !app_assoc_s. unfold dq at 2.
      rewrite last_app. discriminate. }
  rewrite E.
  repeat (rewrite (replace_two_tags a t1 w t2 b La Lt1 Lw Lt2 Lb)
            by reflexivity).
  reflexivity.
Qed.

Lemma word_not_empty_element :
  matchAt OSIS.reWEmpty element = None.
Proof.
  destruct word_attrs as [Na _].
  assert (E : element = "<w " ++ attrs ++ ">" ++ w ++ "</w>" ++ b).
  { unfold element, t1, t2. cbn [append]. now rewrite !app_assoc_s. }
  rewrite E. normal_pattern OSIS.reWEmpty.
  rewrite matchAt_lit, matchAt_mark.
  rewrite matchAt_lazy_none; [reflexivity | | reflexivity | reflexivity].
  exact (allIn_NoneOf "/>" attrs "/"%char eq_refl Na).
Qed.

Lemma word_match :
  matchAt OSIS.reW element = Some (["<w "; attrs; ">"; w; "</w>"], b).
Proof.
  destruct (plain_lacks _ Hw) as [Lw _]. destruct word_attrs as [Na _].
  assert (E : element = "<w " ++ attrs ++ ">" ++ w ++ "</w>" ++ b).
  { unfold element, t1, t2. cbn [append]. now rewrite !app_assoc_s. }
  rewrite E. normal_pattern OSIS.reW.
  rewrite matchAt_lit, matchAt_mark.
  assert (Sh : attrs = String "l"%char ("emma=" ++ dq ++ ("strong:" ++ code) ++ dq))
    by reflexivity.
  rewrite Sh at 1.
  rewrite (matchAt_lazy_group _ _ _ _ _ ([EmptyString; ">"; w; "</w>"], b)).
  - rewrite pushs_Some, app_empty_r, <- Sh. reflexivity.
  - rewrite <- Sh. exact Na.
  - pose proof (allIn_NoneOf "/>" attrs ">"%char eq_refl Na) as L.
    rewrite Sh in L. cbn [lacks] in L. apply andb_true_iff in L as [_ L]. exact L.
  - rewrite matchAt_mark, matchAt_lit, matchAt_mark.
    rewrite (matchAt_lazy_group0 _ _ _ _ _ ([EmptyString; "</w>"], b)).
    + rewrite pushs_Some, app_empty_r. reflexivity.
    + exact Hline.
    + exact Lw.
    + reflexivity.
Qed.

Lemma word_tagged (fuel : nat) (moduleName BBB C V : string) :
  filterOSISVerseLine debugFlag (S (S fuel)) (a ++ element) moduleName BBB C V
  = Ok (a ++ w ++ "\str " ++ code ++ "\str*" ++ b).
Proof.
  destruct (plain_lacks _ Ha) as [La Ga]. destruct (plain_lacks _ Hb) as [Lb Gb].
  destruct (plain_lacks _ Hw) as [Lw Gw].
  pose proof word_t1 as Lt1.
  assert (Lt2 : lacks "<"%char t2 = true) by reflexivity.
  assert (Lout : lacks "<"%char (a ++ (w ++ "\str " ++ String g d ++ "\str*") ++ b) = true).
  { rewrite !lacks_app, La, Lw, Lb. cbn [lacks].
    rewrite (allIn_Digit_lacks "<"%char d eq_refl Hd).
    destruct (strongs_g g Hg) as [E|E]; rewrite E; reflexivity. }
  unfold filterOSISVerseLine. rewrite word_straight.
  repeat (miss_two (search_two_tags a t1 w t2 b La Lt1 Lw Lt2 Lb)
          || keep_two (replace_two_tags a t1 w t2 b La Lt1 Lw Lt2 Lb)).
  eapply bind_Ok_eq.
  { apply rewriteLoop_done. cbn [snd]. pose proof word_not_empty_element as M.
    revert M. normal_pattern OSIS.reWEmpty. intros M.
    apply (search_two_tags a t1 w t2 b La Lt1 Lw Lt2 Lb); [exact M | reflexivity]. }
  cbv beta.
  eapply bind_Ok_eq.
  { erewrite rewriteLoop_turn.
    2:{ cbn [snd]. pose proof word_match as M. revert M.
        normal_pattern OSIS.reW. intros M.
        exact (search_first_tag a t1 w t2 b La _ _ _ _ M). }
    cbn [fst]. unfold wBody, group. cbn [segs nth Nat.mul Nat.add Nat.sub before after].
    unfold attrs, code.
    rewrite (strongs_extracted debugFlag g d Hg Hd Hlo Hhi fuel).
    cbn [bind OSIS.emit].
    apply rewriteLoop_done. cbn [snd]. normal_pattern OSIS.reW.
    apply search_lacks. exact Lout. }
  cbv beta.
  repeat miss_loop Lout.
  cbn [snd].
  rewrite (replaceFixedPairs_without "<"%char (S (S fuel)) _ _ Lout).
  - cbn [bind]. unfold debuggingThisModule. rewrite !andb_false_r. cbn [bind].
    now rewrite !app_assoc_s.
  - unfold OSIS.replacementList.
    rewrite (contains_without "<"%char "<divineName>" _ Lout) by reflexivity.
    rewrite (contains_without "<"%char "<transChange>" _ Lout) by reflexivity.
    reflexivity.
Qed.

End Word.

(** X12: a word element that carries one Strong's number, in a verse that
    holds no other markup: [filterOSISVerseLine] returns the verse with the
    element replaced by its words followed by the number between the \str
    markers. *)
Theorem osis_word_with_strongs (debugFlag : bool) (fuel : nat)
  (front words back : string) (letter : ascii) (digits : string)
  (moduleName BBB C V : string) :
  plain front = true -> plain words = true -> plain back = true ->
  allIn Any words = true ->
  mem letter "GH" = true -> allIn Digit digits = true ->
  1 <= length digits -> length digits <= 5 ->
  filterOSISVerseLine debugFlag (S (S fuel))
    (front ++ "<w lemma=" ++ dq ++ "strong:" ++ String letter digits ++ dq ++ ">"
       ++ words ++ "</w>" ++ back)
    moduleName BBB C V
  = Ok (front ++ words ++ "\str " ++ String letter digits ++ "\str*" ++ back).
Proof.
  intros Hf Hw Hb Lw Hg Hd Hlo Hhi.
  replace (front ++ "<w lemma=" ++ dq ++ "strong:" ++ String letter digits ++ dq ++ ">"
             ++ words ++ "</w>" ++ back)
    with (front ++ String "<"%char
            ("w " ++ ("lemma=" ++ dq ++ ("strong:" ++ String letter digits) ++ dq) ++ ">")
            ++ words ++ String "<"%char "/w>" ++ back)
    by (cbn [append dq]; now rewrite !app_assoc_s).
  now apply word_tagged.
Qed.

Lemma osis_word_with_strongs_witness :
  filterOSISVerseLine false 2
    ("In the beginning <w lemma=" ++ dq ++ "strong:H0430" ++ dq ++ ">God</w> created")
    "KJV" "GEN" "1" "1"
  = Ok "In the beginning God\str H0430\str* created".
Proof.
  refine (osis_word_with_strongs false 0 "In the beginning " "God" " created"
            "H"%char "0430" "KJV" "GEN" "1" "1"
            eq_refl eq_refl eq_refl eq_refl eq_refl eq_refl _ _); simpl; lia.
Defined.


(** ** Lines of several tags *)

Lemma search_weave (lit' : string) (r' : regex) (l : list (string * string)) :
  woven l = true -> missAll (Lit (String "<"%char lit') :: r') l ->
  search (Lit (String "<"%char lit') :: r') (weave l) = None.
Proof.
  induction l as [|[t x] l IH]; intros W M; [reflexivity|].
  cbn [woven] in W. apply andb_true_iff in W as [W Wl].
  apply andb_true_iff in W as [Wt Wx]. destruct M as [M Ml].
  cbn [weave append] in *.
  rewrite (search_step _ _ _ _ _ M), (search_skip _ _ _ _ _ Wt),
    (search_skip _ _ _ _ _ Wx). now rewrite (IH Wl Ml).
Qed.

Lemma search_woven (lit' : string) (r' : regex) (a : string)
  (l : list (string * string)) :
  lacks "<"%char a = true -> woven l = true ->
  missAll (Lit (String "<"%char lit') :: r') l ->
  search (Lit (String "<"%char lit') :: r') (a ++ weave l) = None.
Proof.
  intros Ha W M. rewrite (search_skip _ _ _ _ _ Ha).
  now rewrite (search_weave _ _ l W M).
Qed.

Lemma search_head (lit' : string) (r' : regex) (a x : string)
  (sg : list string) (rest : string) :
  lacks "<"%char a = true ->
  matchAt (Lit (String "<"%char lit') :: r') (String "<"%char x) = Some (sg, rest) ->
  search (Lit (String "<"%char lit') :: r') (a ++ String "<"%char x)
  = Some (mkMatch a sg rest).
Proof.
  intros Ha M. rewrite (search_skip _ _ _ _ _ Ha).
  cbn [search]. rewrite M. cbn [option_map]. unfold shiftBy.
  cbn [before segs after]. now rewrite app_empty_r.
Qed.

Lemma replace_weave (old' new : string) (l : list (string * string)) :
  woven l = true -> absentAll (String "<"%char old') l ->
  replaceFrom 0 (String "<"%char old') new (weave l) = weave l.
Proof.
  induction l as [|[t x] l IH]; intros W M; [reflexivity|].
  cbn [woven] in W. apply andb_true_iff in W as [W Wl].
  apply andb_true_iff in W as [Wt Wx]. destruct M as [M Ml].
  cbn [weave append] in *.
  rewrite (replaceFrom_step _ _ _ _ M).
  rewrite (replaceFrom_skip _ _ _ _ _ Wt), (replaceFrom_skip _ _ _ _ _ Wx).
  now rewrite (IH Wl Ml).
Qed.

Lemma replace_woven (old' new a : string) (l : list (string * string)) :
  lacks "<"%char a = true -> woven l = true ->
  absentAll (String "<"%char old') l ->
  replace (String "<"%char old') new (a ++ weave l) = a ++ weave l.
Proof.
  intros Ha W M. unfold replace. rewrite (replaceFrom_skip _ _ _ _ _ Ha).
  now rewrite (replace_weave _ _ l W M).
Qed.


(** ** The OSIS filter: two quotations *)

Ltac miss_woven La W :=
  match goal with
  | |- bind (OSIS.rewriteLoop _ ?r _ _) _ = _ =>
      eapply bind_Ok_eq;
      [apply rewriteLoop_done; cbn [snd]; normal_pattern r;
       apply (search_woven _ _ _ _ La W); repeat split; reflexivity
      | cbv beta]
  | |- bind (OSIS.rewriteOnce ?r _ _) _ = _ =>
      eapply bind_Ok_eq;
      [apply rewriteOnce_done; cbn [snd]; normal_pattern r;
       apply (search_woven _ _ _ _ La W); repeat split; reflexivity
      | cbv beta]
  | |- bind (OSIS.substitute ?old ?new (?lc, ?s)) _ = _ =>
      eapply bind_Ok_eq;
      [unfold OSIS.substitute; cbn [fst snd];
       rewrite (replace_woven _ _ _ _ La W) by (repeat split; reflexivity);
       reflexivity
      | cbv beta]
  end.

Section TwoQuotes.

Variables a mid b : string.
Variables (e1 : ascii) (w1' : string) (e2 : ascii) (w2' : string).
Variables (c0 : ascii) (attrs' : string).
Let w1 : string := String e1 w1'.
Let w2 : string := String e2 w2'.
Let attrs : string := String c0 attrs'.

Hypothesis Ha : plain a = true.
Hypothesis Hmid : plain mid = true.
Hypothesis Hb : plain b = true.
Hypothesis Hw1 : plain w1 = true.
Hypothesis Hw2 : plain w2 = true.
Hypothesis Hline1 : allIn Any w1 = true.
Hypothesis Hline2 : allIn Any w2 = true.
Hypothesis Hattrs : allIn (NoneOf "/>") attrs = true.
Hypothesis Hattrs' : lacks "<"%char attrs = true.
Hypothesis Hwho : contains ("who=" ++ dq ++ "Jesus" ++ dq) attrs = false.

Let jesus : string := "who=" ++ dq ++ "Jesus" ++ dq.
Let t1 : string := "q " ++ jesus ++ ">".
Let t2 : string := "/q>".
Let t3 : string := "q " ++ attrs ++ ">".
Let pieces : list (string * string) := [(t1, w1); (t2, mid); (t3, w2); (t2, b)].
Let said : string := "\wj " ++ w1 ++ "\wj*".

Lemma quotes_woven : woven pieces = true.
Proof.
  destruct (plain_lacks _ Hmid) as [Lm _]. destruct (plain_lacks _ Hb) as [Lb _].
  destruct (plain_lacks _ Hw1) as [L1 _]. destruct (plain_lacks _ Hw2) as [L2 _].
  unfold pieces. cbn [woven]. rewrite Lm, Lb, L1, L2.
  unfold t3. cbn [append lacks]. rewrite lacks_app, Hattrs'. reflexivity.
Qed.

Lemma quotes_straight :
  OSIS.substituteAll OSIS.straightSubstitutions (a ++ weave pieces)
  = a ++ weave pieces.
Proof.
  destruct (plain_lacks _ Ha) as [La Ga]. destruct (plain_lacks _ Hb) as [Lb Gb].
  destruct (plain_lacks _ Hmid) as [Lm Gm].
  destruct (plain_lacks _ Hw1) as [L1 G1]. destruct (plain_lacks _ Hw2) as [L2 G2].
  pose proof quotes_woven as W.
  normal_pattern OSIS.straightSubstitutions. cbn [OSIS.substituteAll].
  assert (Sh : a ++ weave pieces
               = (a ++ "<q " ++ jesus) ++ String ">"%char
                   ((w1 ++ "</q") ++ String ">"%char
                      ((mid ++ "<q " ++ attrs) ++ String ">"%char
                         ((w2 ++ "</q") ++ String ">"%char b)))).
  { unfold pieces, t1, t2, t3. cbn [weave append]. rewrite !app_assoc_s.
    cbn [append]. now rewrite app_empty_r. }
  assert (E : replace " />" "/>" (a ++ weave pieces) = a ++ weave pieces).
  { unfold replace. rewrite Sh. rewrite !self_close_gap.
    - pose proof (replace_without ">"%char " />" "/>" b Gb eq_refl) as R.
      unfold replace in R. now rewrite R.
    - rewrite lacks_app, G2. reflexivity.
    - rewrite last_app. discriminate.
    - rewrite !lacks_app, Gm. cbn [append lacks].
      now rewrite (allIn_NoneOf "/>" attrs ">"%char eq_refl Hattrs).
    - unfold attrs. rewrite <- (app_assoc_s mid "<q " (String c0 attrs')), last_app.
      apply last_lacks. exact (allIn_NoneOf "/>" attrs "/"%char eq_refl Hattrs).
    - rewrite lacks_app, G1. reflexivity.
    - rewrite last_app. discriminate.
    - rewrite !lacks_app, Ga. reflexivity.
    - unfold jesus. rewrite <- !app_assoc_s. unfold dq at 2.
      rewrite last_app. discriminate. }
  rewrite E.
  repeat (rewrite (replace_woven _ _ _ _ La W) by (repeat split; reflexivity)).
  reflexivity.
Qed.

Lemma first_quote_match (rest : string) :
  matchAt OSIS.reQ (String "<"%char (t1 ++ w1 ++ String "<"%char t2 ++ rest))
  = Some (["<q "; jesus; ">"; w1; "</q>"], rest).
Proof.
  apply (quote_match rest "w"%char ("ho=" ++ dq ++ "Jesus" ++ dq) e1 w1' Hw1 Hline1).
  reflexivity.
Qed.

Lemma second_quote_match (rest : string) :
  matchAt OSIS.reQ (String "<"%char (t3 ++ w2 ++ String "<"%char t2 ++ rest))
  = Some (["<q "; attrs; ">"; w2; "</q>"], rest).
Proof. exact (quote_match rest c0 attrs' e2 w2' Hw2 Hline2 Hattrs). Qed.

Lemma quotes_stale (fuel : nat) (moduleName BBB C V : string) :
  filterOSISVerseLine false (S (S (S fuel))) (a ++ weave pieces) moduleName BBB C V
  = Ok (a ++ said ++ mid ++ said ++ b).
Proof.
  destruct (plain_lacks _ Ha) as [La Ga]. destruct (plain_lacks _ Hb) as [Lb Gb].
  destruct (plain_lacks _ Hmid) as [Lm Gm].
  destruct (plain_lacks _ Hw1) as [L1 G1]. destruct (plain_lacks _ Hw2) as [L2 G2].
  pose proof quotes_woven as W.
  assert (Lsaid : lacks "<"%char said = true).
  { unfold said. cbn [append lacks]. rewrite lacks_app, L1. reflexivity. }
  assert (Lfront : lacks "<"%char (a ++ said ++ mid) = true)
    by (now rewrite (lacks_app _ a), La, (lacks_app _ said), Lsaid, Lm).
  assert (Lout : lacks "<"%char ((a ++ said ++ mid) ++ said ++ b) = true)
    by (now rewrite (lacks_app _ (a ++ said ++ mid)), Lfront,
          (lacks_app _ said), Lsaid, Lb).
  assert (E2 : a ++ said ++ mid ++ weave [(t3, w2); (t2, b)]
               = (a ++ said ++ mid)
                   ++ String "<"%char (t3 ++ w2 ++ String "<"%char t2 ++ b ++ EmptyString)).
  { cbn [weave append]. rewrite !app_assoc_s. cbn [append]. reflexivity. }
  unfold filterOSISVerseLine. rewrite quotes_straight.
  repeat miss_woven La W.
  eapply bind_Ok_eq.
  { (* the first quotation, attributed to Jesus *)
    erewrite rewriteLoop_turn.
    2:{ cbn [snd]. pose proof (first_quote_match (mid ++ weave [(t3, w2); (t2, b)])) as M.
        revert M. normal_pattern OSIS.reQ. intros M.
        exact (search_head _ _ a _ _ _ La M). }
    cbn [fst]. unfold qBody, quoteBody, group.
    cbn [segs nth Nat.mul Nat.add Nat.sub before after].
    change (contains ("who=" ++ dq ++ "Jesus" ++ dq) jesus) with true.
    change (contains ("marker=" ++ dq) jesus) with false.
    cbn [andb bind OSIS.emit]. fold said.
    (* the second one, attributed to someone else *)
    erewrite rewriteLoop_turn.
    2:{ cbn [snd]. rewrite E2.
        pose proof (second_quote_match (b ++ EmptyString)) as M.
        revert M. normal_pattern OSIS.reQ. intros M.
        exact (search_head _ _ (a ++ said ++ mid) _ _ _ Lfront M). }
    cbn [fst]. unfold qBody, quoteBody, group.
    cbn [segs nth Nat.mul Nat.add Nat.sub before after].
    fold attrs. rewrite Hwho. unfold haltIfDebug.
    cbn [bind OSIS.readLocal OSIS.replacement OSIS.setReplacement].
    rewrite app_empty_r.
    apply rewriteLoop_done. cbn [snd]. normal_pattern OSIS.reQ.
    apply search_lacks. exact Lout. }
  cbv beta.
  repeat miss_loop Lout.
  cbn [snd].
  rewrite (replaceFixedPairs_without "<"%char _ _ _ Lout).
  - cbn [bind]. unfold debuggingThisModule. rewrite !andb_false_r. cbn [bind].
    now rewrite !app_assoc_s.
  - unfold OSIS.replacementList.
    rewrite (contains_without "<"%char "<divineName>" _ Lout) by reflexivity.
    rewrite (contains_without "<"%char "<transChange>" _ Lout) by reflexivity.
    reflexivity.
Qed.

End TwoQuotes.

(** X14: without the debug flag, a quotation attributed to someone else
    that comes after a quotation attributed to Jesus, in a verse that holds
    no other markup, is replaced by the words of Jesus over again: the loop
    of lines 424-437 assigns nothing to [replacement] for it and splices
    in the value left by the turn before.  The words of the second
    speaker are lost, and the filter returns normally. *)
Theorem osis_other_speaker_repeats_Jesus (fuel : nat)
  (front first between attributes second back moduleName BBB C V : string) :
  plain front = true -> plain between = true -> plain back = true ->
  plain first = true -> truthy first = true -> allIn Any first = true ->
  plain second = true -> truthy second = true -> allIn Any second = true ->
  truthy attributes = true -> allIn (NoneOf "/>") attributes = true ->
  lacks "<"%char attributes = true ->
  contains ("who=" ++ dq ++ "Jesus" ++ dq) attributes = false ->
  filterOSISVerseLine false (S (S (S fuel)))
    (front ++ "<q who=" ++ dq ++ "Jesus" ++ dq ++ ">" ++ first ++ "</q>"
       ++ between ++ "<q " ++ attributes ++ ">" ++ second ++ "</q>" ++ back)
    moduleName BBB C V
  = Ok (front ++ "\wj " ++ first ++ "\wj*" ++ between
          ++ "\wj " ++ first ++ "\wj*" ++ back).
Proof.
  intros Hf Hm Hb H1 T1 L1 H2 T2 L2 Ta Na La Hwho.
  destruct attributes as [|c0 attrs']; [discriminate|].
  destruct first as [|e1 w1']; [discriminate|].
  destruct second as [|e2 w2']; [discriminate|].
  pose proof (quotes_stale front between back e1 w1' e2 w2' c0 attrs'
                Hf Hm Hb H1 H2 L1 L2 Na La Hwho fuel moduleName BBB C V) as Q.
  cbn [weave] in Q. rewrite app_empty_r in Q.
  replace (front ++ "<q who=" ++ dq ++ "Jesus" ++ dq ++ ">" ++ String e1 w1' ++ "</q>"
             ++ between ++ "<q " ++ String c0 attrs' ++ ">" ++ String e2 w2'
             ++ "</q>" ++ back)
    with (front ++ String "<"%char ("q " ++ ("who=" ++ dq ++ "Jesus" ++ dq) ++ ">")
            ++ String e1 w1' ++ String "<"%char "/q>" ++ between
            ++ String "<"%char ("q " ++ String c0 attrs' ++ ">")
            ++ String e2 w2' ++ String "<"%char "/q>" ++ back)
    by (cbn [append dq]; now rewrite !app_assoc_s).
  rewrite Q. now rewrite !app_assoc_s.
Qed.

Lemma osis_other_speaker_repeats_Jesus_witness :
  filterOSISVerseLine false 3
    ("<q who=" ++ dq ++ "Jesus" ++ dq ++ ">Follow me</q> and <q who="
       ++ dq ++ "Peter" ++ dq ++ ">Lord</q>")
    "KJV" "JHN" "21" "19"
  = Ok "\wj Follow me\wj* and \wj Follow me\wj*".
Proof.
  exact (osis_other_speaker_repeats_Jesus 0 EmptyString "Follow me" " and "
           ("who=" ++ dq ++ "Peter" ++ dq) "Lord" EmptyString "KJV" "JHN" "21" "19"
           eq_refl eq_refl eq_refl eq_refl eq_refl eq_refl eq_refl eq_refl eq_refl
           eq_refl eq_refl eq_refl eq_refl).
Defined.


(** ** The GBF filter: footnote fields and numbers *)

Lemma startswith_app_drop (p sub x : string) :
  startswith (p ++ sub) x = true -> startswith sub (drop (length p) x) = true.
Proof.
  revert x. induction p as [|c p IH]; intros x H.
  - now rewrite drop_0.
  - destruct x as [|e x]; [discriminate|].
    cbn [append startswith] in H. apply andb_true_iff in H as [_ H].
    cbn [length drop]. now apply IH.
Qed.

Lemma startswith_prefix (sub r x : string) :
  startswith (sub ++ r) x = true -> startswith sub x = true.
Proof.
  revert x. induction sub as [|c sub IH]; intros x H; [reflexivity|].
  destruct x as [|e x]; [discriminate|].
  cbn [append startswith] in *. apply andb_true_iff in H as [H1 H2].
  now rewrite H1, (IH _ H2).
Qed.

Lemma drop_drop (i j : nat) (s : string) : drop i (drop j s) = drop (j + i) s.
Proof.
  revert s. induction j as [|j IH]; intros s; [now rewrite drop_0|].
  destruct s as [|c s]; [destruct i; reflexivity|]. cbn [drop Nat.add]. apply IH.
Qed.

(** A string that holds a part found nowhere in the line is not replaced
    anywhere. *)
Lemma replace_holding (p sub r new s : string) :
  sub <> EmptyString -> find0 sub s = None ->
  replace (p ++ sub ++ r) new s = s.
Proof.
  intros Hsub F. pose proof (find0_None _ _ F) as N.
  assert (O : forall j, startswith (p ++ sub ++ r) (drop j s) = false).
  { intros j. destruct (startswith (p ++ sub ++ r) (drop j s)) eqn:E; [|reflexivity].
    apply startswith_app_drop, startswith_prefix in E.
    rewrite drop_drop, N in E. discriminate. }
  unfold replace.
  destruct (p ++ sub ++ r) as [|c0 old0] eqn:Eold.
  { destruct p; [destruct sub; [congruence|discriminate] | discriminate]. }
  clear N F. induction s as [|c s IH]; [reflexivity|].
  pose proof (O 0) as O0. cbn [drop] in O0.
  cbn [replaceFrom]. rewrite O0. f_equal. apply IH.
  intros j. exact (O (S j)).
Qed.

Lemma find0_step (sub : string) (c : ascii) (x : string) :
  startswith sub (String c x) = false ->
  find0 sub (String c x) = option_map S (find0 sub x).
Proof. intros H. cbn [find0]. now rewrite H. Qed.

Lemma find0_weave (old' : string) (l : list (string * string)) :
  woven l = true -> absentAll (String "<"%char old') l ->
  find0 (String "<"%char old') (weave l) = None.
Proof.
  induction l as [|[t x] l IH]; intros W M; [reflexivity|].
  cbn [woven] in W. apply andb_true_iff in W as [W Wl].
  apply andb_true_iff in W as [Wt Wx]. destruct M as [M Ml].
  cbn [weave append] in *.
  rewrite (find0_step _ _ _ M), (find0_skip _ _ _ _ Wt), (find0_skip _ _ _ _ Wx).
  now rewrite (IH Wl Ml).
Qed.

Lemma find0_woven (old' a : string) (l : list (string * string)) :
  lacks "<"%char a = true -> woven l = true ->
  absentAll (String "<"%char old') l ->
  find0 (String "<"%char old') (a ++ weave l) = None.
Proof.
  intros Ha W M. rewrite (find0_skip _ _ _ _ Ha).
  now rewrite (find0_weave _ l W M).
Qed.

(** The ASV patch of line 797 leaves every line without the caller of
    note 1 as it is. *)
Lemma asv_patch_idle (moduleName a : string) (l : list (string * string)) :
  lacks "<"%char a = true -> woven l = true -> absentAll "<RF>1<Rf>" l ->
  (if String.eqb moduleName "ASV"
   then replace "pit of the<RF>1<Rf> shearing" "pit of the<RF>2<Rf> shearing"
          (a ++ weave l)
   else a ++ weave l) = a ++ weave l.
Proof.
  intros Ha W M. destruct (String.eqb moduleName "ASV"); [|reflexivity].
  apply (replace_holding "pit of the" "<RF>1<Rf>" " shearing"); [discriminate|].
  now apply find0_woven.
Qed.

Lemma not_digit_not (c d : ascii) :
  isdigit c = false -> isdigit d = true -> Ascii.eqb d c = false.
Proof.
  intros Hc Hd. destruct (Ascii.eqb_spec d c) as [->|]; [congruence | reflexivity].
Qed.

Lemma rewriteAll_turn (fuel : nat) (r : regex) (body : rmatch -> result string)
  (s : string) (mt : rmatch) :
  search r s = Some mt ->
  rewriteAll (S fuel) r body s
  = (replacement <- body mt ;;
     rewriteAll fuel r body (before mt ++ replacement ++ after mt)).
Proof. intros H. cbn [rewriteAll]. now rewrite H. Qed.

Section Footnote.

Variable debugFlag : bool.
Variables a b : string.
Variables (c : ascii) (n' : string).
Let note : string := String c n'.

Hypothesis Ha : lacks "<"%char a = true.
Hypothesis Hb : lacks "<"%char b = true.
Hypothesis Hn : lacks "<"%char note = true.
Hypothesis Hc : isdigit c = false.
Hypothesis Hline : allIn Any note = true.

Let pieces : list (string * string) := [("RF>", note); ("Rf>", b)].

Lemma footnote_woven : woven pieces = true.
Proof. unfold pieces. cbn [woven]. now rewrite Hn, Hb. Qed.

Lemma footnote_no_caller : search GBF.reCaller (a ++ weave pieces) = None.
Proof.
  normal_pattern GBF.reCaller.
  apply (search_woven _ _ _ _ Ha footnote_woven).
  split; [|split; [reflexivity | exact I]].
  unfold pieces, note. cbn [weave append matchAt lit Ascii.eqb Bool.eqb pushc].
  cbn [rep mayMore inCls andb]. rewrite Hc. reflexivity.
Qed.

Lemma footnote_found :
  search GBF.reFootnote (a ++ weave pieces)
  = Some (mkMatch a ["<RF>"; note; "<Rf>"] b).
Proof.
  assert (M : matchAt [Lit "<RF>"; Mark; Rep false 1 None Any; Mark; Lit "<Rf>"]
                ("<RF>" ++ note ++ "<Rf>" ++ b)
              = Some (["<RF>"; note; "<Rf>"], b)).
  { rewrite matchAt_lit, matchAt_mark. unfold note at 1.
    rewrite (matchAt_lazy_group _ _ _ _ _ ([EmptyString; "<Rf>"], b)).
    - rewrite pushs_Some, app_empty_r. reflexivity.
    - exact Hline.
    - unfold note in Hn. cbn [lacks] in Hn. apply andb_true_iff in Hn as [_ H]. exact H.
    - reflexivity. }
  normal_pattern GBF.reFootnote. unfold pieces. cbn [weave].
  rewrite app_empty_r.
  exact (search_head _ _ a _ _ _ Ha M).
Qed.

Hypothesis Hla : lacks "010"%char a = true.
Hypothesis Hlb : lacks "010"%char b = true.

Lemma allIn_Any_lacks (s : string) : allIn Any s = true -> lacks "010"%char s = true.
Proof.
  induction s as [|e s IH]; [reflexivity|]. cbn [allIn lacks inCls].
  intros H. apply andb_true_iff in H as [H1 H2]. now rewrite H1, (IH H2).
Qed.

Lemma footnote_filtered (fuel : nat) (moduleName BBB C V : string) :
  filterGBFVerseLine debugFlag (S (S fuel)) (a ++ weave pieces) moduleName BBB C V
  = Ok (a ++ GBF.footnote note ++ b).
Proof.
  pose proof footnote_woven as W.
  assert (Lnote : lacks "<"%char (GBF.footnote note) = true).
  { unfold GBF.footnote. cbn [append lacks]. rewrite lacks_app, Hn. reflexivity. }
  assert (Lout : lacks "<"%char (a ++ GBF.footnote note ++ b) = true)
    by (now rewrite (lacks_app _ a), Ha, (lacks_app _ (GBF.footnote note)), Lnote, Hb).
  assert (Nout : lacks "010"%char (a ++ GBF.footnote note ++ b) = true).
  { rewrite (lacks_app _ a), Hla, (lacks_app _ (GBF.footnote note)), Hlb.
    unfold GBF.footnote. cbn [append lacks]. rewrite lacks_app.
    now rewrite (allIn_Any_lacks _ Hline). }
  destruct (gbf_lacks _ Lout) as (_ & _ & _ & M4 & M5 & M6 & M7).
  unfold filterGBFVerseLine.
  rewrite (asv_patch_idle moduleName a pieces Ha W).
  2:{ split; [|split; [reflexivity | exact I]].
      unfold pieces, note. cbn [weave append]. rewrite !startswith_unfold.
      now rewrite (not_digit_not c "1"%char Hc eq_refl). }
  cbn [GBF.callerLoop GBF.csLine]. rewrite footnote_no_caller. cbn [bind GBF.csLine].
  rewrite (rewriteAll_turn _ _ _ _ _ footnote_found).
  unfold group. cbn [bind before after segs nth Nat.mul Nat.add Nat.sub].
  rewrite (rewriteAll_done _ _ _ _ M4). cbn [bind].
  rewrite (rewriteAll_done _ _ _ _ M5). cbn [bind].
  rewrite (rewriteAll_done _ _ _ _ M6). cbn [bind].
  rewrite (rewriteAll_done _ _ _ _ M7). cbn [bind].
  rewrite (replaceFixedPairs_without "<"%char _ _ _ Lout) by reflexivity.
  cbn [bind].
  rewrite (replace_without "<"%char "<CM>" _ _ Lout) by reflexivity.
  rewrite (replace_without "<"%char "<Fo>" _ _ Lout) by reflexivity.
  rewrite (replace_without "010"%char nl _ _ Nout) by reflexivity.
  unfold leftoverCheck, debuggingThisModule. rewrite !andb_false_r. reflexivity.
Qed.

End Footnote.

(** X7: a footnote field whose text does not begin with a digit, in a
    verse that holds no other markup and no newline: [filterGBFVerseLine]
    returns the verse with the field turned into a footnote,
    \f + \ft text \f*, whatever the module. *)
Theorem gbf_footnote_field (debugFlag : bool) (fuel : nat)
  (front : string) (first : ascii) (text back moduleName BBB C V : string) :
  lacks "<"%char front = true -> lacks "<"%char back = true ->
  lacks "010"%char front = true -> lacks "010"%char back = true ->
  lacks "<"%char (String first text) = true ->
  allIn Any (String first text) = true ->
  isdigit first = false ->
  filterGBFVerseLine debugFlag (S (S fuel))
    (front ++ "<RF>" ++ String first text ++ "<Rf>" ++ back) moduleName BBB C V
  = Ok (front ++ "\f + \ft " ++ String first text ++ "\f*" ++ back).
Proof.
  intros Hf Hb Nf Nb Hn Ln Hc.
  pose proof (footnote_filtered debugFlag front back first text
                Hf Hb Hn Hc Ln Nf Nb fuel moduleName BBB C V) as Q.
  cbn [weave] in Q. rewrite app_empty_r in Q.
  replace (front ++ "<RF>" ++ String first text ++ "<Rf>" ++ back)
    with (front ++ String "<"%char "RF>" ++ String first text
            ++ String "<"%char "Rf>" ++ back)
    by (cbn [append]; reflexivity).
  rewrite Q. unfold GBF.footnote. now rewrite !app_assoc_s.
Qed.

Lemma gbf_footnote_field_witness :
  filterGBFVerseLine false 2 "the deep<RF>Heb. the abyss<Rf> and" "KJV" "GEN" "1" "2"
  = Ok "the deep\f + \ft Heb. the abyss\f* and".
Proof.
  exact (gbf_footnote_field false 0 "the deep" "H"%char "eb. the abyss" " and"
           "KJV" "GEN" "1" "2"
           eq_refl eq_refl eq_refl eq_refl eq_refl eq_refl eq_refl).
Defined.


(** A tag made of a literal, a run of digits and [>]. *)
Lemma matchAt_number (opening : string) (hi : nat) (d x : string) :
  allIn Digit d = true -> 1 <= length d -> length d <= hi ->
  matchAt [Lit opening; Mark; Rep true 1 (Some hi) Digit; Mark; Lit ">"]
    (opening ++ d ++ ">" ++ x)
  = Some ([opening; d; ">"], x).
Proof.
  intros Hd Hlo Hhi. rewrite matchAt_lit, matchAt_mark.
  change (matchAt [Rep true 1 (Some hi) Digit; Mark; Lit ">"] (d ++ ">" ++ x))
    with (rep true Digit 1 (Some hi) (matchAt [Mark; Lit ">"]) (d ++ ">" ++ x)).
  rewrite (rep_greedy_run Digit _ (">" ++ x) EmptyString [">"] x eq_refl eq_refl d 1 hi Hd Hlo Hhi).
  cbn [pushm]. now rewrite pushs_Some, !app_empty_r.
Qed.

Section GBFStrongs.

Variable debugFlag : bool.
Variables a b d : string.
Hypothesis Ha : lacks "<"%char a = true.
Hypothesis Hb : lacks "<"%char b = true.
Hypothesis Hla : lacks "010"%char a = true.
Hypothesis Hlb : lacks "010"%char b = true.
Hypothesis Hd : allIn Digit d = true.
Hypothesis Hlo : 1 <= length d.
Hypothesis Hhi : length d <= 4.

Let hebrew : list (string * string) := [("WH0" ++ d ++ ">", b)].
Let greek : list (string * string) := [("WG" ++ d ++ ">", b)].

Lemma hebrew_woven : woven hebrew = true.
Proof.
  unfold hebrew. cbn [woven append lacks].
  now rewrite lacks_app, (allIn_Digit_lacks "<"%char d eq_refl Hd), Hb.
Qed.

Lemma greek_woven : woven greek = true.
Proof.
  unfold greek. cbn [woven append lacks].
  now rewrite lacks_app, (allIn_Digit_lacks "<"%char d eq_refl Hd), Hb.
Qed.

Lemma number_out (marker : string) :
  lacks "<"%char marker = true -> lacks "010"%char marker = true ->
  lacks "<"%char (a ++ (marker ++ d ++ " \str*") ++ b) = true
  /\ lacks "010"%char (a ++ (marker ++ d ++ " \str*") ++ b) = true.
Proof.
  intros H1 H2. rewrite !lacks_app, Ha, Hb, Hla, Hlb, H1, H2.
  rewrite (allIn_Digit_lacks "<"%char d eq_refl Hd).
  rewrite (allIn_Digit_lacks "010"%char d eq_refl Hd). split; reflexivity.
Qed.

Lemma hebrew_filtered (fuel : nat) (moduleName BBB C V : string) :
  filterGBFVerseLine debugFlag (S (S fuel)) (a ++ "<WH0" ++ d ++ ">" ++ b)
    moduleName BBB C V
  = Ok (a ++ "\str H" ++ d ++ " \str*" ++ b).
Proof.
  pose proof hebrew_woven as W.
  destruct (number_out "\str H" eq_refl eq_refl) as [Lout Nout].
  destruct (gbf_lacks _ Lout) as (_ & _ & _ & _ & _ & M6 & M7).
  assert (E : a ++ "<WH0" ++ d ++ ">" ++ b = a ++ weave hebrew).
  { unfold hebrew. cbn [weave append]. now rewrite !app_assoc_s, app_empty_r. }
  rewrite E. unfold filterGBFVerseLine.
  rewrite (asv_patch_idle moduleName a hebrew Ha W) by (split; [reflexivity | exact I]).
  cbn [GBF.callerLoop GBF.csLine].
  assert (M1 : search GBF.reCaller (a ++ weave hebrew) = None).
  { normal_pattern GBF.reCaller. apply (search_woven _ _ _ _ Ha W).
    split; [reflexivity | exact I]. }
  assert (M4 : search GBF.reFootnote (a ++ weave hebrew) = None).
  { normal_pattern GBF.reFootnote. apply (search_woven _ _ _ _ Ha W).
    split; [reflexivity | exact I]. }
  assert (M5 : search GBF.reWT (a ++ weave hebrew) = None).
  { normal_pattern GBF.reWT. apply (search_woven _ _ _ _ Ha W).
    split; [reflexivity | exact I]. }
  assert (F : search GBF.reWH (a ++ weave hebrew)
              = Some (mkMatch a ["<WH0"; d; ">"] b)).
  { pose proof (matchAt_number "<WH0" 4 d b Hd Hlo Hhi) as M.
    normal_pattern GBF.reWH. rewrite <- E.
    exact (search_head _ _ a _ _ _ Ha M). }
  rewrite M1. cbn [bind GBF.csLine].
  rewrite (rewriteAll_done _ _ _ _ M4). cbn [bind].
  rewrite (rewriteAll_done _ _ _ _ M5). cbn [bind].
  rewrite (rewriteAll_turn _ _ _ _ _ F).
  unfold group. cbn [bind before after segs nth Nat.mul Nat.add Nat.sub].
  rewrite (rewriteAll_done _ _ _ _ M6). cbn [bind].
  rewrite (rewriteAll_done _ _ _ _ M7). cbn [bind].
  rewrite (replaceFixedPairs_without "<"%char _ _ _ Lout) by reflexivity.
  cbn [bind].
  rewrite (replace_without "<"%char "<CM>" _ _ Lout) by reflexivity.
  rewrite (replace_without "<"%char "<Fo>" _ _ Lout) by reflexivity.
  rewrite (replace_without "010"%char nl _ _ Nout) by reflexivity.
  unfold leftoverCheck, debuggingThisModule. rewrite !andb_false_r.
  cbn [bind]. now rewrite !app_assoc_s.
Qed.

Lemma greek_filtered (fuel : nat) (moduleName BBB C V : string) :
  filterGBFVerseLine debugFlag (S (S fuel)) (a ++ "<WG" ++ d ++ ">" ++ b)
    moduleName BBB C V
  = Ok (a ++ "\str G" ++ d ++ " \str*" ++ b).
Proof.
  pose proof greek_woven as W.
  destruct (number_out "\str G" eq_refl eq_refl) as [Lout Nout].
  destruct (gbf_lacks _ Lout) as (_ & _ & _ & _ & _ & _ & M7).
  assert (E : a ++ "<WG" ++ d ++ ">" ++ b = a ++ weave greek).
  { unfold greek. cbn [weave append]. now rewrite !app_assoc_s, app_empty_r. }
  rewrite E. unfold filterGBFVerseLine.
  rewrite (asv_patch_idle moduleName a greek Ha W) by (split; [reflexivity | exact I]).
  cbn [GBF.callerLoop GBF.csLine].
  assert (M1 : search GBF.reCaller (a ++ weave greek) = None).
  { normal_pattern GBF.reCaller. apply (search_woven _ _ _ _ Ha W).
    split; [reflexivity | exact I]. }
  assert (M4 : search GBF.reFootnote (a ++ weave greek) = None).
  { normal_pattern GBF.reFootnote. apply (search_woven _ _ _ _ Ha W).
    split; [reflexivity | exact I]. }
  assert (M5 : search GBF.reWT (a ++ weave greek) = None).
  { normal_pattern GBF.reWT. apply (search_woven _ _ _ _ Ha W).
    split; [reflexivity | exact I]. }
  assert (M6 : search GBF.reWH (a ++ weave greek) = None).
  { normal_pattern GBF.reWH. apply (search_woven _ _ _ _ Ha W).
    split; [reflexivity | exact I]. }
  assert (F : search GBF.reWG (a ++ weave greek)
              = Some (mkMatch a ["<WG"; d; ">"] b)).
  { pose proof (matchAt_number "<WG" 4 d b Hd Hlo Hhi) as M.
    normal_pattern GBF.reWG. rewrite <- E.
    exact (search_head _ _ a _ _ _ Ha M). }
  rewrite M1. cbn [bind GBF.csLine].
  rewrite (rewriteAll_done _ _ _ _ M4). cbn [bind].
  rewrite (rewriteAll_done _ _ _ _ M5). cbn [bind].
  rewrite (rewriteAll_done _ _ _ _ M6). cbn [bind].
  rewrite (rewriteAll_turn _ _ _ _ _ F).
  unfold group. cbn [bind before after segs nth Nat.mul Nat.add Nat.sub].
  rewrite (rewriteAll_done _ _ _ _ M7). cbn [bind].
  rewrite (replaceFixedPairs_without "<"%char _ _ _ Lout) by reflexivity.
  cbn [bind].
  rewrite (replace_without "<"%char "<CM>" _ _ Lout) by reflexivity.
  rewrite (replace_without "<"%char "<Fo>" _ _ Lout) by reflexivity.
  rewrite (replace_without "010"%char nl _ _ Nout) by reflexivity.
  unfold leftoverCheck, debuggingThisModule. rewrite !andb_false_r.
  cbn [bind]. now rewrite !app_assoc_s.
Qed.

End GBFStrongs.

(** X8: a Strong's number tag of one to four digits, in a verse that
    holds no other markup and no newline: [filterGBFVerseLine] turns the
    Hebrew form, which begins with a zero that is dropped, and the Greek
    form into the number between the \str markers. *)
Theorem gbf_strongs_numbers (debugFlag : bool) (fuel : nat)
  (front digits back moduleName BBB C V : string) :
  lacks "<"%char front = true -> lacks "<"%char back = true ->
  lacks "010"%char front = true -> lacks "010"%char back = true ->
  allIn Digit digits = true -> 1 <= length digits -> length digits <= 4 ->
  filterGBFVerseLine debugFlag (S (S fuel))
    (front ++ "<WH0" ++ digits ++ ">" ++ back) moduleName BBB C V
  = Ok (front ++ "\str H" ++ digits ++ " \str*" ++ back)
  /\ filterGBFVerseLine debugFlag (S (S fuel))
       (front ++ "<WG" ++ digits ++ ">" ++ back) moduleName BBB C V
     = Ok (front ++ "\str G" ++ digits ++ " \str*" ++ back).
Proof.
  intros Hf Hb Nf Nb Hd Hlo Hhi. split.
  - now apply hebrew_filtered.
  - now apply greek_filtered.
Qed.

Lemma gbf_strongs_numbers_witness :
  filterGBFVerseLine false 2 "God<WH0430> created" "KJV" "GEN" "1" "1"
  = Ok "God\str H430 \str* created"
  /\ filterGBFVerseLine false 2 "God<WG430> created" "KJV" "GEN" "1" "1"
     = Ok "God\str G430 \str* created".
Proof.
  refine (gbf_strongs_numbers false 0 "God" "430" " created" "KJV" "GEN" "1" "1"
            eq_refl eq_refl eq_refl eq_refl eq_refl _ _); simpl; lia.
Defined.

